(** * Bundle update and release-note synthesis: a shallow embedding

    This development embeds [adabot/circuitpython_bundle.py] in Rocq and
    proves properties of its status scanner, reference resolver,
    contributor aggregator, library-list synchronizer and release
    composer.

    Conventions.
    - Python text is a [string]; every character is a code point below
      256.  [bytes.decode] and the implicit encoding done by the
      key-value store are therefore the identity on the payload, while
      the [bytes]/[str] distinction itself is kept ([handle]).
    - Python integers are [Z].
    - A Python [dict] is an association list in insertion order without
      repeated keys.
    - Effects (current directory, standard output, the key-value store,
      the listing document, the work tree and the hosting service) are
      threaded through a state-and-exception monad [M]. *)

From Stdlib Require Import List Bool Arith ZArith Lia Ascii String.
From Stdlib Require Import Permutation Sorted DecimalString.
Import ListNotations.

Open Scope list_scope.
Open Scope string_scope.

(* ================================================================= *)
(** ** Python text primitives *)

Module PyStr.

(** [str.isspace] for one code point below 256. *)
Definition is_space (c : ascii) : bool :=
  let n := nat_of_ascii c in
  (((9 <=? n) && (n <=? 13)) || ((28 <=? n) && (n <=? 32))
   || (n =? 133) || (n =? 160))%nat.

(** The line boundaries recognised by [str.splitlines]. *)
Definition is_linebreak (c : ascii) : bool :=
  let n := nat_of_ascii c in
  (((10 <=? n) && (n <=? 13)) || ((28 <=? n) && (n <=? 30))
   || (n =? 133))%nat.

Definition LF : ascii := ascii_of_nat 10.
Definition CR : ascii := ascii_of_nat 13.
Definition NL : string := String LF "".

Fixpoint rev (s : string) : string :=
  match s with
  | "" => ""
  | String c s' => rev s' ++ String c ""
  end.

Fixpoint drop_while (p : ascii -> bool) (s : string) : string :=
  match s with
  | "" => ""
  | String c s' => if p c then drop_while p s' else s
  end.

(** [s.strip()] and [s.strip(chars)] for a character class [p]. *)
Definition strip_with (p : ascii -> bool) (s : string) : string :=
  rev (drop_while p (rev (drop_while p s))).

Definition strip (s : string) : string := strip_with is_space s.

Definition strip_char (c : ascii) (s : string) : string :=
  strip_with (Ascii.eqb c) s.

(** [s.split()] : split on runs of whitespace, no empty tokens. *)
Fixpoint split_ws (s : string) : list string :=
  match s with
  | "" => []
  | String c s' =>
      if is_space c then split_ws s'
      else match s' with
           | "" => [String c ""]
           | String c' _ =>
               if is_space c' then String c "" :: split_ws s'
               else match split_ws s' with
                    | t :: ts => String c t :: ts
                    | [] => [String c ""]
                    end
           end
  end.

(** [s.split(sep)] for a one-character separator: never empty. *)
Fixpoint split_on (sep : ascii) (s : string) : list string :=
  match s with
  | "" => [""]
  | String c s' =>
      if Ascii.eqb c sep then "" :: split_on sep s'
      else match split_on sep s' with
           | t :: ts => String c t :: ts
           | [] => [String c ""]
           end
  end.

(** [s.splitlines()]: a carriage return directly followed by a line
    feed is one boundary; no empty last line after a final boundary. *)
Fixpoint splitlines (s : string) : list string :=
  match s with
  | "" => []
  | String c s' =>
      if is_linebreak c then
        match s' with
        | String c' s'' =>
            if Ascii.eqb c CR && Ascii.eqb c' LF
            then "" :: splitlines s''
            else "" :: splitlines s'
        | "" => [""]
        end
      else match splitlines s' with
           | l :: ls => String c l :: ls
           | [] => [String c ""]
           end
  end.

Definition startswith (p s : string) : bool := String.prefix p s.

Definition endswith (p s : string) : bool := String.prefix (rev p) (rev s).

(** [p in s] for text. *)
Fixpoint contains (p s : string) : bool :=
  String.prefix p s
  || match s with
     | "" => false
     | String _ s' => contains p s'
     end.

(** [sep.join(l)]. *)
Definition join (sep : string) (l : list string) : string :=
  String.concat sep l.

(** [s.replace(c, r)] for a one-character pattern. *)
Fixpoint replace_char (c : ascii) (r : string) (s : string) : string :=
  match s with
  | "" => ""
  | String d s' =>
      if Ascii.eqb d c then r ++ replace_char c r s'
      else String d (replace_char c r s')
  end.

(** [s.lower()] on code points below 256. *)
Definition lower_char (c : ascii) : ascii :=
  let n := nat_of_ascii c in
  if (((65 <=? n) && (n <=? 90))
      || ((192 <=? n) && (n <=? 222) && negb (n =? 215)))%nat
  then ascii_of_nat (n + 32) else c.

Fixpoint lower (s : string) : string :=
  match s with
  | "" => ""
  | String c s' => String (lower_char c) (lower s')
  end.

(** [s.rfind(c)]: the last index of [c], or -1. *)
Fixpoint rfind_from (c : ascii) (s : string) (i : Z) (last : Z) : Z :=
  match s with
  | "" => last
  | String d s' => rfind_from c s' (i + 1)%Z (if Ascii.eqb d c then i else last)
  end.

Definition rfind (c : ascii) (s : string) : Z := rfind_from c s 0%Z (-1)%Z.

(** [s[i:j]] for [0 <= i] and [0 <= j]. *)
Definition slice (s : string) (i j : Z) : string :=
  String.substring (Z.to_nat i) (Z.to_nat (j - i)) s.

(** [s[:-n]]. *)
Definition drop_last (n : nat) (s : string) : string :=
  String.substring 0 (String.length s - n) s.

(** [str(n)] for a natural number. *)
Definition of_nat (n : nat) : string :=
  NilZero.string_of_uint (Nat.to_uint n).

End PyStr.

Import PyStr.

(* ================================================================= *)
(** ** Exceptions, external data and the world *)

(** The exception classes the engine meets.  [ErrorReturnCode n] is
    [sh.ErrorReturnCode_n], raised when a version-control command
    exits with status [n]; it derives from [Exception], not from
    [RuntimeError]. *)
Inductive exn : Type :=
| RuntimeError (msg : string)
| ErrorReturnCode (code : nat)
| OSError (msg : string)
| ValueError (msg : string)
| IndexError
| KeyError (key : string)
| AttributeError
| OtherError (name : string).

(** [isinstance(e, RuntimeError)]. *)
Definition is_RuntimeError (e : exn) : bool :=
  match e with
  | RuntimeError _ => true
  | _ => false
  end.

(** [str(e)] as printed by the top-level handler. *)
Definition exn_text (e : exn) : string :=
  match e with
  | RuntimeError msg => msg
  | ErrorReturnCode _ => "ErrorReturnCode"
  | OSError msg => msg
  | ValueError msg => msg
  | IndexError => "list index out of range"
  | KeyError key => key
  | AttributeError => "AttributeError"
  | OtherError name => name
  end.

Inductive result (A : Type) : Type :=
| Ok (a : A)
| Raise (e : exn).

Arguments Ok {A} a.
Arguments Raise {A} e.

(** One entry of the bundle's submodule enumeration:
    [(name, {"path": ..., "url": ...})]. *)
Record submodule : Type := {
  sm_name : string;
  sm_path : string;
  sm_url : string
}.

(** The author and committer objects of a commit-detail response;
    [None] is a JSON [null], [Some login] an account object. *)
Record commit_info : Type := {
  ci_author : option string;
  ci_committer : option string
}.

(** The payload posted to the release-creation endpoint. *)
Record release : Type := {
  tag_name : string;
  target_commitish : string;
  name : string;
  body : string;
  draft : bool;
  prerelease : bool
}.

Record response : Type := {
  ok : bool;
  request_url : string;
  text : string
}.

(** What [print] wrote: text, or the [repr] of a release payload
    (whose rendering is not modelled). *)
Inductive printed : Type :=
| PText (s : string)
| PRelease (r : release).

(** A record of one interaction with an external collaborator. *)
Inductive call : Type :=
| GitCall (cwd : string) (argv : list string)
| GithubGet (url : string)
| GithubPost (url : string) (payload : release).

Definition is_post (c : call) : bool :=
  match c with
  | GithubPost _ _ => true
  | _ => false
  end.

(** Association lists, most recent binding first. *)
Definition store := list (string * string).

Fixpoint store_get (k : string) (m : store) : option string :=
  match m with
  | [] => None
  | (k', v) :: m' => if String.eqb k k' then Some v else store_get k m'
  end.

Definition store_set (k v : string) (m : store) : store := (k, v) :: m.

(** A contributor identity as the aggregator holds it: [str] when it
    was decoded or came from the hosting service, [bytes] when it is a
    raw cache value. *)
Inductive handle : Type :=
| HStr (s : string)
| HBytes (s : string).

Definition handle_eqb (a b : handle) : bool :=
  match a, b with
  | HStr x, HStr y => String.eqb x y
  | HBytes x, HBytes y => String.eqb x y
  | _, _ => false
  end.

(** Truth value of an optional handle: [None] and empty text are false. *)
Definition truthy (h : option handle) : bool :=
  match h with
  | None => false
  | Some (HStr s) | Some (HBytes s) => negb (String.eqb s "")
  end.

(** [f"{x}"] for a handle that is a [str]; the [repr] of a [bytes]
    value is rendered for printable payloads without quotes. *)
Definition handle_text (h : handle) : string :=
  match h with
  | HStr s => s
  | HBytes s => "b'" ++ s ++ "'"
  end.

(** A contributor tally: a [dict] from handle to weight, in insertion
    order. *)
Definition tally := list (handle * Z).

Fixpoint tally_get (k : handle) (d : tally) : option Z :=
  match d with
  | [] => None
  | (k', v) :: d' => if handle_eqb k k' then Some v else tally_get k d'
  end.

(** [k in d]. *)
Definition tally_mem (k : handle) (d : tally) : bool :=
  match tally_get k d with
  | Some _ => true
  | None => false
  end.

(** [d[k] = v]: overwrite in place, or append a new key at the end. *)
Fixpoint tally_set (k : handle) (v : Z) (d : tally) : tally :=
  match d with
  | [] => [(k, v)]
  | (k', v') :: d' =>
      if handle_eqb k k' then (k', v) :: d' else (k', v') :: tally_set k v d'
  end.

(** [d[k] += n] for a key known to be present. *)
Definition tally_incr (k : handle) (n : Z) (d : tally) : tally :=
  match tally_get k d with
  | Some v => tally_set k (v + n)%Z d
  | None => d
  end.

(** [if k not in d: d[k] = 0]. *)
Definition tally_touch (k : handle) (d : tally) : tally :=
  if tally_mem k d then d else tally_set k 0%Z d.

Definition keys (d : tally) : list handle := map fst d.

(** A stable sort, as [sorted]: [le a b] says that [a] may stay in
    front of [b]. *)
Fixpoint insert_sorted {A} (le : A -> A -> bool) (x : A) (l : list A)
  : list A :=
  match l with
  | [] => [x]
  | y :: l' => if le x y then x :: l else y :: insert_sorted le x l'
  end.

Fixpoint py_sorted {A} (le : A -> A -> bool) (l : list A) : list A :=
  match l with
  | [] => []
  | x :: l' => insert_sorted le x (py_sorted le l')
  end.

(** The external collaborators, over a type [Ext] of everything
    outside the process that is not the listing document: the work
    trees, the remotes, the hosting service, the clock.  Read-only
    version-control commands ([describe], [log], [diff], [status],
    [remote get-url]) are answered by [git_read] with the exit status
    and the captured standard output; the others go through [git_exec]
    and may change the outside world and the files. *)
Record Env (Ext : Type) : Type := {
  environ : store;
  sys_isdir : Ext -> string -> bool;
  sys_makedirs : Ext -> string -> result Ext;
  git_read : Ext -> store -> string -> list string -> nat * string;
  git_exec : Ext -> store -> string -> list string -> nat * (Ext * store);
  github_get_tag_name : Ext -> string -> result string;
  github_get_commit : Ext -> string -> result commit_info;
  github_post : Ext -> string -> release -> result response * Ext;
  strftime_today : Ext -> string -> string;
  get_bundle_submodules : Ext -> string -> result (list submodule);
  repo_is_on_pypi : Ext -> string -> result bool;
  get_docs_link : Ext -> string -> submodule -> result (option string)
}.

Arguments environ {Ext} _.
Arguments sys_isdir {Ext} _ _ _.
Arguments sys_makedirs {Ext} _ _ _.
Arguments git_read {Ext} _ _ _ _ _.
Arguments git_exec {Ext} _ _ _ _ _.
Arguments github_get_tag_name {Ext} _ _ _.
Arguments github_get_commit {Ext} _ _ _.
Arguments github_post {Ext} _ _ _ _.
Arguments strftime_today {Ext} _ _ _.
Arguments get_bundle_submodules {Ext} _ _ _.
Arguments repo_is_on_pypi {Ext} _ _ _.
Arguments get_docs_link {Ext} _ _ _ _.

(** The state the process acts on.  [files] holds the documents the
    engine itself reads and writes, keyed by absolute path.  [out] and
    [calls] grow at the head: the most recent entry is first. *)
Record World (Ext : Type) : Type := mkWorld {
  cwd : string;
  out : list printed;
  redis : store;
  files : store;
  ext : Ext;
  calls : list call
}.

Arguments mkWorld {Ext} _ _ _ _ _ _.
Arguments cwd {Ext} _.
Arguments out {Ext} _.
Arguments redis {Ext} _.
Arguments files {Ext} _.
Arguments ext {Ext} _.
Arguments calls {Ext} _.

(* ================================================================= *)
(** ** The state-and-exception monad *)

Definition M (Ext A : Type) : Type := World Ext -> result A * World Ext.

Definition ret {Ext A} (a : A) : M Ext A := fun w => (Ok a, w).

Definition raise {Ext A} (e : exn) : M Ext A := fun w => (Raise e, w).

Definition bind {Ext A B} (m : M Ext A) (f : A -> M Ext B) : M Ext B :=
  fun w =>
    match m w with
    | (Ok a, w') => f a w'
    | (Raise e, w') => (Raise e, w')
    end.

(** [try: m  except <the classes h answers>: h e]. *)
Definition try_except {Ext A} (m : M Ext A) (h : exn -> option (M Ext A))
  : M Ext A :=
  fun w =>
    match m w with
    | (Ok a, w') => (Ok a, w')
    | (Raise e, w') =>
        match h e with
        | Some k => k w'
        | None => (Raise e, w')
        end
    end.

(** [try: m  finally: f]. *)
Definition finally {Ext A} (m : M Ext A) (f : M Ext unit) : M Ext A :=
  fun w =>
    match m w with
    | (r, w') =>
        match f w' with
        | (Ok _, w'') => (r, w'')
        | (Raise e, w'') => (Raise e, w'')
        end
    end.

(** A collaborator's answer, or a partial operation's outcome. *)
Definition lift {Ext A} (r : result A) : M Ext A := fun w => (r, w).

Declare Scope monad_scope.
Delimit Scope monad_scope with monad.

Notation "x <- c1 ;; c2" := (bind c1 (fun x => c2))
  (at level 62, c1 at next level, right associativity) : monad_scope.
Notation "' pat <- c1 ;; c2" :=
  (bind c1 (fun x => match x with pat => c2 end))
  (at level 62, pat pattern, c1 at next level, right associativity)
  : monad_scope.
Notation "c1 ;; c2" := (bind c1 (fun _ => c2))
  (at level 62, right associativity) : monad_scope.

Open Scope monad_scope.

(** [for x in l: acc = body(acc, x)]. *)
Fixpoint for_each {Ext A S} (l : list A) (body : S -> A -> M Ext S) (s : S)
  : M Ext S :=
  match l with
  | [] => ret s
  | x :: l' => s' <- body s x ;; for_each l' body s'
  end.

(** The same loop over a partial but effect-free body. *)
Definition rbind {A B} (r : result A) (f : A -> result B) : result B :=
  match r with
  | Ok a => f a
  | Raise e => Raise e
  end.

Fixpoint rfold {A S} (l : list A) (body : S -> A -> result S) (s : S)
  : result S :=
  match l with
  | [] => Ok s
  | x :: l' => rbind (body s x) (rfold l' body)
  end.

(** [os.path.join(a, b)]. *)
Definition path_join (a b : string) : string :=
  if startswith "/" b then b
  else if String.eqb a "" then b
  else if endswith "/" a then a ++ b
  else a ++ "/" ++ b.

Section Engine.

Variable Ext : Type.
Variable E : Env Ext.

(* ----------------------------------------------------------------- *)
(** *** Primitive effects *)

Definition print (s : string) : M Ext unit :=
  fun w => (Ok tt, mkWorld (cwd w) (PText s :: out w) (redis w) (files w)
                            (ext w) (calls w)).

Definition print_release (r : release) : M Ext unit :=
  fun w => (Ok tt, mkWorld (cwd w) (PRelease r :: out w) (redis w) (files w)
                            (ext w) (calls w)).

(** [os.getcwd()], which is absolute: [os.path.abspath] leaves it as
    it is. *)
Definition getcwd : M Ext string := fun w => (Ok (cwd w), w).

(** [os.path.abspath(p)], without normalisation of dots. *)
Definition abspath (p : string) : M Ext string :=
  fun w => (Ok (path_join (cwd w) p), w).

(** [os.chdir] to an absolute path. *)
Definition chdir_abs (p : string) : M Ext unit :=
  fun w =>
    if sys_isdir E (ext w) p
    then (Ok tt, mkWorld p (out w) (redis w) (files w) (ext w) (calls w))
    else (Raise (OSError p), w).

(** [os.chdir(p)]: the empty path and a path that is not a directory
    raise an [OSError] that names the path as it was given. *)
Definition chdir (p : string) : M Ext unit :=
  fun w =>
    let target := path_join (cwd w) p in
    if negb (String.eqb p "") && sys_isdir E (ext w) target
    then (Ok tt, mkWorld target (out w) (redis w) (files w) (ext w) (calls w))
    else (Raise (OSError p), w).

Definition os_path_isdir (p : string) : M Ext bool :=
  fun w => (Ok (sys_isdir E (ext w) (path_join (cwd w) p)), w).

Definition os_makedirs (p : string) : M Ext unit :=
  fun w =>
    match sys_makedirs E (ext w) (path_join (cwd w) p) with
    | Ok e' => (Ok tt, mkWorld (cwd w) (out w) (redis w) (files w) e'
                              (calls w))
    | Raise e => (Raise e, w)
    end.

(** [os.environ[k]]. *)
Definition env_get (k : string) : M Ext string :=
  match store_get k (environ E) with
  | Some v => ret v
  | None => raise (KeyError k)
  end.

(** [k in os.environ]. *)
Definition env_has (k : string) : bool :=
  match store_get k (environ E) with
  | Some _ => true
  | None => false
  end.

Definition record_call (c : call) (w : World Ext) : World Ext :=
  mkWorld (cwd w) (out w) (redis w) (files w) (ext w) (c :: calls w).

(** A read-only version-control command with [_out] captured: the exit
    status and whatever reached the buffer, also when the status is
    not zero. *)
Definition git_query (argv : list string) : M Ext (nat * string) :=
  fun w =>
    (Ok (git_read E (ext w) (files w) (cwd w) argv),
     record_call (GitCall (cwd w) argv) w).

(** The same, raising [ErrorReturnCode_n] on a non-zero status. *)
Definition git_out (argv : list string) : M Ext string :=
  ' (code, text) <- git_query argv ;;
  if (code =? 0)%nat then ret text else raise (ErrorReturnCode code).

(** A version-control command that may change the work tree; the
    result is its exit status. *)
Definition git_run (argv : list string) : M Ext nat :=
  fun w =>
    let '(code, (e', f')) := git_exec E (ext w) (files w) (cwd w) argv in
    (Ok code,
     mkWorld (cwd w) (out w) (redis w) f' e' (GitCall (cwd w) argv :: calls w)).

Definition git_do (argv : list string) : M Ext unit :=
  code <- git_run argv ;;
  if (code =? 0)%nat then ret tt else raise (ErrorReturnCode code).

(** [REDIS.get(k)] and [REDIS.set(k, v)]. *)
Definition redis_get (k : string) : M Ext (option string) :=
  fun w => (Ok (store_get k (redis w)), w).

Definition redis_set (k v : string) : M Ext unit :=
  fun w => (Ok tt, mkWorld (cwd w) (out w) (store_set k v (redis w))
                            (files w) (ext w) (calls w)).

(** [open(p, "r").read()] and [open(p, "w").write(s)]. *)
Definition read_file (p : string) : M Ext string :=
  fun w =>
    match store_get (path_join (cwd w) p) (files w) with
    | Some s => (Ok s, w)
    | None => (Raise (OSError p), w)
    end.

Definition write_file (p s : string) : M Ext unit :=
  fun w => (Ok tt, mkWorld (cwd w) (out w) (redis w)
                            (store_set (path_join (cwd w) p) s (files w))
                            (ext w) (calls w)).

Definition github_get_release_tag (url : string) : M Ext string :=
  fun w => (github_get_tag_name E (ext w) url, record_call (GithubGet url) w).

Definition github_get_commit_info (url : string) : M Ext commit_info :=
  fun w => (github_get_commit E (ext w) url, record_call (GithubGet url) w).

Definition github_post_release (url : string) (r : release) : M Ext response :=
  fun w =>
    let '(res, e') := github_post E (ext w) url r in
    (res, mkWorld (cwd w) (out w) (redis w) (files w) e'
                  (GithubPost url r :: calls w)).

Definition today (fmt : string) : M Ext string :=
  fun w => (Ok (strftime_today E (ext w) fmt), w).

(* ----------------------------------------------------------------- *)
(** *** The program *)

Definition BUNDLES : list string :=
  ["Adafruit_CircuitPython_Bundle"; "CircuitPython_Community_Bundle"].

(** Clones [bundle] to [bundle_path]. *)
Definition fetch_bundle (bundle bundle_path : string) : M Ext unit :=
  isdir <- os_path_isdir bundle_path ;;
  (if negb isdir then
     os_makedirs bundle_path ;;
     if env_has "GITHUB_WORKSPACE" then
       token <- env_get "ADABOT_GITHUB_ACCESS_TOKEN" ;;
       let git_url := "https://" ++ token ++ "@github.com/adafruit/" in
       git_do ["clone"; "-o"; "adafruit"; git_url ++ bundle ++ ".git";
               bundle_path]
     else
       git_do ["clone"; "-o"; "adafruit";
               "https://github.com/adafruit/" ++ bundle ++ ".git";
               bundle_path]
   else ret tt) ;;
  working_directory <- getcwd ;;
  chdir bundle_path ;;
  git_do ["pull"] ;;
  git_do ["submodule"; "init"] ;;
  git_do ["submodule"; "update"] ;;
  chdir_abs working_directory.

(** [url[url.rfind("/") + 1 : (url.rfind(".") if url.rfind(".") >
    url.rfind("/") else len(url))]]. *)
Definition url_name_of (url : string) : string :=
  let slash := rfind "/" url in
  let dot := rfind "." url in
  slice url (slash + 1)
        (if (slash <? dot)%Z then dot else Z.of_nat (String.length url)).

Definition lib_list_header (lib_count : nat) : list string :=
  ["# Adafruit CircuitPython Libraries";
   "![Blinka Reading](https://raw.githubusercontent.com/adafruit/circuitpython-weekly-"
   ++ "newsletter/gh-pages/assets/archives/22_1023blinka.png)";
   "Here is a listing of current Adafruit CircuitPython Libraries.";
   "There are " ++ of_nat lib_count ++ " libraries available." ++ NL;
   "## Drivers:" ++ NL].

(** The accumulators of the loop over the submodules:
    [write_drivers], [write_helpers], [updates_made]. *)
Definition lib_lists : Type := list string * list string * list string.

(** One turn of the loop of [check_lib_links_md]. *)
Definition lib_links_step (e : Ext) (bundle_path : string)
  (read_lines : list string) (acc : lib_lists) (sm : submodule)
  : result lib_lists :=
  let '(write_drivers, write_helpers, updates_made) := acc in
  let url := sm_url sm in
  let url_name := url_name_of url in
  rbind (repo_is_on_pypi E e url_name) (fun on_pypi =>
  let pypi_name :=
    if on_pypi : bool
    then " ([PyPi](https://pypi.org/project/"
         ++ lower (replace_char "_" "-" url_name) ++ "))"
    else "" in
  rbind (get_docs_link E e bundle_path sm) (fun docs_link =>
  let docs_name :=
    match docs_link with
    | Some link =>
        if String.eqb link "" then "" else " \([Docs](" ++ link ++ "))"
    | None => ""
    end in
  let title := replace_char "_" " " url_name in
  let list_line := "* [" ++ title ++ "](" ++ url ++ ")" ++ pypi_name
                   ++ docs_name in
  let updates_made :=
    if existsb (String.eqb list_line) read_lines then updates_made
    else (updates_made ++ [url_name])%list in
  Ok (if contains "drivers" (sm_path sm)
      then ((write_drivers ++ [list_line])%list, write_helpers, updates_made)
      else if contains "helpers" (sm_path sm)
      then (write_drivers, (write_helpers ++ [list_line])%list, updates_made)
      else (write_drivers, write_helpers, updates_made)))).

(** The text written to the listing document. *)
Definition lib_list_document (lib_count : nat)
  (write_drivers write_helpers : list string) : string :=
  join NL (lib_list_header lib_count)
  ++ String.concat "" (map (fun line => line ++ NL)
                           (py_sorted String.leb write_drivers))
  ++ (NL ++ "## Helpers:" ++ NL)
  ++ String.concat "" (map (fun line => line ++ NL)
                           (py_sorted String.leb write_helpers)).

Definition LIB_LIST : string := "circuitpython_library_list.md".

(** Checks and updates the [circuitpython_library_list] Markdown
    document located in the Adafruit CircuitPython Bundle. *)
Definition check_lib_links_md (bundle_path : string) : M Ext (list string) :=
  if negb (contains "Adafruit_CircuitPython_Bundle" bundle_path) then ret []
  else
    submodules <- (fun w => (get_bundle_submodules E (ext w) (cwd w), w)) ;;
    let submodules_list :=
      py_sorted (fun a b => String.leb (sm_path a) (sm_path b)) submodules in
    let lib_count := List.length submodules_list in
    read_lines <-
      try_except
        (text <- read_file (path_join bundle_path LIB_LIST) ;;
         ret (splitlines text))
        (fun e => match e with
                  | OSError _ => Some (ret [])
                  | _ => None
                  end) ;;
    ' (write_drivers, write_helpers, updates_made) <-
      (fun w => (rfold submodules_list
                       (lib_links_step (ext w) bundle_path read_lines)
                       ([], [], []), w)) ;;
    write_file (path_join bundle_path LIB_LIST)
               (lib_list_document lib_count write_drivers write_helpers) ;;
    ret updates_made.

(** [with Submodule(directory): body]. *)
Definition Submodule {A} (directory : string) (body : M Ext A) : M Ext A :=
  original_directory <- getcwd ;;
  chdir directory ;;
  finally body (chdir_abs original_directory).

(** Fetch the tag for [commit]. *)
Definition commit_to_tag (repo_path commit : string) : M Ext string :=
  Submodule repo_path
    (' (code, output) <-
       git_query ["describe"; "--tags"; "--exact-match"; commit] ;;
     if (code =? 0)%nat then ret (strip output)
     else if (code =? 128)%nat then ret commit
     else raise (ErrorReturnCode code)).

(** The version as defined by the tag. *)
Definition repo_version : M Ext string :=
  ' (code, version) <- git_query ["describe"; "--tags"; "--exact-match"] ;;
  if (code =? 0)%nat then ret (strip version)
  else if (code =? 128)%nat then
    ' (code', version') <- git_query ["log"; "--pretty=format:%h"; "-n"; "1"] ;;
    if (code' =? 0)%nat then ret (strip (version ++ version'))
    else raise (ErrorReturnCode code')
  else raise (ErrorReturnCode code).

(** The SHA of the repo. *)
Definition repo_sha : M Ext string :=
  version <- git_out ["log"; "--pretty=format:%H"; "-n"; "1"] ;;
  ret (strip version).

(** The URL for the remote branch. *)
Definition repo_remote_url (repo_path : string) : M Ext string :=
  Submodule repo_path
    (output <- git_out ["remote"; "get-url"; "origin"] ;;
     ret (strip output)).

(** A change record: [(url, old_commit, new_commit, summary)]. *)
Definition update : Type := string * string * string * string.

(** [l[1:-1]]. *)
Definition middle {A} (l : list A) : list A := removelast (tl l).

(** One turn of the loop over the status lines of [update_bundle]. *)
Definition scan_status_line (updates : list update) (status_line : string)
  : M Ext (list update) :=
  match split_ws status_line with
  | [action; directory] =>
      if endswith "library_list.md" directory then ret updates
      else if negb (String.eqb action "M")
              || negb (startswith "libraries" directory)
      then raise (RuntimeError "Unsupported updates")
      else
        (* Compute the tag difference. *)
        diff <- git_out ["diff"; "--submodule=log"; directory] ;;
        let diff_lines := split_on LF diff in
        match nth_error (split_ws (hd "" diff_lines)) 2 with
        | None => raise IndexError
        | Some commit_range =>
            let commit_range := split_on "." (strip_char ":" commit_range) in
            old_commit <- commit_to_tag directory (hd "" commit_range) ;;
            new_commit <- commit_to_tag directory (last commit_range "") ;;
            url <- repo_remote_url directory ;;
            let summary := join NL (middle diff_lines) in
            ret (updates ++ [(drop_last 4 url, old_commit, new_commit,
                              summary)])%list
        end
  | _ => raise (ValueError "unpack")
  end.

(** The first part of [update_bundle]: enter the bundle, move every
    library to its latest regular release tag and read the short status.
    The result is the saved working directory and the stripped status
    report. *)
Definition bundle_status (bundle_path : string) : M Ext (string * string) :=
  working_directory <- getcwd ;;
  chdir bundle_path ;;
  git_do ["submodule"; "foreach"; "git"; "fetch"] ;;
  (* Regular release tags are 'x.x.x'.  Exclude tags that are alpha or
     beta releases.  The exit status of this command is not checked. *)
  git_run ["submodule"; "foreach";
           "git checkout -q `git rev-list --exclude=*-* --tags --max-count=1`"] ;;
  status <- git_out ["status"; "--short"] ;;
  ret (working_directory, strip status).

Definition lib_list_update (lib_list_updates : list string) : update :=
  ("https://github.com/adafruit/Adafruit_CircuitPython_Bundle/"
   ++ "circuitpython_library_list.md",
   "NA",
   "NA",
   "  > Added the following libraries: " ++ join ", " lib_list_updates).

(** Process all libraries in the bundle, and update their version if
    necessary. *)
Definition update_bundle (bundle_path : string) : M Ext (list update) :=
  ' (working_directory, status) <- bundle_status bundle_path ;;
  updates <-
    (if String.eqb status "" then ret []
     else for_each (split_on LF status) scan_status_line []) ;;
  chdir_abs working_directory ;;
  lib_list_updates <- check_lib_links_md bundle_path ;;
  ret (match lib_list_updates with
       | [] => updates
       | _ => (updates ++ [lib_list_update lib_list_updates])%list
       end).

(** One paragraph of the commit message. *)
Definition update_message (u : update) : result string :=
  let '(url, old_commit, new_commit, summary) := u in
  match List.rev (split_on "/" url) with
  | repo :: user :: _ =>
      let summary := replace_char "#" (user ++ "/" ++ repo ++ "#") summary in
      Ok ("Updating " ++ url ++ " to " ++ new_commit ++ " from " ++ old_commit
          ++ ":" ++ NL ++ summary)
  | _ => Raise (ValueError "unpack")
  end.

(** Commit changes to [bundle_path] using [update_info] for the commit
    message. *)
Definition commit_updates (bundle_path : string) (update_info : list update)
  : M Ext unit :=
  working_directory <- getcwd ;;
  version <- repo_version ;;
  let message :=
    ["Automated update by Adabot (adafruit/adabot@" ++ version ++ ")"] in
  chdir bundle_path ;;
  message <-
    lift (rfold update_info
                (fun message u =>
                   rbind (update_message u)
                         (fun m => Ok (message ++ [m])%list))
                message) ;;
  let message := join (NL ++ NL) message in
  git_do ["add"; "."] ;;
  git_do ["commit"; "--message=" ++ message] ;;
  chdir_abs working_directory.

(** Push bundle updates to the remote. *)
Definition push_updates (bundle_path : string) : M Ext unit :=
  working_directory <- getcwd ;;
  chdir bundle_path ;;
  git_do ["push"] ;;
  chdir_abs working_directory.

(** Lines 306 to 315 of the aggregator: what one commit adds to the
    tally, once its author and committer have been resolved. *)
Definition credit_commit (author committer : option handle)
  (committer_email : string) (contributors : tally) : tally :=
  let committer :=
    if String.eqb committer_email "noreply@github.com" then None
    else committer in
  let contributors :=
    match author with
    | Some a =>
        if truthy author && negb (tally_mem a contributors)
        then tally_set a 0%Z contributors else contributors
    | None => contributors
    end in
  let contributors :=
    match committer with
    | Some c =>
        if truthy committer && negb (tally_mem c contributors)
        then tally_set c 0%Z contributors else contributors
    | None => contributors
    end in
  let contributors :=
    match author with
    | Some a =>
        if truthy author then tally_incr a 1%Z contributors else contributors
    | None => contributors
    end in
  match committer with
  | Some c =>
      if truthy committer
         && negb (match author with
                  | Some a => handle_eqb c a
                  | None => false
                  end)
      then tally_incr c 1%Z contributors else contributors
  | None => contributors
  end.

(** [not v] for a cache answer. *)
Definition cache_miss (v : option string) : bool :=
  match v with
  | Some b => String.eqb b ""
  | None => true
  end.

(** One turn of the loop over the log lines of [get_contributors]. *)
Definition contributors_step (repo : string) (contributors : tally)
  (log_line : string) : M Ext tally :=
  match split_on "," log_line with
  | [sha; author_email; committer_email] =>
      author <- redis_get ("github_username:" ++ author_email) ;;
      committer <- redis_get ("github_username:" ++ committer_email) ;;
      ' (author, committer) <-
        (if cache_miss author || cache_miss committer then
           github_commit_info <-
             github_get_commit_info ("/repos/" ++ repo ++ "/commits/" ++ sha) ;;
           author <-
             match ci_author github_commit_info with
             | Some login =>
                 redis_set ("github_username:" ++ author_email) login ;;
                 ret (Some (HStr login))
             | None => ret (option_map HBytes author)
             end ;;
           committer <-
             match ci_committer github_commit_info with
             | Some login =>
                 redis_set ("github_username:" ++ committer_email) login ;;
                 ret (Some (HStr login))
             | None => ret (option_map HBytes committer)
             end ;;
           ret (author, committer)
         else
           ret (option_map HStr author, option_map HStr committer)) ;;
      ret (credit_commit author committer committer_email contributors)
  | _ => raise (ValueError "unpack")
  end.

(** Get contributors to [repo] for the [commit_range]. *)
Definition get_contributors (repo commit_range : string) : M Ext tally :=
  ' (code, output) <-
    git_query ["log"; "--pretty=tformat:%H,%ae,%ce"; commit_range] ;;
  (if (code =? 0)%nat then ret tt
   else if (code =? 128)%nat then print ("Skipping contributors for: " ++ repo)
   else raise (ErrorReturnCode code)) ;;
  let output := strip output in
  if String.eqb output "" then ret []
  else for_each (split_on LF output) (contributors_step repo) [].

(** Strips off .git and splits on / *)
Definition repo_name (url : string) : result string :=
  let url := if endswith ".git" url then drop_last 4 url else url in
  match List.rev (split_on "/" url) with
  | last :: before :: _ => Ok (before ++ "/" ++ last)
  | _ => Raise IndexError
  end.

(** Adds contributors to [master_list] if not already in the list. *)
Definition add_contributors (master_list additions : tally) : tally :=
  fold_left
    (fun master_list '(contributor, weight) =>
       tally_incr contributor weight (tally_touch contributor master_list))
    additions master_list.

(** The variables of the loop over the diff lines of [new_release]. *)
Record release_scan : Type := mkScan {
  current_submodule : option string;
  current_index : option string;
  added_submodules : list string;
  updated_submodules : list string;
  repo_links : store;
  contributors : tally
}.

(** [x.<method>] on a variable that may still be [None]. *)
Definition deref {A} (x : option A) : M Ext A :=
  match x with
  | Some a => ret a
  | None => raise AttributeError
  end.

(** One turn of the loop over the diff lines of [new_release]. *)
Definition release_step (st : release_scan) (line : string)
  : M Ext release_scan :=
  if startswith "diff" line then
    ret (mkScan (Some (String.substring 2 (String.length
                                             (last (split_ws line) ""))
                                        (last (split_ws line) "")))
                (current_index st) (added_submodules st)
                (updated_submodules st) (repo_links st) (contributors st))
  else if contains "index" line then
    ret (mkScan (current_submodule st) (Some line) (added_submodules st)
                (updated_submodules st) (repo_links st) (contributors st))
  else if negb (startswith "+Subproject" line) then ret st
  else
    (* We have a candidate submodule change. *)
    current_index_line <- deref (current_index st) ;;
    match nth_error (split_ws current_index_line) 1 with
    | None => raise IndexError
    | Some commit_range =>
        directory <- deref (current_submodule st) ;;
        let library_name := last (split_on "/" directory) "" in
        let classified :=
          if startswith "0000000" commit_range then
            Some ((added_submodules st ++ [library_name])%list,
                  updated_submodules st,
                  last (split_on "." commit_range) "")
          else if endswith "0000000" commit_range then
            (* For now, skip documenting deleted modules. *)
            None
          else
            Some (added_submodules st,
                  (updated_submodules st ++ [library_name])%list,
                  commit_range) in
        match classified with
        | None => ret st
        | Some (added, updated, commit_range) =>
            repo_url <- repo_remote_url directory ;;
            let new_commit := last (split_on "." commit_range) "" in
            release_tag <- commit_to_tag directory new_commit ;;
            contributors <-
              Submodule directory
                (name <- lift (repo_name repo_url) ;;
                 submodule_contributors <- get_contributors name commit_range ;;
                 ret (add_contributors (contributors st)
                                       submodule_contributors)) ;;
            ret (mkScan (current_submodule st) (current_index st)
                        added updated
                        (store_set library_name
                                   (drop_last 4 repo_url ++ "/releases/"
                                    ++ release_tag)
                                   (repo_links st))
                        contributors)
        end
    end.

(** [f"[{library}]({repo_links[library]})"]. *)
Definition markdown_link (repo_links : store) (library : string) : string :=
  "[" ++ library ++ "]("
  ++ match store_get library repo_links with
     | Some link => link
     | None => ""
     end
  ++ ")".

(** The handles in the order of
    [sorted(contributors, key=contributors.__getitem__, reverse=True)]. *)
Definition sorted_contributors (contributors : tally) : list handle :=
  map fst (py_sorted (fun a b => (snd b <=? snd a)%Z) contributors).

(** The lines of the release description. *)
Definition release_description (added_submodules updated_submodules
  : list string) (repo_links : store) (contributors : tally) : list string :=
  List.app
    (match added_submodules with
     | [] => []
     | _ => ["New libraries: "
             ++ join ", " (map (markdown_link repo_links) added_submodules)]
     end)
  (List.app
    (match updated_submodules with
     | [] => []
     | _ => ["Updated libraries: "
             ++ join ", " (map (markdown_link repo_links) updated_submodules)]
     end)
    ["";
     "As always, thank you to all of our contributors: "
     ++ join ", " (map (fun x => "@" ++ handle_text x)
                       (sorted_contributors contributors));
     NL ++ "--------------------------" ++ NL;
     "The libraries in each release are compiled for all recent major versions of CircuitPython."
     ++ " Please download the one that matches the major version of your CircuitPython. For example"
     ++ ", if you are running 6.0.0 you should download the `6.x` bundle." ++ NL;
     "To install, simply download the matching zip file, unzip it, and selectively copy the"
     ++ " libraries you would like to install into the lib folder on your CIRCUITPY drive. This is"
     ++ " especially important for non-express boards with limited flash, such as the"
     ++ " [Trinket M0](https://www.adafruit.com/product/3500),"
     ++ " [Gemma M0](https://www.adafruit.com/product/3501) and"
     ++ " [Feather M0 Basic](https://www.adafruit.com/product/2772)."]).

(** The first part of [new_release]: enter the bundle, read the last
    published tag and the contributors of the bundle itself.  The
    result is the saved working directory, the tag and the tally. *)
Definition release_prelude (bundle bundle_path : string)
  : M Ext (string * string * tally) :=
  working_directory <- getcwd ;;
  chdir bundle_path ;;
  print bundle ;;
  last_tag <-
    github_get_release_tag ("/repos/adafruit/" ++ bundle ++ "/releases/latest") ;;
  contributors <- get_contributors ("adafruit/" ++ bundle) (last_tag ++ "..") ;;
  ret (working_directory, last_tag, contributors).

(** Creates a new release for [bundle]. *)
Definition new_release (bundle bundle_path : string) : M Ext unit :=
  ' (working_directory, last_tag, contributors) <-
    release_prelude bundle bundle_path ;;
  output <- git_out ["diff"; "--submodule=short"; last_tag ++ ".."] ;;
  let output := strip output in
  if String.eqb output "" then print "Everything is already released."
  else
    st <- for_each (split_on LF output) release_step
                   (mkScan None None [] [] [] contributors) ;;
    let '(mkScan _ _ added_submodules updated_submodules repo_links
                 contributors) := st in
    let release_description :=
      release_description added_submodules updated_submodules repo_links
                          contributors in
    tag <- today "%Y%m%d" ;;
    sha <- repo_sha ;;
    month <- today "%B" ;;
    day <- today "%d" ;;
    year <- today "%Y" ;;
    let release :=
      {| tag_name := tag;
         target_commitish := sha;
         name := month ++ " " ++ day ++ ", " ++ year ++ " auto-release";
         body := join NL release_description;
         draft := false;
         prerelease := false |} in
    print ("Releasing " ++ tag_name release) ;;
    print (body release) ;;
    response <-
      github_post_release ("/repos/adafruit/" ++ bundle ++ "/releases") release ;;
    (if negb (ok response) then
       print "Failed to create release" ;;
       print_release release ;;
       print (request_url response) ;;
       print (text response)
     else ret tt) ;;
    chdir_abs working_directory.

(** The body of the [try] statement of the main program. *)
Definition process_bundle (cp_bundle bundle_dir : string) : M Ext unit :=
  fetch_bundle cp_bundle bundle_dir ;;
  updates_needed <- update_bundle bundle_dir ;;
  (match updates_needed with
   | [] => ret tt
   | _ =>
       commit_updates bundle_dir updates_needed ;;
       push_updates bundle_dir
   end) ;;
  new_release cp_bundle bundle_dir.

(** The [try] statement of the main program, for one bundle. *)
Definition guarded_bundle (bundles_dir cp_bundle : string) : M Ext unit :=
  let bundle_dir := path_join bundles_dir cp_bundle in
  try_except (process_bundle cp_bundle bundle_dir)
    (fun e =>
       match e with
       | RuntimeError _ =>
           Some (print ("Failed to update and release: " ++ cp_bundle) ;;
                 print (exn_text e))
       | _ => None
       end).

(** The loop of the main program over a list of bundles. *)
Definition main_loop (bundles_dir : string) (bundles : list string)
  : M Ext unit :=
  for_each bundles (fun _ cp_bundle => guarded_bundle bundles_dir cp_bundle) tt.

Definition main : M Ext unit :=
  bundles_dir <- abspath ".bundles" ;;
  (if env_has "GITHUB_WORKSPACE" then
     git_do ["config"; "--global"; "user.name"; "adabot"] ;;
     email <- env_get "ADABOT_EMAIL" ;;
     git_do ["config"; "--global"; "user.email"; email]
   else ret tt) ;;
  main_loop bundles_dir BUNDLES.

End Engine.

Arguments print {Ext}.
Arguments print_release {Ext}.
Arguments getcwd {Ext}.
Arguments abspath {Ext}.
Arguments chdir_abs {Ext}.
Arguments chdir {Ext}.
Arguments os_path_isdir {Ext}.
Arguments os_makedirs {Ext}.
Arguments env_get {Ext}.
Arguments env_has {Ext}.
Arguments record_call {Ext}.
Arguments git_query {Ext}.
Arguments git_out {Ext}.
Arguments git_run {Ext}.
Arguments git_do {Ext}.
Arguments redis_get {Ext}.
Arguments redis_set {Ext}.
Arguments read_file {Ext}.
Arguments write_file {Ext}.
Arguments github_get_release_tag {Ext}.
Arguments github_get_commit_info {Ext}.
Arguments github_post_release {Ext}.
Arguments today {Ext}.
Arguments fetch_bundle {Ext}.
Arguments lib_links_step {Ext}.
Arguments check_lib_links_md {Ext}.
Arguments Submodule {Ext} E {A} directory body.
Arguments commit_to_tag {Ext}.
Arguments repo_version {Ext}.
Arguments repo_sha {Ext}.
Arguments repo_remote_url {Ext}.
Arguments scan_status_line {Ext}.
Arguments bundle_status {Ext}.
Arguments update_bundle {Ext}.
Arguments commit_updates {Ext}.
Arguments push_updates {Ext}.
Arguments contributors_step {Ext}.
Arguments get_contributors {Ext}.
Arguments deref {Ext A} x.
Arguments release_step {Ext}.
Arguments release_prelude {Ext}.
Arguments new_release {Ext}.
Arguments process_bundle {Ext}.
Arguments guarded_bundle {Ext}.
Arguments main_loop {Ext}.
Arguments main {Ext}.
Arguments mkScan current_submodule current_index added_submodules
  updated_submodules repo_links contributors : assert.

(* ================================================================= *)
(** ** Scripted collaborators

    A finite description of the outside world, used to run the engine
    on concrete inputs: tables from a command (in a directory) to its
    answer.  Nothing outside the process changes in a scripted run. *)

Module Scripted.

Definition argv_eqb (a b : list string) : bool :=
  (List.length a =? List.length b)%nat
  && forallb (fun p => String.eqb (fst p) (snd p)) (combine a b).

Fixpoint lookup {A B} (eqb : A -> A -> bool) (k : A) (t : list (A * B))
  : option B :=
  match t with
  | [] => None
  | (k', v) :: t' => if eqb k k' then Some v else lookup eqb k t'
  end.

Definition cmd_eqb (a b : string * list string) : bool :=
  String.eqb (fst a) (fst b) && argv_eqb (snd a) (snd b).

Record script : Type := {
  s_environ : store;
  (** directories that do not exist *)
  s_missing : list string;
  (** answers of read-only commands, by directory and arguments;
      the default is status 0 with no output *)
  s_read : list ((string * list string) * (nat * string));
  (** exit statuses of the other commands; the default is 0 *)
  s_exec : list ((string * list string) * nat);
  s_tags : list (string * result string);
  s_commits : list (string * result commit_info);
  s_post : result response;
  s_submodules : result (list submodule);
  s_pypi : list string;
  s_docs : list (string * string)
}.

Definition env_of (s : script) : Env unit := {|
  environ := s_environ s;
  sys_isdir := fun _ p => negb (existsb (String.eqb p) (s_missing s));
  sys_makedirs := fun e _ => Ok e;
  git_read := fun _ _ dir argv =>
    match lookup cmd_eqb (dir, argv) (s_read s) with
    | Some r => r
    | None => (0, "")
    end;
  git_exec := fun e f dir argv =>
    match lookup cmd_eqb (dir, argv) (s_exec s) with
    | Some code => (code, (e, f))
    | None => (0, (e, f))
    end;
  github_get_tag_name := fun _ url =>
    match lookup String.eqb url (s_tags s) with
    | Some r => r
    | None => Raise (KeyError "tag_name")
    end;
  github_get_commit := fun _ url =>
    match lookup String.eqb url (s_commits s) with
    | Some r => r
    | None => Raise (KeyError "author")
    end;
  github_post := fun e _ _ => (s_post s, e);
  strftime_today := fun _ fmt => fmt;
  get_bundle_submodules := fun _ _ => s_submodules s;
  repo_is_on_pypi := fun _ n => Ok (existsb (String.eqb n) (s_pypi s));
  get_docs_link := fun _ _ sm => Ok (lookup String.eqb (sm_name sm) (s_docs s))
|}.

Definition quiet : script := {|
  s_environ := [];
  s_missing := [];
  s_read := [];
  s_exec := [];
  s_tags := [];
  s_commits := [];
  s_post := Ok {| ok := true; request_url := ""; text := "" |};
  s_submodules := Ok [];
  s_pypi := [];
  s_docs := []
|}.

Definition start (dir : string) : World unit :=
  mkWorld dir [] [] [] tt [].

End Scripted.

Module Scenario_foo.
Import Scripted.

Definition s : script := {|
  s_environ := [];
  s_missing := [];
  s_read :=
    [(("/work/.bundles/CircuitPython_Community_Bundle", ["status"; "--short"]),
      (0, " M libraries/drivers/foo" ++ NL));
     (("/work/.bundles/CircuitPython_Community_Bundle",
       ["diff"; "--submodule=log"; "libraries/drivers/foo"]),
      (0, "Submodule libraries/drivers/foo abc123..def456:" ++ NL
          ++ "  > bumped version" ++ NL));
     (("/work/.bundles/CircuitPython_Community_Bundle/libraries/drivers/foo",
       ["describe"; "--tags"; "--exact-match"; "abc123"]), (128, ""));
     (("/work/.bundles/CircuitPython_Community_Bundle/libraries/drivers/foo",
       ["describe"; "--tags"; "--exact-match"; "def456"]), (128, ""));
     (("/work/.bundles/CircuitPython_Community_Bundle/libraries/drivers/foo",
       ["remote"; "get-url"; "origin"]),
      (0, "https://github.com/adafruit/foo.git" ++ NL))];
  s_exec := [];
  s_tags := [];
  s_commits := [];
  s_post := Ok {| ok := true; request_url := ""; text := "" |};
  s_submodules := Ok [];
  s_pypi := [];
  s_docs := []
|}.

End Scenario_foo.

(** A library with two commits in the range; every email is already
    in the identity cache. *)
Module Scenario_log.
Import Scripted.

Definition LOG : list string :=
  ["log"; "--pretty=tformat:%H,%ae,%ce"; "1.0.0..1.1.0"].

Definition cache : store :=
  [("github_username:alice@example.org", "alice");
   ("github_username:bob@example.org", "bob");
   ("github_username:carol@example.org", "carol");
   ("github_username:noreply@github.com", "web-flow")].

Definition w0 : World unit := mkWorld "/work/lib" [] cache [] tt [].

(** The enumeration succeeds. *)
Definition s : script := {|
  s_environ := [];
  s_missing := [];
  s_read :=
    [(("/work/lib", LOG),
      (0, "c1,alice@example.org,noreply@github.com" ++ NL
          ++ "c2,bob@example.org,carol@example.org" ++ NL))];
  s_exec := [];
  s_tags := [];
  s_commits := [];
  s_post := Ok {| ok := true; request_url := ""; text := "" |};
  s_submodules := Ok [];
  s_pypi := [];
  s_docs := []
|}.

(** The enumeration stops with status 128 after it has written one
    commit line. *)
Definition s_partial : script := {|
  s_environ := [];
  s_missing := [];
  s_read :=
    [(("/work/lib", LOG),
      (128, "c2,bob@example.org,carol@example.org" ++ NL))];
  s_exec := [];
  s_tags := [];
  s_commits := [];
  s_post := Ok {| ok := true; request_url := ""; text := "" |};
  s_submodules := Ok [];
  s_pypi := [];
  s_docs := []
|}.

(** The enumeration stops with status 128 and has written nothing. *)
Definition s_unknown : script := {|
  s_environ := [];
  s_missing := [];
  s_read := [(("/work/lib", LOG), (128, ""))];
  s_exec := [];
  s_tags := [];
  s_commits := [];
  s_post := Ok {| ok := true; request_url := ""; text := "" |};
  s_submodules := Ok [];
  s_pypi := [];
  s_docs := []
|}.

End Scenario_log.

(** The status report of Scenario_foo with the entry's diff summary
    reduced to the range and the log line. *)
Module Scenario_bare.
Import Scripted.

Definition s : script := {|
  s_environ := [];
  s_missing := [];
  s_read :=
    [(("/work/.bundles/CircuitPython_Community_Bundle", ["status"; "--short"]),
      (0, " M libraries/drivers/foo" ++ NL));
     (("/work/.bundles/CircuitPython_Community_Bundle",
       ["diff"; "--submodule=log"; "libraries/drivers/foo"]),
      (0, "abc123..def456" ++ NL ++ "  > bumped version"));
     (("/work/.bundles/CircuitPython_Community_Bundle/libraries/drivers/foo",
       ["describe"; "--tags"; "--exact-match"; "abc123"]), (128, ""));
     (("/work/.bundles/CircuitPython_Community_Bundle/libraries/drivers/foo",
       ["describe"; "--tags"; "--exact-match"; "def456"]), (128, ""));
     (("/work/.bundles/CircuitPython_Community_Bundle/libraries/drivers/foo",
       ["remote"; "get-url"; "origin"]),
      (0, "https://github.com/adafruit/foo.git" ++ NL))];
  s_exec := [];
  s_tags := [];
  s_commits := [];
  s_post := Ok {| ok := true; request_url := ""; text := "" |};
  s_submodules := Ok [];
  s_pypi := [];
  s_docs := []
|}.

End Scenario_bare.

(** A status report with the listing document and a deleted library. *)
Module Scenario_deleted.
Import Scripted.

Definition s : script := {|
  s_environ := [];
  s_missing := [];
  s_read :=
    [(("/work/.bundles/CircuitPython_Community_Bundle", ["status"; "--short"]),
      (0, " M circuitpython_library_list.md" ++ NL
          ++ " D libraries/drivers/foo" ++ NL))];
  s_exec := [];
  s_tags := [];
  s_commits := [];
  s_post := Ok {| ok := true; request_url := ""; text := "" |};
  s_submodules := Ok [];
  s_pypi := [];
  s_docs := []
|}.

End Scenario_deleted.

(** A bundle whose last release is up to date: the diff against the
    last tag is empty. *)
Module Scenario_released.
Import Scripted.

Definition s : script := {|
  s_environ := [];
  s_missing := [];
  s_read :=
    [(("/work/.bundles/CircuitPython_Community_Bundle",
       ["diff"; "--submodule=short"; "20261101.."]), (0, NL))];
  s_exec := [];
  s_tags :=
    [("/repos/adafruit/CircuitPython_Community_Bundle/releases/latest",
      Ok "20261101")];
  s_commits := [];
  s_post := Ok {| ok := true; request_url := ""; text := "" |};
  s_submodules := Ok [];
  s_pypi := [];
  s_docs := []
|}.

End Scenario_released.

(** The diff loop of the release composer in front of a removed
    library. *)
Module Scenario_removed.
Import Scripted.

Definition st : release_scan :=
  mkScan (Some "libraries/drivers/foo") (Some "index abc1234..0000000")
         ["bar"] ["baz"] [] [(HStr "alice", 2%Z)].

Definition line : string :=
  "+Subproject commit abc1234abc1234abc1234abc1234abc1234abc1234".

End Scenario_removed.

(** Two runs of the main program. *)
Module Scenario_main.
Import Scripted.

(** The first bundle has an untracked file; the second is up to date. *)
Definition s_untracked : script := {|
  s_environ := [];
  s_missing := [];
  s_read :=
    [(("/work/.bundles/Adafruit_CircuitPython_Bundle", ["status"; "--short"]),
      (0, "?? stray.txt" ++ NL))];
  s_exec := [];
  s_tags :=
    [("/repos/adafruit/CircuitPython_Community_Bundle/releases/latest",
      Ok "20261101")];
  s_commits := [];
  s_post := Ok {| ok := true; request_url := ""; text := "" |};
  s_submodules := Ok [];
  s_pypi := [];
  s_docs := []
|}.

(** Pulling the first bundle fails with exit status 1. *)
Definition s_pull_fails : script := {|
  s_environ := [];
  s_missing := [];
  s_read := [];
  s_exec := [(("/work/.bundles/Adafruit_CircuitPython_Bundle", ["pull"]), 1)];
  s_tags :=
    [("/repos/adafruit/CircuitPython_Community_Bundle/releases/latest",
      Ok "20261101")];
  s_commits := [];
  s_post := Ok {| ok := true; request_url := ""; text := "" |};
  s_submodules := Ok [];
  s_pypi := [];
  s_docs := []
|}.

End Scenario_main.

(** Two library sets for the listing document of the primary bundle. *)
Module Scenario_listing.
Import Scripted.

Definition bundle_path : string :=
  "/work/.bundles/Adafruit_CircuitPython_Bundle".

Definition foo : submodule := {|
  sm_name := "libraries/drivers/foo";
  sm_path := "libraries/drivers/foo";
  sm_url := "https://github.com/adafruit/Adafruit_CircuitPython_Foo.git"
|}.

Definition bar : submodule := {|
  sm_name := "libraries/helpers/bar";
  sm_path := "libraries/helpers/bar";
  sm_url := "https://github.com/adafruit/Adafruit_CircuitPython_Bar.git"
|}.

Definition baz : submodule := {|
  sm_name := "libraries/misc/baz";
  sm_path := "libraries/misc/baz";
  sm_url := "https://github.com/adafruit/Adafruit_CircuitPython_Baz.git"
|}.

(** One driver and one helper. *)
Definition s : script := {|
  s_environ := [];
  s_missing := [];
  s_read := [];
  s_exec := [];
  s_tags := [];
  s_commits := [];
  s_post := Ok {| ok := true; request_url := ""; text := "" |};
  s_submodules := Ok [bar; foo];
  s_pypi := ["Adafruit_CircuitPython_Foo"];
  s_docs := [("libraries/helpers/bar", "https://docs.example.org/bar")]
|}.

(** One driver and one library that is in neither category. *)
Definition s_misc : script := {|
  s_environ := [];
  s_missing := [];
  s_read := [];
  s_exec := [];
  s_tags := [];
  s_commits := [];
  s_post := Ok {| ok := true; request_url := ""; text := "" |};
  s_submodules := Ok [baz; foo];
  s_pypi := [];
  s_docs := []
|}.

End Scenario_listing.

(** Three per-library tallies and a master tally. *)
Module Scenario_tallies.

Definition master : tally := [(HStr "alice", 1%Z)].
Definition lib_a : tally := [(HStr "alice", 2%Z); (HStr "bob", 1%Z)].
Definition lib_b : tally := [(HStr "bob", 3%Z)].
Definition lib_c : tally := [(HStr "carol", 1%Z); (HStr "alice", 4%Z)].

End Scenario_tallies.

(** A bundle with one updated library since the last release. *)
Module Scenario_release.
Import Scripted.

Definition bundle_dir : string :=
  "/work/.bundles/CircuitPython_Community_Bundle".

Definition s : script := {|
  s_environ := [];
  s_missing := [];
  s_read :=
    [((bundle_dir, ["diff"; "--submodule=short"; "20261101.."]),
      (0, "diff --git a/libraries/drivers/foo b/libraries/drivers/foo" ++ NL
          ++ "index abc1234..def4567 160000" ++ NL
          ++ "--- a/libraries/drivers/foo" ++ NL
          ++ "+++ b/libraries/drivers/foo" ++ NL
          ++ "@@ -1 +1 @@" ++ NL
          ++ "-Subproject commit abc1234abc1234abc1234abc1234abc1234abc1234"
          ++ NL
          ++ "+Subproject commit def4567def4567def4567def4567def4567def4567"
          ++ NL));
     ((bundle_dir ++ "/libraries/drivers/foo",
       ["describe"; "--tags"; "--exact-match"; "def4567"]),
      (0, "1.2.0" ++ NL));
     ((bundle_dir ++ "/libraries/drivers/foo",
       ["remote"; "get-url"; "origin"]),
      (0, "https://github.com/adafruit/foo.git" ++ NL));
     ((bundle_dir ++ "/libraries/drivers/foo",
       ["log"; "--pretty=tformat:%H,%ae,%ce"; "abc1234..def4567"]),
      (0, "c1,alice@example.org,noreply@github.com" ++ NL));
     ((bundle_dir, ["log"; "--pretty=format:%H"; "-n"; "1"]),
      (0, "0123456789abcdef0123456789abcdef01234567" ++ NL))];
  s_exec := [];
  s_tags :=
    [("/repos/adafruit/CircuitPython_Community_Bundle/releases/latest",
      Ok "20261101")];
  s_commits := [];
  s_post := Ok {| ok := true; request_url := ""; text := "" |};
  s_submodules := Ok [];
  s_pypi := [];
  s_docs := []
|}.

Definition w0 : World unit :=
  mkWorld "/work" []
          [("github_username:alice@example.org", "alice");
           ("github_username:noreply@github.com", "web-flow")]
          [] tt [].

(** The process inside the bundle, and the lines of the diff. *)
Definition inside : World unit :=
  mkWorld bundle_dir [] (redis w0) [] tt [].

Definition diff_lines : list string :=
  ["diff --git a/libraries/drivers/foo b/libraries/drivers/foo";
   "index abc1234..def4567 160000";
   "--- a/libraries/drivers/foo";
   "+++ b/libraries/drivers/foo";
   "@@ -1 +1 @@";
   "-Subproject commit abc1234abc1234abc1234abc1234abc1234abc1234";
   "+Subproject commit def4567def4567def4567def4567def4567def4567"].

(** The variables of the loop once it has run over these lines. *)
Definition scanned : release_scan :=
  mkScan (Some "libraries/drivers/foo") (Some "index abc1234..def4567 160000")
         [] ["foo"]
         [("foo", "https://github.com/adafruit/foo/releases/1.2.0")]
         [(HStr "alice", 1%Z)].

End Scenario_release.

(** A commit whose author is not in the identity cache; the hosting
    service knows the author but not the committer. *)
Module Scenario_lookup.
Import Scripted.

Definition s : script := {|
  s_environ := [];
  s_missing := [];
  s_read := [];
  s_exec := [];
  s_tags := [];
  s_commits :=
    [("/repos/adafruit/lib/commits/c9",
      Ok {| ci_author := Some "dave"; ci_committer := None |});
     ("/repos/adafruit/lib/commits/c10",
      Ok {| ci_author := Some "dave"; ci_committer := Some "frank" |})];
  s_post := Ok {| ok := true; request_url := ""; text := "" |};
  s_submodules := Ok [];
  s_pypi := [];
  s_docs := []
|}.

Definition w0 : World unit :=
  mkWorld "/work/lib" [] [("github_username:erin@example.org", "erin")] []
          tt [].

End Scenario_lookup.

(** The bundle of Scenario_release when the hosting service refuses
    the release. *)
Module Scenario_rejected.
Import Scripted.

Definition refusal : response := {|
  ok := false;
  request_url :=
    "https://api.github.com/repos/adafruit/CircuitPython_Community_Bundle/releases";
  text := "Validation Failed"
|}.

Definition s : script := {|
  s_environ := s_environ Scenario_release.s;
  s_missing := s_missing Scenario_release.s;
  s_read := s_read Scenario_release.s;
  s_exec := s_exec Scenario_release.s;
  s_tags := s_tags Scenario_release.s;
  s_commits := s_commits Scenario_release.s;
  s_post := Ok refusal;
  s_submodules := s_submodules Scenario_release.s;
  s_pypi := s_pypi Scenario_release.s;
  s_docs := s_docs Scenario_release.s
|}.

End Scenario_rejected.

(** A continuous-integration run whose access token is not set, on a
    machine where the bundle has not been cloned yet. *)
Module Scenario_token.
Import Scripted.

Definition bundle_dir : string :=
  "/work/.bundles/Adafruit_CircuitPython_Bundle".

Definition s : script := {|
  s_environ := [("GITHUB_WORKSPACE", "/work")];
  s_missing := [bundle_dir];
  s_read := [];
  s_exec := [];
  s_tags := [];
  s_commits := [];
  s_post := Ok {| ok := true; request_url := ""; text := "" |};
  s_submodules := Ok [];
  s_pypi := [];
  s_docs := []
|}.

End Scenario_token.

(* ================================================================= *)
(** ** Vocabulary of the properties *)

(* ----------------------------------------------------------------- *)
(** *** Tallies *)

(** The weight of [k], or 0 when [k] is absent. *)
Definition weight (d : tally) (k : handle) : Z :=
  match tally_get k d with
  | Some v => v
  | None => 0%Z
  end.

(** A well-formed dictionary has no repeated key. *)
Definition well_formed (d : tally) : Prop := NoDup (keys d).

(** What a merge does to one key: absent on both sides stays absent,
    otherwise the weights add up. *)
Definition oplus (a b : option Z) : option Z :=
  match a, b with
  | None, None => None
  | Some x, None => Some x
  | None, Some y => Some y
  | Some x, Some y => Some (x + y)%Z
  end.

(** Two dictionaries are equal, as [==] on [dict], when they bind the
    same keys to the same weights. *)
Definition same_tally (a b : tally) : Prop :=
  forall k, tally_get k a = tally_get k b.

(** Folding a list of per-library tallies into a master tally. *)
Definition merge_all (master : tally) (tallies : list tally) : tally :=
  fold_left add_contributors tallies master.

(** Every weight in the tally is positive. *)
Definition positive (d : tally) : Prop :=
  forall k v, tally_get k d = Some v -> (0 < v)%Z.

(* ----------------------------------------------------------------- *)
(** *** Credits of one commit *)

(** [a == b] for optional handles. *)
Definition opt_handle_eqb (a b : option handle) : bool :=
  match a, b with
  | Some x, Some y => handle_eqb x y
  | None, None => true
  | _, _ => false
  end.

(** The author is resolved and is [k]. *)
Definition credits_author (author : option handle) (k : handle) : bool :=
  truthy author && opt_handle_eqb author (Some k).

(** The committer is resolved, is [k], and its email is not the
    sentinel address. *)
Definition names_committer (committer : option handle)
  (committer_email : string) (k : handle) : bool :=
  truthy committer
  && negb (String.eqb committer_email "noreply@github.com")
  && opt_handle_eqb committer (Some k).

(** The committer gets a credit of its own for [k]. *)
Definition credits_committer (author committer : option handle)
  (committer_email : string) (k : handle) : bool :=
  names_committer committer committer_email k
  && negb (opt_handle_eqb committer author).

(** 1 when [b] holds, 0 otherwise. *)
Definition one_if (b : bool) : Z := if b then 1%Z else 0%Z.

(** The author and the committer that count: resolved, and for the
    committer not behind the sentinel address. *)
Definition effective_author (author : option handle) : option handle :=
  if truthy author then author else None.

Definition effective_committer (committer : option handle)
  (committer_email : string) : option handle :=
  if String.eqb committer_email "noreply@github.com" then None
  else if truthy committer then committer else None.

(** [credit_commit] in four stages: touch the author, touch the
    committer, credit the author, credit the committer. *)
Definition staged_credit (ea ec : option handle) (d : tally) : tally :=
  let d1 := match ea with Some a => tally_touch a d | None => d end in
  let d2 := match ec with Some c => tally_touch c d1 | None => d1 end in
  let d3 := match ea with Some a => tally_incr a 1 d2 | None => d2 end in
  match ec with
  | Some c => if opt_handle_eqb ec ea then d3 else tally_incr c 1 d3
  | None => d3
  end.

(* ----------------------------------------------------------------- *)
(** *** Commands, status lines and calls *)

(** [os.chdir(p)] would succeed. *)
Definition enterable {Ext} (E : Env Ext) (w : World Ext) (p : string) : bool :=
  negb (String.eqb p "") && sys_isdir E (ext w) (path_join (cwd w) p).

(** The arguments of the exact-tag lookup. *)
Definition DESCRIBE (commit : string) : list string :=
  ["describe"; "--tags"; "--exact-match"; commit].

(** An unsupported change: the action is not [M], or the path is not
    under the libraries root. *)
Definition unsupported (action directory : string) : bool :=
  negb (String.eqb action "M") || negb (startswith "libraries" directory).

(** The commit range of a removed library: its new side is the all-zero
    sentinel and its old side is not (a range that starts with the
    sentinel is an added library, which the loop tests first). *)
Definition removed_range (commit_range : string) : bool :=
  negb (startswith "0000000" commit_range)
  && endswith "0000000" commit_range.

(** The calls to the release-creation endpoint, most recent first. *)
Definition posts {Ext} (w : World Ext) : list call := filter is_post (calls w).

(** A computation that never calls the release-creation endpoint. *)
Definition no_post {Ext A} (m : M Ext A) : Prop :=
  forall w, posts (snd (m w)) = posts w.

(** What the handler of the main loop prints. *)
Definition logged {Ext} (cp_bundle msg : string) (w : World Ext) : World Ext :=
  mkWorld (cwd w)
          (PText msg :: PText ("Failed to update and release: " ++ cp_bundle)
           :: out w)
          (redis w) (files w) (ext w) (calls w).

(* ----------------------------------------------------------------- *)
(** *** The listing document *)

(** No character of [s] is a line boundary. *)
Fixpoint linebreak_free (s : string) : bool :=
  match s with
  | "" => true
  | String c s' => negb (is_linebreak c) && linebreak_free s'
  end.

(** The text of a list of lines, each one ended by a line feed. *)
Definition lines_text (ls : list string) : string :=
  String.concat "" (map (fun line => line ++ NL) ls).

(** The lines of the header, as [splitlines] sees them. *)
Definition header_lines (lib_count : nat) : list string :=
  ["# Adafruit CircuitPython Libraries";
   "![Blinka Reading](https://raw.githubusercontent.com/adafruit/circuitpython-weekly-"
   ++ "newsletter/gh-pages/assets/archives/22_1023blinka.png)";
   "Here is a listing of current Adafruit CircuitPython Libraries.";
   "There are " ++ of_nat lib_count ++ " libraries available.";
   "";
   "## Drivers:"].

(** All the lines of the listing document. *)
Definition document_lines (lib_count : nat)
  (write_drivers write_helpers : list string) : list string :=
  (header_lines lib_count
   ++ py_sorted String.leb write_drivers
   ++ [""; "## Helpers:"]
   ++ py_sorted String.leb write_helpers)%list.

(** The line rendered for one library. *)
Definition list_line_of {Ext} (E : Env Ext) (e : Ext) (bundle_path : string)
  (sm : submodule) : result string :=
  let url := sm_url sm in
  let url_name := url_name_of url in
  rbind (repo_is_on_pypi E e url_name) (fun on_pypi =>
  let pypi_name :=
    if on_pypi : bool
    then " ([PyPi](https://pypi.org/project/"
         ++ lower (replace_char "_" "-" url_name) ++ "))"
    else "" in
  rbind (get_docs_link E e bundle_path sm) (fun docs_link =>
  let docs_name :=
    match docs_link with
    | Some link =>
        if String.eqb link "" then "" else " \([Docs](" ++ link ++ "))"
    | None => ""
    end in
  let title := replace_char "_" " " url_name in
  Ok ("* [" ++ title ++ "](" ++ url ++ ")" ++ pypi_name ++ docs_name))).

(** The library goes to one of the two sections of the document. *)
Definition categorized (sm : submodule) : bool :=
  contains "drivers" (sm_path sm) || contains "helpers" (sm_path sm).

(** The library goes to a section, and neither its URL nor its
    documentation link has a line boundary in it. *)
Definition listed {Ext} (E : Env Ext) (e : Ext) (bundle_path : string)
  (sm : submodule) : bool :=
  categorized sm
  && linebreak_free (sm_url sm)
  && match get_docs_link E e bundle_path sm with
     | Ok (Some link) => linebreak_free link
     | _ => true
     end.

(** Where the listing document of a bundle is, and what it holds. *)
Definition document_path {Ext} (bundle_path : string) (w : World Ext)
  : string :=
  path_join (cwd w) (path_join bundle_path LIB_LIST).

(** The text of the listing document, when there is one. *)
Definition document {Ext} (bundle_path : string) (w : World Ext)
  : option string :=
  store_get (document_path bundle_path w) (files w).

(** The libraries enumerated for the bundle, in the order of the loop. *)
Definition submodules_list {Ext} (E : Env Ext) (w : World Ext)
  : list submodule :=
  match get_bundle_submodules E (ext w) (cwd w) with
  | Ok submodules =>
      py_sorted (fun a b => String.leb (sm_path a) (sm_path b)) submodules
  | Raise _ => []
  end.

(* ----------------------------------------------------------------- *)
(** *** The process and its collaborators *)

(** The state in which a block under [Submodule] starts: the process
    has entered [directory]. *)
Definition entered {Ext} (w : World Ext) (directory : string) : World Ext :=
  mkWorld (path_join (cwd w) directory) (out w) (redis w) (files w) (ext w)
          (calls w).

(** The key of an email in the identity cache. *)
Definition cache_key (email : string) : string := "github_username:" ++ email.

(** The party credited after a remote lookup: the login the hosting
    service gave, or else the raw cache value. *)
Definition resolved_party (answer cached : option string) : option handle :=
  match answer with
  | Some login => Some (HStr login)
  | None => option_map HBytes cached
  end.

(** The address of the commit-detail lookup. *)
Definition commit_url (repo sha : string) : string :=
  "/repos/" ++ repo ++ "/commits/" ++ sha.

(** The author and the committer that a turn of the aggregator's loop
    credits for a commit, by the identity cache and the hosting service
    as they are when the turn starts: the decoded cache entries when
    both are there and not empty; otherwise, for each party, the login
    that the lookup of the commit gives, or else the raw cache entry.
    There is none when the lookup fails. *)
Definition resolved {Ext} (E : Env Ext) (e : Ext)
  (repo sha author_email committer_email : string) (cache : store)
  : option (option handle * option handle) :=
  let author := store_get (cache_key author_email) cache in
  let committer := store_get (cache_key committer_email) cache in
  if cache_miss author || cache_miss committer then
    match github_get_commit E e (commit_url repo sha) with
    | Ok info =>
        Some (resolved_party (ci_author info) author,
              resolved_party (ci_committer info) committer)
    | Raise _ => None
    end
  else Some (option_map HStr author, option_map HStr committer).

(** The cache once a login has been learnt for an email, if any. *)
Definition learn (email : string) (login : option string) (cache : store)
  : store :=
  match login with
  | Some l => store_set (cache_key email) l cache
  | None => cache
  end.

(** The identity cache after the turn: after a lookup it has learnt the
    logins the hosting service gave, the author's first. *)
Definition cache_after {Ext} (E : Env Ext) (e : Ext)
  (repo sha author_email committer_email : string) (cache : store) : store :=
  if cache_miss (store_get (cache_key author_email) cache)
     || cache_miss (store_get (cache_key committer_email) cache)
  then
    match github_get_commit E e (commit_url repo sha) with
    | Ok info =>
        learn committer_email (ci_committer info)
              (learn author_email (ci_author info) cache)
    | Raise _ => cache
    end
  else cache.

(** The tally of a log: every line is a commit [sha,author email,
    committer email], taken in order; each is credited by
    [credit_commit] to the author and the committer resolved when its
    turn comes, with the cache as the turns before have left it. *)
Inductive credited {Ext} (E : Env Ext) (e : Ext) (repo : string)
  : list string -> tally -> store -> tally -> store -> Prop :=
| credited_end (d : tally) (cache : store) :
    credited E e repo [] d cache d cache
| credited_commit (log_line : string) (rest : list string)
    (sha author_email committer_email : string)
    (author committer : option handle) (d d' : tally) (cache cache' : store) :
    split_on "," log_line = [sha; author_email; committer_email] ->
    resolved E e repo sha author_email committer_email cache
    = Some (author, committer) ->
    credited E e repo rest
      (credit_commit author committer committer_email d)
      (cache_after E e repo sha author_email committer_email cache)
      d' cache' ->
    credited E e repo (log_line :: rest) d cache d' cache'.

(** The arguments of the enumeration of the commits of a range, and the
    lines it gives in the world [w]: none when the output is blank. *)
Definition LOG_RANGE (commit_range : string) : list string :=
  ["log"; "--pretty=tformat:%H,%ae,%ce"; commit_range].

Definition log_lines {Ext} (E : Env Ext) (commit_range : string)
  (w : World Ext) : list string :=
  let output :=
    strip (snd (git_read E (ext w) (files w) (cwd w) (LOG_RANGE commit_range)))
  in
  if String.eqb output "" then [] else split_on LF output.

(** The line of a library is among the lines read from the previous
    document. *)
Definition line_known {Ext} (E : Env Ext) (e : Ext) (bundle_path : string)
  (read_lines : list string) (sm : submodule) : bool :=
  match list_line_of E e bundle_path sm with
  | Ok line => existsb (String.eqb line) read_lines
  | Raise _ => false
  end.

(** The lines read from the previous document: none when there is no
    document. *)
Definition previous_lines {Ext} (bundle_path : string) (w : World Ext)
  : list string :=
  match document bundle_path w with
  | Some t => splitlines t
  | None => []
  end.

(** The status line of the listing document, which the scanner skips. *)
Definition listing_line (status_line : string) : bool :=
  match split_ws status_line with
  | [_; directory] => endswith "library_list.md" directory
  | _ => false
  end.

(** The status line of a modified library. *)
Definition library_line (status_line : string) : bool :=
  match split_ws status_line with
  | [action; directory] =>
      String.eqb action "M" && startswith "libraries" directory
  | _ => false
  end.

(** The lines the scanner loops over: none for a blank report. *)
Definition status_lines (status : string) : list string :=
  if String.eqb status "" then [] else split_on LF status.

(* ----------------------------------------------------------------- *)
(** *** Releases *)

(** Every library named in the added or the updated list has a link
    of the form [<remote URL without its last four characters>/releases/<reference>]. *)
Definition links_complete (st : release_scan) : Prop :=
  forall library,
    In library (added_submodules st) \/ In library (updated_submodules st) ->
    exists repo_url release_tag,
      store_get library (repo_links st)
      = Some (drop_last 4 repo_url ++ "/releases/" ++ release_tag).

(** The reference whose tag names the release of a library: the new
    end of the range on the index line, where the range of an added
    library has been cut down to its new end first. *)
Definition new_reference (commit_range : string) : string :=
  last (split_on "."
          (if startswith "0000000" commit_range
           then last (split_on "." commit_range) ""
           else commit_range))
       "".

(** A turn of the loop of [new_release] that starts with the variables
    [st] in the world [w] lists [library] with [link]: the library is
    the last part of the current directory, its range is not that of a
    removal, and the link is built from the remote URL of the
    directory and from the tag of the new reference, both read in this
    turn. *)
Definition listing_turn {Ext} (E : Env Ext) (st : release_scan)
  (w : World Ext) (library link : string) : Prop :=
  exists index_line commit_range directory repo_url release_tag w1 w2,
    current_index st = Some index_line
    /\ nth_error (split_ws index_line) 1 = Some commit_range
    /\ (startswith "0000000" commit_range = true
        \/ endswith "0000000" commit_range = false)
    /\ current_submodule st = Some directory
    /\ library = last (split_on "/" directory) ""
    /\ repo_remote_url E directory w = (Ok repo_url, w1)
    /\ commit_to_tag E directory (new_reference commit_range) w1
       = (Ok release_tag, w2)
    /\ link = drop_last 4 repo_url ++ "/releases/" ++ release_tag.

(** The address of the release-creation endpoint of a bundle. *)
Definition releases_url (bundle : string) : string :=
  "/repos/adafruit/" ++ bundle ++ "/releases".

(** The arguments of the diff against the last release and of the
    lookup of the head commit. *)
Definition DIFF_SINCE (last_tag : string) : list string :=
  ["diff"; "--submodule=short"; last_tag ++ ".."].

Definition HEAD_SHA : list string := ["log"; "--pretty=format:%H"; "-n"; "1"].

(** The payload built from the variables of the loop, the clock and
    the head commit. *)
Definition release_payload {Ext} (E : Env Ext) (e : Ext) (st : release_scan)
  (sha : string) : release :=
  {| tag_name := strftime_today E e "%Y%m%d";
     target_commitish := sha;
     name := strftime_today E e "%B" ++ " " ++ strftime_today E e "%d" ++ ", "
             ++ strftime_today E e "%Y" ++ " auto-release";
     body := join NL (release_description (added_submodules st)
                        (updated_submodules st) (repo_links st)
                        (contributors st));
     draft := false;
     prerelease := false |}.

(** A command that never changes the working directory, whatever its
    outcome. *)
Definition stays {Ext A} (m : M Ext A) : Prop :=
  forall w, cwd (snd (m w)) = cwd w.

(** Text without the separator of the parts of an address. *)
Definition slash_free (s : string) : bool :=
  forallb (fun c => negb (Ascii.eqb c "/")) (list_ascii_of_string s).

(** Text without a dot. *)
Definition dot_free (s : string) : bool :=
  forallb (fun c => negb (Ascii.eqb c ".")) (list_ascii_of_string s).

(** The commands [fetch_bundle] runs inside the bundle. *)
Definition REFRESH (dir : string) : list call :=
  [GitCall dir ["pull"];
   GitCall dir ["submodule"; "init"];
   GitCall dir ["submodule"; "update"]].

(** The commands of [repo_version], run where the program was started. *)
Definition VERSION (dir : string) : list call :=
  [GitCall dir ["describe"; "--tags"; "--exact-match"];
   GitCall dir ["log"; "--pretty=format:%h"; "-n"; "1"]].

(** The address of a change record. *)
Definition url_of (u : update) : string := fst (fst (fst u)).

(** Commands run one after the other in [dir], each in the state the
    one before has left, up to and including the first whose exit
    status is not zero: the calls made, newest first, the exit status
    of the last command run, and the state left behind. *)
Fixpoint run_in_order {Ext} (E : Env Ext) (dir : string)
  (commands : list (list string)) (e : Ext) (f : store)
  : list call * nat * (Ext * store) :=
  match commands with
  | [] => ([], 0, (e, f))
  | argv :: rest =>
      let '(code, (e', f')) := git_exec E e f dir argv in
      if (code =? 0)%nat then
        let '(done, code', s) := run_in_order E dir rest e' f' in
        ((done ++ [GitCall dir argv])%list, code', s)
      else ([GitCall dir argv], code, (e', f'))
  end.

(** The arguments of the diff of one library. *)
Definition DIFF_LOG (directory : string) : list string :=
  ["diff"; "--submodule=log"; directory].

(** The change records of a status report, read line by line: the line
    of the listing document gives none; the line of a modified library
    gives the record made of its remote URL without the last four
    characters, the tags (or commits) of the two ends of the range on
    the first line of its diff, and the lines of the diff between the
    first and the last.  The worlds are those the commands are run in,
    one after the other. *)
Inductive scanned {Ext} (E : Env Ext)
  : list string -> World Ext -> list update -> World Ext -> Prop :=
| scanned_end (w : World Ext) : scanned E [] w [] w
| scanned_listing (status_line : string) (lines : list string)
    (w w' : World Ext) (records : list update) :
    listing_line status_line = true ->
    scanned E lines w records w' ->
    scanned E (status_line :: lines) w records w'
| scanned_library (status_line : string) (lines : list string)
    (directory diff commit_range old_commit new_commit url : string)
    (w w2 w3 w4 w' : World Ext) (records : list update) :
    split_ws status_line = ["M"; directory] ->
    endswith "library_list.md" directory = false ->
    startswith "libraries" directory = true ->
    git_read E (ext w) (files w) (cwd w) (DIFF_LOG directory) = (0, diff) ->
    nth_error (split_ws (hd "" (split_on LF diff))) 2 = Some commit_range ->
    commit_to_tag E directory
      (hd "" (split_on "." (strip_char ":" commit_range)))
      (record_call (GitCall (cwd w) (DIFF_LOG directory)) w)
    = (Ok old_commit, w2) ->
    commit_to_tag E directory
      (last (split_on "." (strip_char ":" commit_range)) "") w2
    = (Ok new_commit, w3) ->
    repo_remote_url E directory w3 = (Ok url, w4) ->
    scanned E lines w4 records w' ->
    scanned E (status_line :: lines) w
      ((drop_last 4 url, old_commit, new_commit,
        join NL (middle (split_on LF diff))) :: records)
      w'.

(* ================================================================= *)
(** * Properties *)

(* ----------------------------------------------------------------- *)
(** ** The model on concrete inputs *)

Example split_ws_status_line :
  split_ws " M libraries/drivers/foo" = ["M"; "libraries/drivers/foo"].
Proof. reflexivity. Qed.

Example split_ws_rename : List.length (split_ws "R  old -> new") = 4.
Proof. reflexivity. Qed.

Example split_on_three_dots :
  split_on "." "abc123...def456" = ["abc123"; ""; ""; "def456"].
Proof. reflexivity. Qed.

Example strip_char_colon : strip_char ":" "abc123..def456:" = "abc123..def456".
Proof. reflexivity. Qed.

Example strip_blank : strip ("  ab c " ++ NL) = "ab c".
Proof. reflexivity. Qed.

Example splitlines_final_boundary :
  splitlines ("a" ++ NL ++ NL ++ "b" ++ NL) = ["a"; ""; "b"].
Proof. reflexivity. Qed.

Example splitlines_crlf :
  splitlines ("a" ++ String CR NL ++ "b") = ["a"; "b"].
Proof. reflexivity. Qed.

Example endswith_listing :
  endswith "library_list.md" "circuitpython_library_list.md" = true.
Proof. reflexivity. Qed.

Example url_name_of_git :
  url_name_of "https://github.com/adafruit/Adafruit_CircuitPython_Foo.git"
  = "Adafruit_CircuitPython_Foo".
Proof. reflexivity. Qed.

Example repo_name_git :
  repo_name "https://github.com/adafruit/foo.git" = Ok "adafruit/foo".
Proof. reflexivity. Qed.

Example middle_lines : middle ["first"; "a"; "b"; ""] = ["a"; "b"].
Proof. reflexivity. Qed.

Example sorted_contributors_stable :
  sorted_contributors
    [(HStr "a", 1%Z); (HStr "b", 3%Z); (HStr "c", 1%Z); (HStr "d", 3%Z)]
  = [HStr "b"; HStr "d"; HStr "a"; HStr "c"].
Proof. reflexivity. Qed.

Example credit_commit_noreply :
  credit_commit (Some (HStr "alice")) (Some (HStr "web-flow"))
                "noreply@github.com" []
  = [(HStr "alice", 1%Z)].
Proof. reflexivity. Qed.

Example credit_commit_both :
  credit_commit (Some (HStr "bob")) (Some (HStr "carol")) "carol@example.org"
                [(HStr "carol", 2%Z)]
  = [(HStr "carol", 3%Z); (HStr "bob", 1%Z)].
Proof. reflexivity. Qed.

(** The release of a bundle with one updated library whose new commit
    carries the tag [1.2.0]. *)
Example new_release_updated_library :
  match calls (snd (new_release (Scripted.env_of Scenario_release.s)
                      "CircuitPython_Community_Bundle"
                      Scenario_release.bundle_dir Scenario_release.w0)) with
  | GithubPost url payload :: _ =>
      String.eqb url "/repos/adafruit/CircuitPython_Community_Bundle/releases"
      && startswith
           ("Updated libraries: "
            ++ "[foo](https://github.com/adafruit/foo/releases/1.2.0)" ++ NL
            ++ NL ++ "As always, thank you to all of our contributors: @alice")
           (body payload)
      && negb (draft payload) && negb (prerelease payload)
  | _ => false
  end = true.
Proof. vm_compute. reflexivity. Qed.

(* ----------------------------------------------------------------- *)
(** ** Tallies as dictionaries *)

Module TallyFacts.

Lemma handle_eqb_eq (a b : handle) : handle_eqb a b = true <-> a = b.
Proof.
  destruct a as [x|x], b as [y|y]; simpl;
    try (split; [discriminate | intros H; inversion H; fail]);
    rewrite String.eqb_eq; split; intros H;
    [subst; reflexivity | inversion H; reflexivity
    | subst; reflexivity | inversion H; reflexivity].
Qed.

Lemma handle_eqb_refl (a : handle) : handle_eqb a a = true.
Proof. apply handle_eqb_eq; reflexivity. Qed.

Lemma handle_eqb_neq (a b : handle) : handle_eqb a b = false <-> a <> b.
Proof.
  split.
  - intros H Heq. apply handle_eqb_eq in Heq. congruence.
  - intros H. destruct (handle_eqb a b) eqn:Hab; [|reflexivity].
    apply handle_eqb_eq in Hab. contradiction.
Qed.

Lemma handle_eqb_sym (a b : handle) : handle_eqb a b = handle_eqb b a.
Proof.
  destruct (handle_eqb b a) eqn:H.
  - apply handle_eqb_eq in H. subst. apply handle_eqb_refl.
  - apply handle_eqb_neq in H. apply handle_eqb_neq. congruence.
Qed.

Lemma get_set (k k' : handle) (v : Z) (d : tally) :
  tally_get k' (tally_set k v d)
  = if handle_eqb k' k then Some v else tally_get k' d.
Proof.
  induction d as [|[k0 v0] d IH]; simpl.
  - destruct (handle_eqb k' k); reflexivity.
  - destruct (handle_eqb k k0) eqn:Hk; simpl.
    + apply handle_eqb_eq in Hk. subst k0.
      destruct (handle_eqb k' k); reflexivity.
    + rewrite IH. destruct (handle_eqb k' k0) eqn:Hk'; [|reflexivity].
      apply handle_eqb_eq in Hk'. subst k0.
      rewrite handle_eqb_sym, Hk. reflexivity.
Qed.

Lemma get_incr (k k' : handle) (n : Z) (d : tally) :
  tally_get k' (tally_incr k n d)
  = if handle_eqb k' k
    then option_map (fun v => (v + n)%Z) (tally_get k d)
    else tally_get k' d.
Proof.
  unfold tally_incr. destruct (tally_get k d) as [v|] eqn:Hk.
  - rewrite get_set. reflexivity.
  - destruct (handle_eqb k' k) eqn:Hk'; [|reflexivity].
    apply handle_eqb_eq in Hk'. subst. simpl. assumption.
Qed.

Lemma get_touch (k k' : handle) (d : tally) :
  tally_get k' (tally_touch k d)
  = if handle_eqb k' k then Some (weight d k) else tally_get k' d.
Proof.
  unfold tally_touch, tally_mem, weight.
  destruct (tally_get k d) as [v|] eqn:Hk.
  - destruct (handle_eqb k' k) eqn:Hk'; [|reflexivity].
    apply handle_eqb_eq in Hk'. subst. assumption.
  - rewrite get_set. reflexivity.
Qed.

Lemma get_absent (k : handle) (d : tally) :
  ~ In k (keys d) -> tally_get k d = None.
Proof.
  induction d as [|[k0 v0] d IH]; simpl; intros H; [reflexivity|].
  destruct (handle_eqb k k0) eqn:Hk.
  - apply handle_eqb_eq in Hk. subst. exfalso. apply H. left. reflexivity.
  - apply IH. intros Hin. apply H. right. assumption.
Qed.

Lemma get_present (k : handle) (d : tally) :
  In k (keys d) <-> tally_get k d <> None.
Proof.
  split.
  - induction d as [|[k0 v0] d IH]; simpl; intros H; [contradiction|].
    destruct (handle_eqb k k0) eqn:Hk; [discriminate|].
    destruct H as [H|H]; [|apply IH; assumption].
    subst. rewrite handle_eqb_refl in Hk. discriminate.
  - induction d as [|[k0 v0] d IH]; simpl; intros H; [congruence|].
    destruct (handle_eqb k k0) eqn:Hk.
    + apply handle_eqb_eq in Hk. left. congruence.
    + right. apply IH. assumption.
Qed.

Lemma keys_set (k : handle) (v : Z) (d : tally) :
  keys (tally_set k v d)
  = if tally_mem k d then keys d else (keys d ++ [k])%list.
Proof.
  unfold tally_mem, keys.
  induction d as [|[k0 v0] d IH]; simpl; [reflexivity|].
  destruct (handle_eqb k k0) eqn:Hk; simpl; [reflexivity|].
  rewrite IH. destruct (tally_get k d); reflexivity.
Qed.

Lemma well_formed_set (k : handle) (v : Z) (d : tally) :
  well_formed d -> well_formed (tally_set k v d).
Proof.
  unfold well_formed. intros H. rewrite keys_set.
  destruct (tally_mem k d) eqn:Hm; [assumption|].
  apply NoDup_app; [assumption | repeat constructor; simpl; tauto |].
  intros x Hx [Hk|[]]. subst x. apply get_present in Hx.
  unfold tally_mem in Hm. destruct (tally_get k d); congruence.
Qed.

Lemma well_formed_incr (k : handle) (n : Z) (d : tally) :
  well_formed d -> well_formed (tally_incr k n d).
Proof.
  unfold tally_incr. intros H.
  destruct (tally_get k d); [apply well_formed_set|]; assumption.
Qed.

Lemma well_formed_touch (k : handle) (d : tally) :
  well_formed d -> well_formed (tally_touch k d).
Proof.
  unfold tally_touch. intros H.
  destruct (tally_mem k d); [|apply well_formed_set]; assumption.
Qed.

Lemma oplus_comm (a b : option Z) : oplus a b = oplus b a.
Proof. destruct a, b; simpl; f_equal; lia. Qed.

Lemma oplus_assoc (a b c : option Z) :
  oplus (oplus a b) c = oplus a (oplus b c).
Proof. destruct a, b, c; simpl; f_equal; lia. Qed.

Lemma oplus_none_r (a : option Z) : oplus a None = a.
Proof. destruct a; reflexivity. Qed.

Lemma get_add_one (m : tally) (k k' : handle) (v : Z) :
  tally_get k' (tally_incr k v (tally_touch k m))
  = if handle_eqb k' k then oplus (tally_get k m) (Some v)
    else tally_get k' m.
Proof.
  rewrite get_incr, !get_touch, handle_eqb_refl. unfold weight.
  destruct (handle_eqb k' k); [|reflexivity].
  destruct (tally_get k m); simpl; f_equal; lia.
Qed.

Lemma get_add_contributors (additions : tally) :
  well_formed additions ->
  forall (master : tally) (k : handle),
    tally_get k (add_contributors master additions)
    = oplus (tally_get k master) (tally_get k additions).
Proof.
  unfold add_contributors.
  induction additions as [|[k0 v0] x IH]; intros Hwf master k; simpl.
  - symmetry. apply oplus_none_r.
  - inversion Hwf as [|? ? Hout Hwf']; subst.
    rewrite (IH Hwf'), get_add_one.
    destruct (handle_eqb k k0) eqn:Hk.
    + apply handle_eqb_eq in Hk. subst k0.
      rewrite (get_absent _ _ Hout), oplus_none_r. reflexivity.
    + reflexivity.
Qed.

Lemma well_formed_add_contributors (additions master : tally) :
  well_formed master -> well_formed (add_contributors master additions).
Proof.
  unfold add_contributors. revert master.
  induction additions as [|[k0 v0] x IH]; intros master H; simpl.
  - assumption.
  - apply IH, well_formed_incr, well_formed_touch. assumption.
Qed.

Lemma merge_all_same (tallies : list tally) :
  Forall well_formed tallies ->
  forall m1 m2, same_tally m1 m2 ->
    same_tally (merge_all m1 tallies) (merge_all m2 tallies).
Proof.
  unfold merge_all.
  induction 1 as [|t ts Ht _ IH]; intros m1 m2 Hm; simpl; [assumption|].
  apply IH. intros k. rewrite !get_add_contributors by assumption.
  rewrite (Hm k). reflexivity.
Qed.

Lemma merge_all_perm (l l' : list tally) :
  Permutation l l' -> Forall well_formed l ->
  forall master, same_tally (merge_all master l) (merge_all master l').
Proof.
  induction 1 as [|t l l' Hp IH|t u l|l l' l'' Hp1 IH1 Hp2 IH2];
    intros Hwf master.
  - intros k. reflexivity.
  - inversion Hwf; subst. simpl. apply IH. assumption.
  - inversion Hwf as [|? ? Hu Hwf']; subst.
    inversion Hwf' as [|? ? Ht Hl]; subst.
    simpl. apply merge_all_same; [assumption|].
    intros k. rewrite !get_add_contributors by assumption.
    rewrite !oplus_assoc, (oplus_comm (tally_get k u)). reflexivity.
  - intros k. rewrite (IH1 Hwf master k).
    apply IH2. apply (Permutation_Forall Hp1). assumption.
Qed.

End TallyFacts.

Import TallyFacts.

(** C6.  Folding per-library tallies into a master tally with
    [add_contributors] gives the same mapping from contributor to weight
    whatever the order of the tallies; the merge of two tallies is
    commutative and associative.  Tallies are dictionaries: no key is
    repeated. *)
Theorem add_contributors_order_independent
  (master : tally) (tallies tallies' : list tally) (a b c : tally) :
  Forall well_formed tallies ->
  Permutation tallies tallies' ->
  well_formed a -> well_formed b -> well_formed c ->
  same_tally (merge_all master tallies) (merge_all master tallies')
  /\ same_tally (add_contributors a b) (add_contributors b a)
  /\ same_tally (add_contributors (add_contributors a b) c)
                (add_contributors a (add_contributors b c)).
Proof.
  intros Hwf Hperm Ha Hb Hc. split; [|split].
  - apply merge_all_perm; assumption.
  - intros k. rewrite !get_add_contributors by assumption.
    apply oplus_comm.
  - intros k.
    rewrite !get_add_contributors
      by (try assumption; apply well_formed_add_contributors; assumption).
    apply oplus_assoc.
Qed.

(* ----------------------------------------------------------------- *)
(** ** Crediting one commit *)

Module CreditFacts.

Lemma touch_if (b : bool) (k : handle) (d : tally) :
  (if b && negb (tally_mem k d) then tally_set k 0 d else d)
  = if b then tally_touch k d else d.
Proof.
  unfold tally_touch. destruct b, (tally_mem k d); reflexivity.
Qed.

Lemma truthy_differ (a c : handle) :
  truthy (Some c) = true -> truthy (Some a) = false -> handle_eqb c a = false.
Proof.
  intros Hc Ha. apply handle_eqb_neq. intros Heq. subst. congruence.
Qed.

Lemma credit_commit_staged (author committer : option handle)
  (committer_email : string) (d : tally) :
  credit_commit author committer committer_email d
  = staged_credit (effective_author author)
                  (effective_committer committer committer_email) d.
Proof.
  unfold credit_commit, staged_credit, effective_author, effective_committer.
  destruct (String.eqb committer_email "noreply@github.com");
    destruct author as [a|], committer as [c|];
    rewrite ?touch_if;
    try (destruct (truthy (Some a)) eqn:Ta);
    try (destruct (truthy (Some c)) eqn:Tc);
    cbn [opt_handle_eqb truthy andb negb]; try reflexivity.
  - destruct (handle_eqb c a); reflexivity.
  - rewrite (truthy_differ a c Tc Ta). reflexivity.
Qed.

Ltac split_eqb :=
  repeat match goal with
         | |- context [handle_eqb ?x ?y] =>
             let H := fresh "H" in
             destruct (handle_eqb x y) eqn:H;
             [apply handle_eqb_eq in H; subst;
              rewrite ?handle_eqb_refl in * |];
             try discriminate
         end.

Lemma get_staged_credit (ea ec : option handle) (d : tally) (k : handle) :
  tally_get k (staged_credit ea ec d)
  = if opt_handle_eqb ea (Some k) || opt_handle_eqb ec (Some k)
    then Some (weight d k
               + one_if (opt_handle_eqb ea (Some k))
               + one_if (opt_handle_eqb ec (Some k)
                         && negb (opt_handle_eqb ec ea)))%Z
    else tally_get k d.
Proof.
  unfold staged_credit.
  destruct ea as [a|], ec as [c|];
    cbn zeta beta iota delta [opt_handle_eqb orb andb negb one_if];
    try match goal with
        | |- context [if handle_eqb ?x ?y then _ else tally_incr _ _ _] =>
            let H := fresh "H" in
            destruct (handle_eqb x y) eqn:H;
            [apply handle_eqb_eq in H; subst |]
        end;
    repeat (rewrite get_incr || rewrite get_touch);
    split_eqb;
    cbn [orb andb negb one_if option_map];
    repeat (progress (unfold weight;
                      repeat (rewrite get_incr || rewrite get_touch)));
    rewrite ?handle_eqb_refl;
    repeat match goal with
           | H : handle_eqb _ _ = false |- _ => rewrite H
           end;
    repeat match goal with
           | |- context [tally_get ?x ?y] => destruct (tally_get x y)
           end;
    cbn [option_map]; try reflexivity; f_equal; lia.
Qed.

(** The weight of every key after one commit. *)
Lemma get_credit_commit (author committer : option handle)
  (committer_email : string) (d : tally) (k : handle) :
  tally_get k (credit_commit author committer committer_email d)
  = if credits_author author k || names_committer committer committer_email k
    then Some (weight d k
               + one_if (credits_author author k)
               + one_if (credits_committer author committer committer_email k))%Z
    else tally_get k d.
Proof.
  rewrite credit_commit_staged, get_staged_credit.
  unfold credits_committer, names_committer, credits_author,
    effective_author, effective_committer.
  destruct (String.eqb committer_email "noreply@github.com");
    destruct (truthy author) eqn:Ta; destruct (truthy committer) eqn:Tc;
    cbn [opt_handle_eqb andb orb negb one_if]; try reflexivity;
    destruct author as [a|], committer as [c|];
    cbn [opt_handle_eqb andb orb negb one_if]; try reflexivity;
    try discriminate.
  rewrite (truthy_differ a c Tc Ta). reflexivity.
Qed.

Lemma weight_credit_commit (author committer : option handle)
  (committer_email : string) (d : tally) (k : handle) :
  weight (credit_commit author committer committer_email d) k
  = (weight d k
     + one_if (credits_author author k)
     + one_if (credits_committer author committer committer_email k))%Z.
Proof.
  unfold weight at 1. rewrite get_credit_commit.
  unfold credits_committer.
  destruct (credits_author author k),
    (names_committer committer committer_email k);
    cbn [orb andb one_if]; try reflexivity.
  unfold weight. lia.
Qed.

Lemma mem_credit_commit (author committer : option handle)
  (committer_email : string) (d : tally) (k : handle) :
  tally_mem k (credit_commit author committer committer_email d)
  = tally_mem k d || credits_author author k
    || names_committer committer committer_email k.
Proof.
  unfold tally_mem at 1. rewrite get_credit_commit.
  rewrite <- orb_assoc.
  destruct (credits_author author k || names_committer committer
                                         committer_email k).
  - rewrite orb_true_r. reflexivity.
  - rewrite orb_false_r. reflexivity.
Qed.

(** Whoever is named by a commit gets at least one credit from it. *)
Lemma named_is_credited (author committer : option handle)
  (committer_email : string) (k : handle) :
  credits_author author k || names_committer committer committer_email k
  = true ->
  (1 <= one_if (credits_author author k)
        + one_if (credits_committer author committer committer_email k))%Z.
Proof.
  unfold credits_committer, names_committer, credits_author.
  destruct author as [a|], committer as [c|];
    cbn [opt_handle_eqb];
    repeat match goal with
           | |- context [truthy ?x] => destruct (truthy x) eqn:?
           | |- context [String.eqb ?x ?y] => destruct (String.eqb x y)
           end;
    cbn [andb orb negb one_if]; try discriminate; try lia;
    split_eqb; cbn [andb orb negb one_if]; try discriminate; try lia;
    congruence.
Qed.

Lemma positive_credit_commit (author committer : option handle)
  (committer_email : string) (d : tally) :
  positive d -> positive (credit_commit author committer committer_email d).
Proof.
  intros Hd k v. rewrite get_credit_commit.
  destruct (credits_author author k
            || names_committer committer committer_email k) eqn:Hn.
  - intros Hv. inversion Hv; subst; clear Hv.
    pose proof (named_is_credited _ _ _ _ Hn) as Hone.
    assert (0 <= weight d k)%Z; [|lia].
    unfold weight. destruct (tally_get k d) as [u|] eqn:Hu; [|lia].
    apply Hd in Hu. lia.
  - apply Hd.
Qed.

End CreditFacts.

(* ----------------------------------------------------------------- *)
(** ** Running the engine *)

Section Runs.

Variable Ext : Type.
Variable E : Env Ext.

Lemma bind_ok {A B} (m : M Ext A) (f : A -> M Ext B) (w w' : World Ext)
  (a : A) :
  m w = (Ok a, w') -> bind m f w = f a w'.
Proof. unfold bind. intros ->. reflexivity. Qed.

Lemma bind_raise {A B} (m : M Ext A) (f : A -> M Ext B) (w w' : World Ext)
  (e : exn) :
  m w = (Raise e, w') -> bind m f w = (Raise e, w').
Proof. unfold bind. intros ->. reflexivity. Qed.

Lemma bind_inv {A B} (m : M Ext A) (f : A -> M Ext B) (w w' : World Ext)
  (b : B) :
  bind m f w = (Ok b, w') ->
  exists a w1, m w = (Ok a, w1) /\ f a w1 = (Ok b, w').
Proof.
  unfold bind. destruct (m w) as [[a|e] w1]; intros H.
  - exists a, w1. split; [reflexivity | assumption].
  - discriminate.
Qed.

(** A loop keeps what each of its turns keeps. *)
Lemma for_each_invariant {A S} (P : S -> Prop) (body : S -> A -> M Ext S)
  (l : list A) :
  (forall s x w s' w', body s x w = (Ok s', w') -> P s -> P s') ->
  forall s w s' w', for_each l body s w = (Ok s', w') -> P s -> P s'.
Proof.
  intros Hbody. induction l as [|x l IH]; intros s w s' w' H Hs.
  - inversion H; subst. assumption.
  - simpl in H. apply bind_inv in H. destruct H as (s1 & w1 & H1 & H2).
    eapply IH; [exact H2|]. eapply Hbody; eassumption.
Qed.

(** The state a loop leaves behind, whatever its outcome. *)
Lemma for_each_frame {A S} (Q : World Ext -> World Ext -> Prop)
  (body : S -> A -> M Ext S) (l : list A) :
  (forall w, Q w w) ->
  (forall w1 w2 w3, Q w1 w2 -> Q w2 w3 -> Q w1 w3) ->
  (forall s x w, Q w (snd (body s x w))) ->
  forall s w, Q w (snd (for_each l body s w)).
Proof.
  intros Hrefl Htrans Hbody. induction l as [|x l IH]; intros s w.
  - apply Hrefl.
  - simpl. unfold bind. specialize (Hbody s x w).
    destruct (body s x w) as [[s1|e] w1]; simpl in *.
    + eapply Htrans; [exact Hbody | apply IH].
    + assumption.
Qed.

(** Each turn of the aggregator's loop is one [credit_commit]. *)
Lemma contributors_step_credit (repo : string) (d d' : tally)
  (log_line : string) (w w' : World Ext) :
  contributors_step E repo d log_line w = (Ok d', w') ->
  exists sha author_email committer_email author committer,
    split_on "," log_line = [sha; author_email; committer_email]
    /\ d' = credit_commit author committer committer_email d.
Proof.
  unfold contributors_step.
  destruct (split_on "," log_line) as [|sha [|ae [|ce [|]]]];
    try (cbv [raise]; discriminate).
  intros H.
  apply bind_inv in H. destruct H as (a0 & w1 & _ & H).
  apply bind_inv in H. destruct H as (c0 & w2 & _ & H).
  apply bind_inv in H. destruct H as ([a c] & w3 & _ & H).
  inversion H; subst.
  exists sha, ae, ce, a, c. split; reflexivity.
Qed.

Lemma get_contributors_positive (repo commit_range : string)
  (w w' : World Ext) (d : tally) :
  get_contributors E repo commit_range w = (Ok d, w') ->
  positive d.
Proof.
  unfold get_contributors. intros H.
  apply bind_inv in H. destruct H as ([code output] & w1 & _ & H).
  apply bind_inv in H. destruct H as (u & w2 & _ & H).
  destruct (String.eqb (strip output) "").
  - inversion H; subst. intros k v Hk. discriminate.
  - eapply (for_each_invariant positive); [|exact H|].
    + intros s x w0 s' w0' Hstep Hs.
      apply contributors_step_credit in Hstep.
      destruct Hstep as (sha & ae & ce & a & c & _ & ->).
      apply CreditFacts.positive_credit_commit. assumption.
    + intros k v Hk. discriminate.
Qed.

End Runs.

Lemma add_contributors_order_independent_witness :
  same_tally
    (merge_all Scenario_tallies.master
       [Scenario_tallies.lib_a; Scenario_tallies.lib_b; Scenario_tallies.lib_c])
    (merge_all Scenario_tallies.master
       [Scenario_tallies.lib_c; Scenario_tallies.lib_a; Scenario_tallies.lib_b])
  /\ same_tally
       (add_contributors Scenario_tallies.lib_a Scenario_tallies.lib_b)
       (add_contributors Scenario_tallies.lib_b Scenario_tallies.lib_a)
  /\ same_tally
       (add_contributors
          (add_contributors Scenario_tallies.lib_a Scenario_tallies.lib_b)
          Scenario_tallies.lib_c)
       (add_contributors Scenario_tallies.lib_a
          (add_contributors Scenario_tallies.lib_b Scenario_tallies.lib_c)).
Proof.
  assert (Ha : well_formed Scenario_tallies.lib_a).
  { repeat constructor; simpl; intuition discriminate. }
  assert (Hb : well_formed Scenario_tallies.lib_b).
  { repeat constructor; simpl; intuition discriminate. }
  assert (Hc : well_formed Scenario_tallies.lib_c).
  { repeat constructor; simpl; intuition discriminate. }
  apply (add_contributors_order_independent Scenario_tallies.master
           [Scenario_tallies.lib_a; Scenario_tallies.lib_b;
            Scenario_tallies.lib_c]
           [Scenario_tallies.lib_c; Scenario_tallies.lib_a;
            Scenario_tallies.lib_b]
           Scenario_tallies.lib_a Scenario_tallies.lib_b
           Scenario_tallies.lib_c); try assumption.
  - apply Forall_cons; [exact Ha|].
    apply Forall_cons; [exact Hb|].
    apply Forall_cons; [exact Hc|]. apply Forall_nil.
  - apply Permutation_sym.
    apply (Permutation_cons_app [Scenario_tallies.lib_a; Scenario_tallies.lib_b]
                                [] Scenario_tallies.lib_c).
    rewrite app_nil_r. apply Permutation_refl.
Defined.

Import CreditFacts.

(* ----------------------------------------------------------------- *)
(** ** The contributor aggregator *)

(** A turn of the aggregator's loop that completes has credited the
    parties resolved for its commit, and has left the cache with what
    the lookup has taught it. *)
Lemma contributors_step_turn {Ext} (E : Env Ext) (repo : string)
  (d d' : tally) (log_line : string) (w w' : World Ext) :
  contributors_step E repo d log_line w = (Ok d', w') ->
  exists sha author_email committer_email author committer,
    split_on "," log_line = [sha; author_email; committer_email]
    /\ resolved E (ext w) repo sha author_email committer_email (redis w)
       = Some (author, committer)
    /\ d' = credit_commit author committer committer_email d
    /\ redis w'
       = cache_after E (ext w) repo sha author_email committer_email (redis w)
    /\ ext w' = ext w.
Proof.
  unfold contributors_step.
  destruct (split_on "," log_line) as [|sha [|ae [|ce [|]]]];
    try (cbv [raise]; discriminate).
  intros H. exists sha, ae, ce.
  unfold bind at 1 in H. unfold redis_get at 1 in H. cbv beta iota in H.
  unfold bind at 1 in H. unfold redis_get at 1 in H. cbv beta iota in H.
  fold (cache_key ae) in H. fold (cache_key ce) in H.
  unfold resolved, cache_after.
  destruct (cache_miss (store_get (cache_key ae) (redis w))
            || cache_miss (store_get (cache_key ce) (redis w))).
  - unfold bind at 1 2 in H. unfold github_get_commit_info at 1 in H.
    fold (commit_url repo sha) in H.
    destruct (github_get_commit E (ext w) (commit_url repo sha))
      as [[[la|] [lc|]]|e]; [| | | |discriminate H];
      unfold bind, redis_set, ret, record_call in H;
      cbn [cwd out redis files ext calls ci_author ci_committer] in H;
      injection H as <- <-;
      eexists; eexists; repeat split.
  - unfold bind, ret in H. injection H as <- <-.
    eexists; eexists; repeat split.
Qed.

(** The loop of the aggregator is the crediting of the log, line by
    line. *)
Lemma contributors_loop_credited {Ext} (E : Env Ext) (repo : string)
  (lines : list string) :
  forall (d d' : tally) (w w' : World Ext),
    for_each lines (contributors_step E repo) d w = (Ok d', w') ->
    credited E (ext w) repo lines d (redis w) d' (redis w').
Proof.
  induction lines as [|l lines IH]; intros d d' w w' H.
  - cbn [for_each] in H. unfold ret in H. injection H as <- <-. constructor.
  - cbn [for_each] in H. apply bind_inv in H.
    destruct H as (d1 & w1 & Hstep & Hrest).
    apply contributors_step_turn in Hstep.
    destruct Hstep as (sha & ae & ce & a & c & Hsplit & Hres & -> & Hcache
                       & Hext).
    apply IH in Hrest. rewrite Hext, Hcache in Hrest.
    eapply credited_commit; eassumption.
Qed.

(** C5.  The tally that [get_contributors] returns is the crediting of
    the enumerated log, commit by commit and in order, to the author
    and the committer resolved for each commit by the cache and the
    hosting service; every turn of its loop is one such crediting.  A
    crediting is [credit_commit]: the resolved author's weight grows
    by 1; the committer's weight grows by 1 of its own exactly when
    the committer is resolved, differs from the author and its email
    is not [noreply@github.com]; a contributor is present afterwards
    exactly when it was present before or is named by the commit, a
    new one starting from 0.  Every contributor in the returned tally
    has a positive weight. *)
Theorem get_contributors_credits {Ext} (E : Env Ext)
  (repo commit_range : string) (w w' : World Ext) (d : tally) :
  get_contributors E repo commit_range w = (Ok d, w') ->
  credited E (ext w) repo (log_lines E commit_range w) [] (redis w) d
           (redis w')
  /\ (forall c log_line w1 c' w2,
         contributors_step E repo c log_line w1 = (Ok c', w2) ->
         exists sha author_email committer_email author committer,
           split_on "," log_line = [sha; author_email; committer_email]
           /\ resolved E (ext w1) repo sha author_email committer_email
                       (redis w1)
              = Some (author, committer)
           /\ c' = credit_commit author committer committer_email c)
  /\ (forall author committer committer_email c k,
         weight (credit_commit author committer committer_email c) k
         = (weight c k
            + one_if (credits_author author k)
            + one_if (credits_committer author committer committer_email k))%Z
         /\ tally_mem k (credit_commit author committer committer_email c)
            = tally_mem k c || credits_author author k
              || names_committer committer committer_email k)
  /\ (forall k v, tally_get k d = Some v -> (0 < v)%Z).
Proof.
  intros Hrun. split; [|split; [|split]].
  - unfold get_contributors in Hrun.
    unfold bind at 1, git_query at 1 in Hrun.
    fold (LOG_RANGE commit_range) in Hrun.
    unfold log_lines.
    destruct (git_read E (ext w) (files w) (cwd w) (LOG_RANGE commit_range))
      as [code output].
    cbn [snd].
    apply bind_inv in Hrun. destruct Hrun as ([] & w1 & Hskip & Hrun).
    assert (Hsame : redis w1 = redis w /\ ext w1 = ext w).
    { destruct (code =? 0)%nat.
      - unfold ret in Hskip. injection Hskip as <-. split; reflexivity.
      - destruct (code =? 128)%nat; [|discriminate Hskip].
        unfold print in Hskip. injection Hskip as <-. split; reflexivity. }
    destruct Hsame as [Hredis Hext].
    destruct (String.eqb (strip output) "").
    + unfold ret in Hrun. injection Hrun as <- <-. rewrite Hredis.
      constructor.
    + apply contributors_loop_credited in Hrun.
      rewrite Hredis, Hext in Hrun. exact Hrun.
  - intros c log_line w1 c' w2 Hstep.
    apply contributors_step_turn in Hstep.
    destruct Hstep as (sha & ae & ce & a & c0 & Hsplit & Hres & Hc & _).
    exists sha, ae, ce, a, c0. repeat split; assumption.
  - intros author committer committer_email c k. split.
    + apply weight_credit_commit.
    + apply mem_credit_commit.
  - exact (get_contributors_positive Ext E repo commit_range w w' d Hrun).
Qed.

Lemma get_contributors_credits_witness :
  credited (Scripted.env_of Scenario_log.s) tt "adafruit/lib"
    ["c1,alice@example.org,noreply@github.com";
     "c2,bob@example.org,carol@example.org"]
    [] Scenario_log.cache
    [(HStr "alice", 1%Z); (HStr "bob", 1%Z); (HStr "carol", 1%Z)]
    Scenario_log.cache
  /\ (forall k v,
         tally_get k [(HStr "alice", 1%Z); (HStr "bob", 1%Z);
                      (HStr "carol", 1%Z)] = Some v -> (0 < v)%Z).
Proof.
  destruct (get_contributors_credits (Scripted.env_of Scenario_log.s)
              "adafruit/lib" "1.0.0..1.1.0" Scenario_log.w0
              (snd (get_contributors (Scripted.env_of Scenario_log.s)
                      "adafruit/lib" "1.0.0..1.1.0" Scenario_log.w0))
              [(HStr "alice", 1%Z); (HStr "bob", 1%Z); (HStr "carol", 1%Z)])
    as (Hcredited & _ & _ & Hpositive).
  - vm_compute. reflexivity.
  - split; [exact Hcredited | exact Hpositive].
Defined.

(** C10, as stated, fails: an enumeration that stops with status 128
    after it has written a commit line is not skipped; the line is
    processed and the tally is not empty. *)
Lemma get_contributors_partial_enumeration :
  fst (git_read (Scripted.env_of Scenario_log.s_partial) tt [] "/work/lib"
                Scenario_log.LOG) = 128
  /\ fst (get_contributors (Scripted.env_of Scenario_log.s_partial)
                           "adafruit/lib" "1.0.0..1.1.0" Scenario_log.w0)
     = Ok [(HStr "bob", 1%Z); (HStr "carol", 1%Z)]
  /\ fst (get_contributors (Scripted.env_of Scenario_log.s_partial)
                           "adafruit/lib" "1.0.0..1.1.0" Scenario_log.w0)
     <> Ok [].
Proof.
  split; [reflexivity|]. split; [vm_compute; reflexivity|].
  vm_compute. discriminate.
Qed.

(** C10, amended.  When the commit enumeration has written no commit
    line to the captured output, and either succeeds or stops with
    status 128, [get_contributors] returns an empty tally instead of
    raising; with status 128 the only report is the skip message. *)
Theorem get_contributors_nothing_enumerated {Ext} (E : Env Ext)
  (repo commit_range : string) (w : World Ext) (code : nat)
  (output : string) :
  git_read E (ext w) (files w) (cwd w)
           ["log"; "--pretty=tformat:%H,%ae,%ce"; commit_range]
  = (code, output) ->
  strip output = "" ->
  code = 0 \/ code = 128 ->
  get_contributors E repo commit_range w
  = (Ok [],
     let w1 := record_call
                 (GitCall (cwd w)
                          ["log"; "--pretty=tformat:%H,%ae,%ce"; commit_range])
                 w in
     if (code =? 128)%nat
     then mkWorld (cwd w1)
                  (PText ("Skipping contributors for: " ++ repo) :: out w1)
                  (redis w1) (files w1) (ext w1) (calls w1)
     else w1).
Proof.
  intros Hread Hblank Hcode.
  unfold get_contributors, bind, git_query. rewrite Hread, Hblank.
  destruct Hcode as [-> | ->]; reflexivity.
Qed.

Lemma get_contributors_nothing_enumerated_witness :
  get_contributors (Scripted.env_of Scenario_log.s_unknown) "adafruit/lib"
                   "1.0.0..1.1.0" Scenario_log.w0
  = (Ok [],
     mkWorld "/work/lib" [PText "Skipping contributors for: adafruit/lib"]
             Scenario_log.cache [] tt [GitCall "/work/lib" Scenario_log.LOG]).
Proof.
  apply (get_contributors_nothing_enumerated
           (Scripted.env_of Scenario_log.s_unknown) "adafruit/lib"
           "1.0.0..1.1.0" Scenario_log.w0 128 "").
  - reflexivity.
  - reflexivity.
  - right. reflexivity.
Defined.

(* ----------------------------------------------------------------- *)
(** ** The reference resolver *)

Lemma commit_to_tag_run {Ext} (E : Env Ext) (repo_path commit : string)
  (w : World Ext) (code : nat) (output : string) :
  sys_isdir E (ext w) (cwd w) = true ->
  git_read E (ext w) (files w) (path_join (cwd w) repo_path)
           (DESCRIBE commit) = (code, output) ->
  commit_to_tag E repo_path commit w
  = if enterable E w repo_path
    then (if (code =? 0)%nat then Ok (strip output)
          else if (code =? 128)%nat then Ok commit
          else Raise (ErrorReturnCode code),
          record_call (GitCall (path_join (cwd w) repo_path)
                               (DESCRIBE commit)) w)
    else (Raise (OSError repo_path), w).
Proof.
  intros Hcwd Hread.
  unfold commit_to_tag, Submodule, chdir, chdir_abs, getcwd,
    finally, git_query, bind, ret, raise, enterable.
  destruct (negb (String.eqb repo_path "")
            && sys_isdir E (ext w) (path_join (cwd w) repo_path));
    [|reflexivity].
  cbn [cwd out redis files ext calls]. fold (DESCRIBE commit).
  rewrite Hread.
  destruct (code =? 0)%nat; [|destruct (code =? 128)%nat];
    cbn [cwd out redis files ext calls record_call snd fst];
    rewrite Hcwd; destruct w; reflexivity.
Qed.

(** C4.  From a directory that exists, [commit_to_tag] returns the
    stripped output of the exact-tag lookup when the lookup succeeds,
    the commit it was given when the lookup stops with status 128, and
    raises the lookup's error for any other status; a library directory
    that cannot be entered raises as well.  In every case the process is
    back in its directory, and resolving the same commit again gives
    the same outcome. *)
Theorem commit_to_tag_resolves {Ext} (E : Env Ext)
  (repo_path commit : string) (w : World Ext) (code : nat)
  (output : string) :
  sys_isdir E (ext w) (cwd w) = true ->
  git_read E (ext w) (files w) (path_join (cwd w) repo_path)
           (DESCRIBE commit) = (code, output) ->
  let library := path_join (cwd w) repo_path in
  let w' := record_call (GitCall library (DESCRIBE commit)) w in
  (enterable E w repo_path = false ->
   commit_to_tag E repo_path commit w = (Raise (OSError repo_path), w))
  /\ (enterable E w repo_path = true ->
      (code = 0 ->
       commit_to_tag E repo_path commit w = (Ok (strip output), w'))
      /\ (code = 128 ->
          commit_to_tag E repo_path commit w = (Ok commit, w'))
      /\ (code <> 0 -> code <> 128 ->
          commit_to_tag E repo_path commit w
          = (Raise (ErrorReturnCode code), w')))
  /\ fst (commit_to_tag E repo_path commit
            (snd (commit_to_tag E repo_path commit w)))
     = fst (commit_to_tag E repo_path commit w).
Proof.
  intros Hcwd Hread. cbv zeta.
  pose proof (commit_to_tag_run E repo_path commit w code output Hcwd Hread)
    as Hrun.
  pose proof (commit_to_tag_run E repo_path commit
                (record_call (GitCall (path_join (cwd w) repo_path)
                                      (DESCRIBE commit)) w)
                code output Hcwd Hread) as Hrun'.
  change (enterable E (record_call (GitCall (path_join (cwd w) repo_path)
                                            (DESCRIBE commit)) w) repo_path)
    with (enterable E w repo_path) in Hrun'.
  split; [|split].
  - intros Hlib. rewrite Hrun, Hlib. reflexivity.
  - intros Hlib. rewrite Hrun, Hlib. repeat split.
    + intros ->. reflexivity.
    + intros ->. reflexivity.
    + intros H0 H128. apply Nat.eqb_neq in H0, H128.
      rewrite H0, H128. reflexivity.
  - rewrite Hrun.
    destruct (enterable E w repo_path) eqn:Hlib; cbn [snd fst].
    + rewrite Hrun', ?Hlib. reflexivity.
    + rewrite Hrun, ?Hlib. reflexivity.
Qed.

Lemma commit_to_tag_resolves_witness :
  commit_to_tag (Scripted.env_of Scenario_foo.s) "libraries/drivers/foo"
                "def456"
                (Scripted.start "/work/.bundles/CircuitPython_Community_Bundle")
  = (Ok "def456",
     record_call
       (GitCall
          "/work/.bundles/CircuitPython_Community_Bundle/libraries/drivers/foo"
          (DESCRIBE "def456"))
       (Scripted.start "/work/.bundles/CircuitPython_Community_Bundle")).
Proof.
  refine (proj1 (proj2 (proj1 (proj2
    (commit_to_tag_resolves (Scripted.env_of Scenario_foo.s)
       "libraries/drivers/foo" "def456"
       (Scripted.start "/work/.bundles/CircuitPython_Community_Bundle")
       128 "" _ _)) _)) _).
  - reflexivity.
  - reflexivity.
  - reflexivity.
  - reflexivity.
Defined.

(* ----------------------------------------------------------------- *)
(** ** The status scanner *)

Section Loops.

Variable Ext : Type.

Lemma for_each_app {A S} (body : S -> A -> M Ext S) (l1 l2 : list A) (s : S)
  (w : World Ext) :
  for_each (l1 ++ l2) body s w
  = bind (for_each l1 body s) (for_each l2 body) w.
Proof.
  revert s w. induction l1 as [|x l1 IH]; intros s w; simpl.
  - reflexivity.
  - unfold bind in *. destruct (body s x w) as [[s1|e] w1].
    + apply IH.
    + reflexivity.
Qed.

(** A loop with a turn that always raises never completes. *)
Lemma for_each_never_ok {A S} (body : S -> A -> M Ext S) (pre post : list A)
  (x : A) :
  (forall s w, exists e, body s x w = (Raise e, w)) ->
  forall s w, exists e w', for_each (pre ++ x :: post) body s w = (Raise e, w').
Proof.
  intros Hx s w. rewrite for_each_app. unfold bind.
  destruct (for_each pre body s w) as [[s1|e] w1].
  - simpl. unfold bind. destruct (Hx s1 w1) as [e ->]. eauto.
  - eauto.
Qed.

End Loops.

Lemma scan_status_line_unsupported {Ext} (E : Env Ext)
  (updates : list update) (status_line action directory : string)
  (w : World Ext) :
  split_ws status_line = [action; directory] ->
  endswith "library_list.md" directory = false ->
  unsupported action directory = true ->
  scan_status_line E updates status_line w
  = (Raise (RuntimeError "Unsupported updates"), w).
Proof.
  unfold scan_status_line, unsupported. intros -> -> ->. reflexivity.
Qed.

(** C2.  When the status report of a bundle has a line that is not the
    listing document's and whose action is not [M] or whose path is not
    under [libraries], [update_bundle] returns no change record: it
    raises.  The line itself raises [RuntimeError] without any further
    command, so when the lines before it were processed the run of
    [update_bundle] ends right there with that error. *)
Theorem update_bundle_unsupported {Ext} (E : Env Ext) (bundle_path : string)
  (w w1 : World Ext) (working_directory status : string)
  (pre post : list string) (status_line action directory : string) :
  bundle_status E bundle_path w = (Ok (working_directory, status), w1) ->
  split_on LF status = (pre ++ status_line :: post)%list ->
  split_ws status_line = [action; directory] ->
  endswith "library_list.md" directory = false ->
  unsupported action directory = true ->
  (exists e w', update_bundle E bundle_path w = (Raise e, w'))
  /\ (forall updates w2,
         scan_status_line E updates status_line w2
         = (Raise (RuntimeError "Unsupported updates"), w2))
  /\ (forall updates w2,
         for_each pre (scan_status_line E) [] w1 = (Ok updates, w2) ->
         update_bundle E bundle_path w
         = (Raise (RuntimeError "Unsupported updates"), w2)).
Proof.
  intros Hstatus Hlines Hline Hdoc Hbad.
  assert (Hne : String.eqb status "" = false).
  { destruct status; [|reflexivity]. simpl in Hlines.
    destruct pre as [|p [|]]; simpl in Hlines; inversion Hlines; subst.
    discriminate Hline. }
  assert (Hhere : forall updates w2,
             scan_status_line E updates status_line w2
             = (Raise (RuntimeError "Unsupported updates"), w2)).
  { intros updates w2.
    apply (scan_status_line_unsupported E updates status_line action
             directory w2 Hline Hdoc Hbad). }
  assert (Hrun : update_bundle E bundle_path w
                 = bind (for_each (pre ++ status_line :: post)%list
                                  (scan_status_line E) [])
                        (fun updates =>
                           chdir_abs E working_directory ;;
                           lib_list_updates <- check_lib_links_md E bundle_path ;;
                           ret (match lib_list_updates with
                                | [] => updates
                                | _ => (updates
                                        ++ [lib_list_update lib_list_updates])%list
                                end)) w1).
  { unfold update_bundle. rewrite (bind_ok Ext _ _ _ _ _ Hstatus).
    rewrite Hne, Hlines. reflexivity. }
  split; [|split].
  - rewrite Hrun.
    destruct (for_each_never_ok Ext (scan_status_line E) pre post status_line)
      with (s := @nil update) (w := w1) as (e & w' & Hloop).
    + intros s0 w0. eexists. apply Hhere.
    + exists e, w'. apply bind_raise. assumption.
  - exact Hhere.
  - intros updates w2 Hpre. rewrite Hrun. apply bind_raise.
    rewrite for_each_app. rewrite (bind_ok Ext _ _ _ _ _ Hpre).
    simpl. apply bind_raise. apply Hhere.
Qed.

Lemma update_bundle_unsupported_witness :
  fst (update_bundle (Scripted.env_of Scenario_deleted.s)
                     "/work/.bundles/CircuitPython_Community_Bundle"
                     (Scripted.start "/work"))
  = Raise (RuntimeError "Unsupported updates").
Proof.
  destruct (update_bundle_unsupported
              (Scripted.env_of Scenario_deleted.s)
              "/work/.bundles/CircuitPython_Community_Bundle"
              (Scripted.start "/work")
              (snd (bundle_status (Scripted.env_of Scenario_deleted.s)
                      "/work/.bundles/CircuitPython_Community_Bundle"
                      (Scripted.start "/work")))
              "/work"
              ("M circuitpython_library_list.md" ++ NL
               ++ " D libraries/drivers/foo")
              ["M circuitpython_library_list.md"] []
              " D libraries/drivers/foo" "D" "libraries/drivers/foo")
    as (_ & _ & H).
  - vm_compute. reflexivity.
  - reflexivity.
  - reflexivity.
  - reflexivity.
  - reflexivity.
  - rewrite (H [] (snd (bundle_status (Scripted.env_of Scenario_deleted.s)
                          "/work/.bundles/CircuitPython_Community_Bundle"
                          (Scripted.start "/work")))).
    + reflexivity.
    + vm_compute. reflexivity.
Defined.

(** C3, as stated, fails: when the diff summary of the entry is just
    [abc123..def456] followed by the log line, the first line has no
    third field and the scanner raises [IndexError] instead of
    producing a record. *)
Lemma update_bundle_bare_range :
  fst (git_read (Scripted.env_of Scenario_bare.s) tt []
                "/work/.bundles/CircuitPython_Community_Bundle"
                ["status"; "--short"])
  = 0
  /\ snd (git_read (Scripted.env_of Scenario_bare.s) tt []
                   "/work/.bundles/CircuitPython_Community_Bundle"
                   ["diff"; "--submodule=log"; "libraries/drivers/foo"])
     = "abc123..def456" ++ NL ++ "  > bumped version"
  /\ fst (update_bundle (Scripted.env_of Scenario_bare.s)
                        "/work/.bundles/CircuitPython_Community_Bundle"
                        (Scripted.start "/work"))
     = Raise IndexError.
Proof.
  split; [reflexivity|]. split; [reflexivity|]. vm_compute. reflexivity.
Qed.

(** C3, amended.  For an accepted status line [M libraries/...] whose
    diff summary has the range as the third field of its first line (as
    in [Submodule <path> old..new:]), the scanner strips the colons,
    splits the range on [.] and appends one change record: the old
    reference is [commit_to_tag] of the first token, the new reference
    [commit_to_tag] of the last token, the summary the lines of the diff
    between the first and the last, and the URL the remote URL without
    its last four characters.  In particular, for the line
    [M libraries/drivers/foo] with the diff
    [Submodule libraries/drivers/foo abc123..def456:], [  > bumped version]
    and no tag at either commit, [update_bundle] returns the single
    record with old [abc123], new [def456] and summary [  > bumped version]. *)
Theorem scan_status_line_record {Ext} (E : Env Ext) (updates : list update)
  (status_line directory diff commit_range old_commit new_commit url : string)
  (w w2 w3 w4 : World Ext) :
  split_ws status_line = ["M"; directory] ->
  endswith "library_list.md" directory = false ->
  startswith "libraries" directory = true ->
  git_read E (ext w) (files w) (cwd w)
           ["diff"; "--submodule=log"; directory] = (0, diff) ->
  nth_error (split_ws (hd "" (split_on LF diff))) 2 = Some commit_range ->
  commit_to_tag E directory
                (hd "" (split_on "." (strip_char ":" commit_range)))
                (record_call
                   (GitCall (cwd w) ["diff"; "--submodule=log"; directory]) w)
  = (Ok old_commit, w2) ->
  commit_to_tag E directory
                (last (split_on "." (strip_char ":" commit_range)) "") w2
  = (Ok new_commit, w3) ->
  repo_remote_url E directory w3 = (Ok url, w4) ->
  scan_status_line E updates status_line w
  = (Ok (updates ++ [(drop_last 4 url, old_commit, new_commit,
                      join NL (middle (split_on LF diff)))])%list, w4)
  /\ update_bundle (Scripted.env_of Scenario_foo.s)
                   "/work/.bundles/CircuitPython_Community_Bundle"
                   (Scripted.start "/work")
     = (Ok [("https://github.com/adafruit/foo", "abc123", "def456",
             "  > bumped version")],
        snd (update_bundle (Scripted.env_of Scenario_foo.s)
                           "/work/.bundles/CircuitPython_Community_Bundle"
                           (Scripted.start "/work"))).
Proof.
  intros Hline Hdoc Hlib Hdiff Hrange Hold Hnew Hurl. split.
  - unfold scan_status_line. rewrite Hline, Hdoc, Hlib.
    cbn [String.eqb Ascii.eqb Bool.eqb negb orb].
    unfold git_out, git_query.
    unfold bind at 1 2. rewrite Hdiff. cbn [Nat.eqb ret].
    rewrite Hrange.
    rewrite (bind_ok Ext _ _ _ _ _ Hold).
    rewrite (bind_ok Ext _ _ _ _ _ Hnew).
    rewrite (bind_ok Ext _ _ _ _ _ Hurl).
    reflexivity.
  - vm_compute. reflexivity.
Qed.

Lemma scan_status_line_record_witness :
  fst (scan_status_line (Scripted.env_of Scenario_foo.s) []
         " M libraries/drivers/foo"
         (Scripted.start "/work/.bundles/CircuitPython_Community_Bundle"))
  = Ok [("https://github.com/adafruit/foo", "abc123", "def456",
         "  > bumped version")].
Proof.
  pose (E := Scripted.env_of Scenario_foo.s).
  pose (w := Scripted.start "/work/.bundles/CircuitPython_Community_Bundle").
  pose (w1 := record_call
                (GitCall (cwd w)
                   ["diff"; "--submodule=log"; "libraries/drivers/foo"]) w).
  pose (w2 := snd (commit_to_tag E "libraries/drivers/foo" "abc123" w1)).
  pose (w3 := snd (commit_to_tag E "libraries/drivers/foo" "def456" w2)).
  pose (w4 := snd (repo_remote_url E "libraries/drivers/foo" w3)).
  destruct (scan_status_line_record E [] " M libraries/drivers/foo"
              "libraries/drivers/foo"
              ("Submodule libraries/drivers/foo abc123..def456:" ++ NL
               ++ "  > bumped version" ++ NL)
              "abc123..def456:" "abc123" "def456"
              "https://github.com/adafruit/foo.git" w w2 w3 w4) as [H _].
  - reflexivity.
  - reflexivity.
  - reflexivity.
  - reflexivity.
  - reflexivity.
  - vm_compute. reflexivity.
  - vm_compute. reflexivity.
  - vm_compute. reflexivity.
  - fold E w. rewrite H. reflexivity.
Defined.

(* ----------------------------------------------------------------- *)
(** ** The release composer *)

Section NoPost.

Variable Ext : Type.
Variable E : Env Ext.

Lemma no_post_bind {A B} (m : M Ext A) (f : A -> M Ext B) :
  no_post m -> (forall a, no_post (f a)) -> no_post (bind m f).
Proof.
  intros Hm Hf w. unfold bind. specialize (Hm w).
  destruct (m w) as [[a|e] w1]; simpl in *.
  - rewrite Hf. assumption.
  - assumption.
Qed.

Lemma no_post_finally {A} (m : M Ext A) (f : M Ext unit) :
  no_post m -> no_post f -> no_post (finally m f).
Proof.
  intros Hm Hf w. unfold finally. specialize (Hm w).
  destruct (m w) as [r w1]. specialize (Hf w1).
  destruct (f w1) as [[u|e] w2]; simpl in *; congruence.
Qed.

Lemma no_post_for_each {A S} (body : S -> A -> M Ext S) (l : list A) :
  (forall s x, no_post (body s x)) -> forall s, no_post (for_each l body s).
Proof.
  intros Hbody. induction l as [|x l IH]; intros s.
  - intros w. reflexivity.
  - simpl. apply no_post_bind; [apply Hbody | apply IH].
Qed.

Lemma no_post_pure {A} (m : M Ext A) :
  (forall w, calls (snd (m w)) = calls w) -> no_post m.
Proof. intros H w. unfold posts. rewrite H. reflexivity. Qed.

Lemma no_post_chdir_abs (p : string) : no_post (chdir_abs E p).
Proof.
  apply no_post_pure. intros w. unfold chdir_abs.
  destruct (sys_isdir E (ext w) p); reflexivity.
Qed.

Lemma no_post_chdir (p : string) : no_post (chdir E p).
Proof.
  apply no_post_pure. intros w. unfold chdir.
  destruct (negb (String.eqb p "")
            && sys_isdir E (ext w) (path_join (cwd w) p)); reflexivity.
Qed.

Lemma no_post_git_query (argv : list string) : no_post (git_query E argv).
Proof. intros w. reflexivity. Qed.

Lemma no_post_contributors_step (repo : string) (d : tally) (l : string) :
  no_post (contributors_step E repo d l).
Proof.
  unfold contributors_step.
  destruct (split_on "," l) as [|sha [|ae [|ce [|]]]];
    try (intros w; reflexivity).
  apply no_post_bind; [intros w; reflexivity|]. intros a.
  apply no_post_bind; [intros w; reflexivity|]. intros c.
  apply no_post_bind; [|intros [a' c'] w; reflexivity].
  destruct (cache_miss a || cache_miss c); [|intros w; reflexivity].
  apply no_post_bind; [intros w; reflexivity|]. intros info.
  apply no_post_bind.
  - destruct (ci_author info); intros w; reflexivity.
  - intros a'. apply no_post_bind; [|intros c' w; reflexivity].
    destruct (ci_committer info); intros w; reflexivity.
Qed.

Lemma no_post_get_contributors (repo commit_range : string) :
  no_post (get_contributors E repo commit_range).
Proof.
  unfold get_contributors.
  apply no_post_bind; [apply no_post_git_query|]. intros [code output].
  apply no_post_bind.
  - destruct (code =? 0)%nat; [intros w; reflexivity|].
    destruct (code =? 128)%nat; intros w; reflexivity.
  - intros _. destruct (String.eqb (strip output) "").
    + intros w. reflexivity.
    + apply no_post_for_each. intros s x.
      apply no_post_contributors_step.
Qed.

Lemma no_post_release_prelude (bundle bundle_path : string) :
  no_post (release_prelude E bundle bundle_path).
Proof.
  unfold release_prelude.
  apply no_post_bind; [intros w; reflexivity|]. intros wd.
  apply no_post_bind; [apply no_post_chdir|]. intros _.
  apply no_post_bind; [intros w; reflexivity|]. intros _.
  apply no_post_bind; [intros w; reflexivity|]. intros last_tag.
  apply no_post_bind; [apply no_post_get_contributors|]. intros c w.
  reflexivity.
Qed.

End NoPost.

(** C8.  When the diff between the last published tag and the head is
    empty, [new_release] prints that everything is released and returns:
    the only thing it does after reading the tag and the bundle's
    contributors is the diff command, and the run has made no call to
    the release-creation endpoint. *)
Theorem new_release_nothing_new {Ext} (E : Env Ext)
  (bundle bundle_path : string) (w w1 : World Ext)
  (working_directory last_tag output : string) (contributors : tally) :
  release_prelude E bundle bundle_path w
  = (Ok (working_directory, last_tag, contributors), w1) ->
  git_read E (ext w1) (files w1) (cwd w1)
           ["diff"; "--submodule=short"; last_tag ++ ".."] = (0, output) ->
  strip output = "" ->
  new_release E bundle bundle_path w
  = (Ok tt,
     mkWorld (cwd w1) (PText "Everything is already released." :: out w1)
             (redis w1) (files w1) (ext w1)
             (GitCall (cwd w1) ["diff"; "--submodule=short"; last_tag ++ ".."]
              :: calls w1))
  /\ posts (snd (new_release E bundle bundle_path w)) = posts w.
Proof.
  intros Hprelude Hdiff Hblank.
  assert (Hrun : new_release E bundle bundle_path w
                 = (Ok tt,
                    mkWorld (cwd w1)
                      (PText "Everything is already released." :: out w1)
                      (redis w1) (files w1) (ext w1)
                      (GitCall (cwd w1)
                         ["diff"; "--submodule=short"; last_tag ++ ".."]
                       :: calls w1))).
  { unfold new_release. rewrite (bind_ok Ext _ _ _ _ _ Hprelude).
    unfold git_out, git_query, bind. rewrite Hdiff. cbn [Nat.eqb ret].
    rewrite Hblank. reflexivity. }
  split; [exact Hrun|].
  rewrite Hrun. unfold posts at 1. cbn [snd calls filter is_post].
  pose proof (no_post_release_prelude Ext E bundle bundle_path w) as Hp.
  rewrite Hprelude in Hp. exact Hp.
Qed.

Lemma new_release_nothing_new_witness :
  fst (new_release (Scripted.env_of Scenario_released.s)
                   "CircuitPython_Community_Bundle"
                   "/work/.bundles/CircuitPython_Community_Bundle"
                   (Scripted.start "/work"))
  = Ok tt
  /\ posts (snd (new_release (Scripted.env_of Scenario_released.s)
                             "CircuitPython_Community_Bundle"
                             "/work/.bundles/CircuitPython_Community_Bundle"
                             (Scripted.start "/work")))
     = [].
Proof.
  destruct (new_release_nothing_new (Scripted.env_of Scenario_released.s)
              "CircuitPython_Community_Bundle"
              "/work/.bundles/CircuitPython_Community_Bundle"
              (Scripted.start "/work")
              (snd (release_prelude (Scripted.env_of Scenario_released.s)
                      "CircuitPython_Community_Bundle"
                      "/work/.bundles/CircuitPython_Community_Bundle"
                      (Scripted.start "/work")))
              "/work" "20261101" NL []) as [H1 H2].
  - vm_compute. reflexivity.
  - reflexivity.
  - reflexivity.
  - split.
    + rewrite H1. reflexivity.
    + rewrite H2. reflexivity.
Defined.

Lemma subproject_not_diff (line : string) :
  startswith "+Subproject" line = true -> startswith "diff" line = false.
Proof.
  unfold startswith. destruct line as [|c line]; intros H.
  - discriminate H.
  - destruct c as [[] [] [] [] [] [] [] []];
      try discriminate H; reflexivity.
Qed.

(** C9.  A candidate line met while the current index line carries the
    range of a removed library changes nothing: the loop's variables
    (the added and the updated list, the links, the tally) and the world
    (no tag lookup, no contributor enumeration, no other call) are as
    before, and the loop over the whole diff runs as if the line were
    not there. *)
Theorem release_step_removed {Ext} (E : Env Ext) (st : release_scan)
  (line index_line directory commit_range : string) (w : World Ext) :
  startswith "+Subproject" line = true ->
  contains "index" line = false ->
  current_index st = Some index_line ->
  nth_error (split_ws index_line) 1 = Some commit_range ->
  current_submodule st = Some directory ->
  removed_range commit_range = true ->
  release_step E st line w = (Ok st, w)
  /\ (forall pre post st0 w0,
         for_each pre (release_step E) st0 w0 = (Ok st, w) ->
         for_each (pre ++ line :: post) (release_step E) st0 w0
         = for_each (pre ++ post) (release_step E) st0 w0).
Proof.
  intros Hline Hindex Hcur Hrange Hsub Hremoved.
  assert (Hstep : release_step E st line w = (Ok st, w)).
  { unfold release_step.
    rewrite (subproject_not_diff line Hline), Hindex, Hline, Hcur.
    cbn [negb deref]. unfold bind at 1. cbn [ret].
    rewrite Hrange, Hsub. cbn [deref]. unfold bind at 1. cbn [ret].
    unfold removed_range in Hremoved.
    apply andb_true_iff in Hremoved. destruct Hremoved as [Hold Hnew].
    apply negb_true_iff in Hold. rewrite Hold, Hnew. reflexivity. }
  split; [exact Hstep|].
  intros pre post st0 w0 Hpre.
  rewrite !for_each_app.
  rewrite !(bind_ok Ext _ _ _ _ _ Hpre).
  simpl. rewrite (bind_ok Ext _ _ _ _ _ Hstep). reflexivity.
Qed.

Lemma release_step_removed_witness :
  release_step (Scripted.env_of Scripted.quiet) Scenario_removed.st
               Scenario_removed.line (Scripted.start "/work/bundle")
  = (Ok Scenario_removed.st, Scripted.start "/work/bundle").
Proof.
  refine (proj1 (release_step_removed (Scripted.env_of Scripted.quiet)
                   Scenario_removed.st Scenario_removed.line
                   "index abc1234..0000000" "libraries/drivers/foo"
                   "abc1234..0000000" (Scripted.start "/work/bundle")
                   _ _ _ _ _ _)); reflexivity.
Defined.

(* ----------------------------------------------------------------- *)
(** ** The main loop *)

(** C1, as stated, fails: the top level catches [RuntimeError] only.
    When pulling the first bundle exits with status 1, the error of the
    command layer leaves the loop; nothing is logged and the second
    bundle is never touched. *)
Lemma main_aborts_on_command_failure :
  fst (process_bundle (Scripted.env_of Scenario_main.s_pull_fails)
         "Adafruit_CircuitPython_Bundle"
         "/work/.bundles/Adafruit_CircuitPython_Bundle"
         (Scripted.start "/work"))
  = Raise (ErrorReturnCode 1)
  /\ fst (main (Scripted.env_of Scenario_main.s_pull_fails)
               (Scripted.start "/work"))
     = Raise (ErrorReturnCode 1)
  /\ out (snd (main (Scripted.env_of Scenario_main.s_pull_fails)
                    (Scripted.start "/work")))
     = []
  /\ calls (snd (main (Scripted.env_of Scenario_main.s_pull_fails)
                      (Scripted.start "/work")))
     = [GitCall "/work/.bundles/Adafruit_CircuitPython_Bundle" ["pull"]].
Proof.
  repeat split; vm_compute; reflexivity.
Qed.

(** C1, amended.  When fetching, updating or releasing a bundle raises
    a [RuntimeError], the main loop logs the bundle's name and the
    error and goes on with the next bundle from the state the failure
    left.  An exception of any other class is not caught: it ends the
    loop. *)
Theorem main_loop_failure {Ext} (E : Env Ext)
  (bundles_dir cp_bundle : string) (rest : list string) (w w1 : World Ext)
  (e : exn) :
  process_bundle E cp_bundle (path_join bundles_dir cp_bundle) w
  = (Raise e, w1) ->
  (forall msg, e = RuntimeError msg ->
     main_loop E bundles_dir (cp_bundle :: rest) w
     = main_loop E bundles_dir rest (logged cp_bundle msg w1))
  /\ (is_RuntimeError e = false ->
      main_loop E bundles_dir (cp_bundle :: rest) w = (Raise e, w1)).
Proof.
  intros Hrun.
  assert (Hloop : main_loop E bundles_dir (cp_bundle :: rest) w
                  = match e with
                    | RuntimeError msg =>
                        main_loop E bundles_dir rest (logged cp_bundle msg w1)
                    | _ => (Raise e, w1)
                    end).
  { unfold main_loop. cbn [for_each].
    unfold bind at 1. unfold guarded_bundle at 1. unfold try_except.
    rewrite Hrun. destruct e; reflexivity. }
  rewrite Hloop. split.
  - intros msg ->. reflexivity.
  - intros Hclass. destruct e; try reflexivity. discriminate Hclass.
Qed.

Lemma main_loop_failure_witness :
  main_loop (Scripted.env_of Scenario_main.s_untracked) "/work/.bundles"
            ["Adafruit_CircuitPython_Bundle"; "CircuitPython_Community_Bundle"]
            (Scripted.start "/work")
  = main_loop (Scripted.env_of Scenario_main.s_untracked) "/work/.bundles"
              ["CircuitPython_Community_Bundle"]
              (logged "Adafruit_CircuitPython_Bundle" "Unsupported updates"
                 (snd (process_bundle
                         (Scripted.env_of Scenario_main.s_untracked)
                         "Adafruit_CircuitPython_Bundle"
                         "/work/.bundles/Adafruit_CircuitPython_Bundle"
                         (Scripted.start "/work")))).
Proof.
  refine (proj1 (main_loop_failure (Scripted.env_of Scenario_main.s_untracked)
                   "/work/.bundles" "Adafruit_CircuitPython_Bundle"
                   ["CircuitPython_Community_Bundle"] (Scripted.start "/work")
                   _ (RuntimeError "Unsupported updates") _)
                "Unsupported updates" eq_refl).
  vm_compute. reflexivity.
Defined.

(* ----------------------------------------------------------------- *)
(** ** The library list synchronizer *)

Module ListingFacts.

Lemma linebreak_free_app (a b : string) :
  linebreak_free (a ++ b) = linebreak_free a && linebreak_free b.
Proof.
  induction a as [|c a IH]; simpl; [reflexivity|].
  rewrite IH, andb_assoc. reflexivity.
Qed.

Lemma linebreak_free_substring (s : string) :
  linebreak_free s = true ->
  forall n m, linebreak_free (String.substring n m s) = true.
Proof.
  induction s as [|c s IH]; intros H n m.
  - destruct n, m; reflexivity.
  - simpl in H. apply andb_true_iff in H. destruct H as [Hc Hs].
    destruct n as [|n]; simpl.
    + destruct m as [|m]; simpl; [reflexivity|].
      rewrite Hc. apply IH. assumption.
    + apply IH. assumption.
Qed.

Lemma linebreak_free_replace_char (c : ascii) (r s : string) :
  linebreak_free r = true -> linebreak_free s = true ->
  linebreak_free (replace_char c r s) = true.
Proof.
  intros Hr. induction s as [|d s IH]; simpl; intros H; [reflexivity|].
  apply andb_true_iff in H. destruct H as [Hd Hs].
  destruct (Ascii.eqb d c).
  - rewrite linebreak_free_app, Hr. apply IH. assumption.
  - simpl. rewrite Hd. apply IH. assumption.
Qed.

Lemma is_linebreak_lower_char (c : ascii) :
  is_linebreak c = false -> is_linebreak (lower_char c) = false.
Proof.
  destruct c as [[] [] [] [] [] [] [] []]; vm_compute; intros H;
    first [reflexivity | discriminate H].
Qed.

Lemma linebreak_free_lower (s : string) :
  linebreak_free s = true -> linebreak_free (lower s) = true.
Proof.
  induction s as [|c s IH]; simpl; intros H; [reflexivity|].
  apply andb_true_iff in H. destruct H as [Hc Hs].
  apply negb_true_iff in Hc.
  rewrite (is_linebreak_lower_char c Hc). apply IH. assumption.
Qed.

Lemma linebreak_free_uint (d : Decimal.uint) :
  linebreak_free (NilEmpty.string_of_uint d) = true.
Proof. induction d; simpl; try assumption; reflexivity. Qed.

Lemma linebreak_free_of_nat (n : nat) : linebreak_free (of_nat n) = true.
Proof.
  unfold of_nat, NilZero.string_of_uint.
  destruct (Nat.to_uint n) eqn:Hn; try reflexivity;
    rewrite <- Hn; apply linebreak_free_uint.
Qed.

(** A line followed by a line feed is one line of [splitlines]. *)
Lemma splitlines_line (l rest : string) :
  linebreak_free l = true ->
  splitlines (l ++ NL ++ rest) = l :: splitlines rest.
Proof.
  induction l as [|c l IH]; intros H.
  - simpl. destruct rest; reflexivity.
  - simpl in H. apply andb_true_iff in H. destruct H as [Hc Hl].
    apply negb_true_iff in Hc.
    change (String c l ++ NL ++ rest) with (String c (l ++ NL ++ rest)).
    cbn [splitlines]. rewrite Hc, (IH Hl). reflexivity.
Qed.

Lemma append_nil_r (s : string) : s ++ "" = s.
Proof. induction s as [|c s IH]; simpl; [|rewrite IH]; reflexivity. Qed.

Lemma append_assoc (a b c : string) : (a ++ b) ++ c = a ++ (b ++ c).
Proof. induction a as [|x a IH]; simpl; [|rewrite IH]; reflexivity. Qed.

Lemma lines_text_cons (l : string) (ls : list string) :
  lines_text (l :: ls) = l ++ NL ++ lines_text ls.
Proof.
  unfold lines_text. destruct ls as [|l' ls]; cbn [map String.concat].
  - rewrite append_nil_r. reflexivity.
  - rewrite append_assoc. reflexivity.
Qed.

Lemma lines_text_app (ls ls' : list string) :
  lines_text (ls ++ ls') = lines_text ls ++ lines_text ls'.
Proof.
  induction ls as [|l ls IH].
  - reflexivity.
  - change ((l :: ls) ++ ls')%list with (l :: (ls ++ ls'))%list.
    rewrite !lines_text_cons, IH, !append_assoc. reflexivity.
Qed.

Lemma splitlines_lines_text (ls : list string) :
  forallb linebreak_free ls = true -> splitlines (lines_text ls) = ls.
Proof.
  induction ls as [|l ls IH]; intros H; [reflexivity|].
  simpl in H. apply andb_true_iff in H. destruct H as [Hl Hls].
  rewrite lines_text_cons, (splitlines_line l _ Hl), (IH Hls). reflexivity.
Qed.

Lemma lib_list_document_lines (lib_count : nat)
  (write_drivers write_helpers : list string) :
  lib_list_document lib_count write_drivers write_helpers
  = lines_text (document_lines lib_count write_drivers write_helpers).
Proof.
  unfold lib_list_document, document_lines.
  rewrite !lines_text_app.
  fold (lines_text (py_sorted String.leb write_drivers)).
  fold (lines_text (py_sorted String.leb write_helpers)).
  f_equal.
  unfold header_lines, lib_list_header, join.
  rewrite !lines_text_cons. cbn [String.concat].
  rewrite !append_assoc. reflexivity.
Qed.

Lemma header_lines_free (lib_count : nat) :
  forallb linebreak_free (header_lines lib_count) = true.
Proof.
  unfold header_lines. cbn [forallb].
  rewrite !linebreak_free_app, linebreak_free_of_nat. reflexivity.
Qed.

Section Sorted.

Variable A : Type.
Variable le : A -> A -> bool.

Lemma In_insert_sorted (x y : A) (l : list A) :
  In x (insert_sorted le y l) <-> x = y \/ In x l.
Proof.
  induction l as [|z l IH]; simpl.
  - intuition congruence.
  - destruct (le y z); simpl; [intuition congruence|].
    rewrite IH. intuition congruence.
Qed.

Lemma In_py_sorted (x : A) (l : list A) : In x (py_sorted le l) <-> In x l.
Proof.
  induction l as [|y l IH]; simpl; [reflexivity|].
  rewrite In_insert_sorted, IH. intuition congruence.
Qed.

Lemma forallb_py_sorted (P : A -> bool) (l : list A) :
  forallb P l = true -> forallb P (py_sorted le l) = true.
Proof.
  rewrite !forallb_forall. intros H x Hx. apply H.
  apply In_py_sorted. assumption.
Qed.

Lemma length_insert_sorted (y : A) (l : list A) :
  List.length (insert_sorted le y l) = S (List.length l).
Proof.
  induction l as [|z l IH]; simpl; [reflexivity|].
  destruct (le y z); simpl; [|rewrite IH]; reflexivity.
Qed.

End Sorted.

Section Loop.

Variable Ext : Type.
Variable E : Env Ext.
Variable e : Ext.
Variable bundle_path : string.

Lemma lib_links_step_shape (read_lines : list string)
  (d h u : list string) (sm : submodule) :
  lib_links_step E e bundle_path read_lines (d, h, u) sm
  = rbind (list_line_of E e bundle_path sm) (fun line =>
      let u' := if existsb (String.eqb line) read_lines then u
                else (u ++ [url_name_of (sm_url sm)])%list in
      Ok (if contains "drivers" (sm_path sm) then ((d ++ [line])%list, h, u')
          else if contains "helpers" (sm_path sm)
          then (d, (h ++ [line])%list, u')
          else (d, h, u'))).
Proof.
  unfold lib_links_step, list_line_of.
  destruct (repo_is_on_pypi E e (url_name_of (sm_url sm))) as [on_pypi|x];
    [|reflexivity].
  cbn [rbind].
  destruct (get_docs_link E e bundle_path sm) as [docs_link|x];
    reflexivity.
Qed.

Lemma rendered_line_free (title url pypi_name docs_name : string) :
  linebreak_free title = true -> linebreak_free url = true ->
  linebreak_free pypi_name = true -> linebreak_free docs_name = true ->
  linebreak_free ("* [" ++ title ++ "](" ++ url ++ ")" ++ pypi_name
                  ++ docs_name) = true.
Proof.
  intros Ht Hu Hp Hd.
  rewrite !linebreak_free_app, Ht, Hu, Hp, Hd. reflexivity.
Qed.

Lemma pypi_name_free (url_name : string) :
  linebreak_free url_name = true ->
  linebreak_free (" ([PyPi](https://pypi.org/project/"
                  ++ lower (replace_char "_" "-" url_name) ++ "))") = true.
Proof.
  intros H. rewrite !linebreak_free_app.
  rewrite (linebreak_free_lower _
             (linebreak_free_replace_char "_" "-" _ eq_refl H)).
  reflexivity.
Qed.

Lemma docs_name_free (link : string) :
  linebreak_free link = true ->
  linebreak_free (" \([Docs](" ++ link ++ "))") = true.
Proof.
  intros H. rewrite !linebreak_free_app, H. reflexivity.
Qed.

Lemma list_line_free (sm : submodule) (line : string) :
  listed E e bundle_path sm = true -> list_line_of E e bundle_path sm = Ok line ->
  linebreak_free line = true.
Proof.
  unfold listed, list_line_of. intros H.
  apply andb_true_iff in H. destruct H as [H Hdocs].
  apply andb_true_iff in H. destruct H as [_ Hurl].
  assert (Hname : linebreak_free (url_name_of (sm_url sm)) = true).
  { unfold url_name_of, slice. apply linebreak_free_substring. assumption. }
  destruct (repo_is_on_pypi E e (url_name_of (sm_url sm))) as [on_pypi|x];
    [|discriminate].
  destruct (get_docs_link E e bundle_path sm) as [docs_link|x];
    [|discriminate].
  intros Hline. injection Hline as Hline. rewrite <- Hline.
  apply rendered_line_free.
  - apply linebreak_free_replace_char; [reflexivity | assumption].
  - assumption.
  - destruct on_pypi; [|reflexivity]. apply pypi_name_free. assumption.
  - destruct docs_link as [link|]; [|reflexivity].
    destruct (String.eqb link ""); [reflexivity|].
    apply docs_name_free. assumption.
Qed.

(** The two lists of lines only grow, and do not depend on what was
    read from the previous document. *)
Lemma loop_lines (subs : list submodule) (read_lines : list string) :
  forall d h u d' h' u',
    rfold subs (lib_links_step E e bundle_path read_lines) (d, h, u)
    = Ok (d', h', u') ->
    incl d d' /\ incl h h'
    /\ forall read_lines' u0, exists u'',
         rfold subs (lib_links_step E e bundle_path read_lines') (d, h, u0)
         = Ok (d', h', u'').
Proof.
  induction subs as [|sm subs IH]; intros d h u d' h' u' H.
  - inversion H; subst. repeat split; try apply incl_refl.
    intros rl' u0. exists u0. reflexivity.
  - cbn [rfold] in *. rewrite lib_links_step_shape in H.
    destruct (list_line_of E e bundle_path sm) as [line|x] eqn:Hline; [|discriminate].
    cbn [rbind] in H.
    assert (Hstep : forall rl' u0 d1 h1,
               (if contains "drivers" (sm_path sm)
                then ((d ++ [line])%list, h)
                else if contains "helpers" (sm_path sm)
                then (d, (h ++ [line])%list) else (d, h)) = (d1, h1) ->
               exists u1,
                 lib_links_step E e bundle_path rl' (d, h, u0) sm
                 = Ok (d1, h1, u1)).
    { intros rl' u0 d1 h1 Hplace.
      rewrite lib_links_step_shape, Hline. cbn [rbind].
      destruct (contains "drivers" (sm_path sm));
        [|destruct (contains "helpers" (sm_path sm))];
        inversion Hplace; subst; eexists; reflexivity. }
    destruct (contains "drivers" (sm_path sm)) eqn:Hd;
      [|destruct (contains "helpers" (sm_path sm)) eqn:Hh];
      apply IH in H; destruct H as (Hi1 & Hi2 & Hrl).
    + split; [|split].
      * eapply incl_tran; [|eassumption]. apply incl_appl, incl_refl.
      * assumption.
      * intros rl' u0.
        destruct (Hstep rl' u0 _ _ eq_refl) as [u1 ->]. cbn [rbind].
        apply Hrl.
    + split; [|split].
      * assumption.
      * eapply incl_tran; [|eassumption]. apply incl_appl, incl_refl.
      * intros rl' u0.
        destruct (Hstep rl' u0 _ _ eq_refl) as [u1 ->]. cbn [rbind].
        apply Hrl.
    + split; [|split]; try assumption.
      intros rl' u0.
      destruct (Hstep rl' u0 _ _ eq_refl) as [u1 ->]. cbn [rbind].
      apply Hrl.
Qed.

(** When every library has its line among the lines that were read,
    no library is reported. *)
Lemma loop_no_updates (subs : list submodule) (read_lines : list string) :
  forallb categorized subs = true ->
  forall d h u d' h' u',
    rfold subs (lib_links_step E e bundle_path read_lines) (d, h, u)
    = Ok (d', h', u') ->
    (forall x, In x d' \/ In x h' -> In x read_lines) ->
    u' = u.
Proof.
  induction subs as [|sm subs IH]; intros Hcat d h u d' h' u' H Hin.
  - inversion H; subst. reflexivity.
  - cbn [forallb] in Hcat. apply andb_true_iff in Hcat.
    destruct Hcat as [Hsm Hcat].
    cbn [rfold] in H. rewrite lib_links_step_shape in H.
    destruct (list_line_of E e bundle_path sm) as [line|x] eqn:Hline; [|discriminate].
    cbn [rbind] in H.
    assert (Hread : existsb (String.eqb line) read_lines = true).
    { apply existsb_exists. exists line. split; [|apply String.eqb_refl].
      apply Hin. unfold categorized in Hsm.
      destruct (contains "drivers" (sm_path sm)) eqn:Hd.
      - left. apply loop_lines in H. destruct H as (Hi & _ & _).
        apply Hi. apply in_or_app. right. left. reflexivity.
      - cbn [orb] in Hsm. rewrite Hsm in H.
        right. apply loop_lines in H. destruct H as (_ & Hi & _).
        apply Hi. apply in_or_app. right. left. reflexivity. }
    rewrite Hread in H.
    destruct (contains "drivers" (sm_path sm));
      [|destruct (contains "helpers" (sm_path sm))];
      eapply IH; eassumption.
Qed.

Lemma loop_lines_free (subs : list submodule) (read_lines : list string) :
  forallb (listed E e bundle_path) subs = true ->
  forall d h u d' h' u',
    rfold subs (lib_links_step E e bundle_path read_lines) (d, h, u)
    = Ok (d', h', u') ->
    forallb linebreak_free d = true -> forallb linebreak_free h = true ->
    forallb linebreak_free d' = true /\ forallb linebreak_free h' = true.
Proof.
  induction subs as [|sm subs IH]; intros Hl d h u d' h' u' H Hd Hh.
  - inversion H; subst. split; assumption.
  - cbn [forallb] in Hl. apply andb_true_iff in Hl. destruct Hl as [Hsm Hl].
    cbn [rfold] in H. rewrite lib_links_step_shape in H.
    destruct (list_line_of E e bundle_path sm) as [line|x] eqn:Hline; [|discriminate].
    cbn [rbind] in H.
    pose proof (list_line_free sm line Hsm Hline) as Hfree.
    destruct (contains "drivers" (sm_path sm));
      [|destruct (contains "helpers" (sm_path sm))];
      (eapply IH; [exact Hl | exact H | |]);
      rewrite ?forallb_app; cbn [forallb]; rewrite ?Hfree, ?Hd, ?Hh;
      reflexivity.
Qed.

End Loop.

End ListingFacts.

Import ListingFacts.

Lemma check_lib_links_md_shape {Ext} (E : Env Ext) (bundle_path : string)
  (w : World Ext) :
  contains "Adafruit_CircuitPython_Bundle" bundle_path = true ->
  check_lib_links_md E bundle_path w
  = match get_bundle_submodules E (ext w) (cwd w) with
    | Raise x => (Raise x, w)
    | Ok _ =>
        match rfold (submodules_list E w)
                    (lib_links_step E (ext w) bundle_path
                       match document bundle_path w with
                       | Some t => splitlines t
                       | None => []
                       end)
                    ([], [], []) with
        | Raise x => (Raise x, w)
        | Ok (d, h, u) =>
            (Ok u,
             mkWorld (cwd w) (out w) (redis w)
                     (store_set (document_path bundle_path w)
                                (lib_list_document
                                   (List.length (submodules_list E w)) d h)
                                (files w))
                     (ext w) (calls w))
        end
    end.
Proof.
  intros Hb. unfold check_lib_links_md, submodules_list, document,
    document_path.
  rewrite Hb. cbn [negb].
  unfold bind at 1.
  destruct (get_bundle_submodules E (ext w) (cwd w)) as [subs|x];
    [|reflexivity].
  unfold bind, try_except, read_file, write_file, ret.
  destruct (store_get (path_join (cwd w) (path_join bundle_path LIB_LIST))
                      (files w)) as [t|];
    match goal with
    | |- context [rfold ?l ?f ?a] => destruct (rfold l f a) as [[[d h] u]|x]
    end; reflexivity.
Qed.

(** C7, as stated, fails: a library whose path is in neither category
    is never written to the document, so every run reports it as newly
    added, also the second run on an unchanged library set. *)
Lemma check_lib_links_md_reports_again :
  fst (check_lib_links_md (Scripted.env_of Scenario_listing.s_misc)
         Scenario_listing.bundle_path (Scripted.start "/work"))
  = Ok ["Adafruit_CircuitPython_Foo"; "Adafruit_CircuitPython_Baz"]
  /\ fst (check_lib_links_md (Scripted.env_of Scenario_listing.s_misc)
            Scenario_listing.bundle_path
            (snd (check_lib_links_md (Scripted.env_of Scenario_listing.s_misc)
                    Scenario_listing.bundle_path (Scripted.start "/work"))))
     = Ok ["Adafruit_CircuitPython_Baz"].
Proof.
  split; vm_compute; reflexivity.
Qed.

(** C7, amended.  After a run of [check_lib_links_md], a second run on
    the unchanged library set (same submodules, same PyPI and
    documentation lookups) succeeds as well and leaves the listing
    document exactly as the first run wrote it; it reports no new
    library provided every library's path is in one of the two
    categories and neither its URL nor its documentation link has a
    line boundary in it. *)
Theorem check_lib_links_md_twice {Ext} (E : Env Ext) (bundle_path : string)
  (w w1 : World Ext) (updates_made : list string) :
  check_lib_links_md E bundle_path w = (Ok updates_made, w1) ->
  exists updates_made' w2,
    check_lib_links_md E bundle_path w1 = (Ok updates_made', w2)
    /\ document bundle_path w2 = document bundle_path w1
    /\ (contains "Adafruit_CircuitPython_Bundle" bundle_path = true ->
        exists text, document bundle_path w1 = Some text)
    /\ (forallb (listed E (ext w) bundle_path) (submodules_list E w) = true ->
        updates_made' = []).
Proof.
  intros Hrun.
  destruct (contains "Adafruit_CircuitPython_Bundle" bundle_path) eqn:Hb.
  - rewrite (check_lib_links_md_shape E bundle_path w Hb) in Hrun.
    destruct (get_bundle_submodules E (ext w) (cwd w)) as [subs|x] eqn:Hsubs;
      [|discriminate].
    destruct (rfold (submodules_list E w) _ _) as [[[d h] u]|x] eqn:Hloop;
      [|discriminate].
    inversion Hrun; subst updates_made w1; clear Hrun.
    set (text := lib_list_document (List.length (submodules_list E w)) d h).
    set (w1 := mkWorld (cwd w) (out w) (redis w)
                       (store_set (document_path bundle_path w) text (files w))
                       (ext w) (calls w)).
    assert (Hlist : submodules_list E w1 = submodules_list E w) by reflexivity.
    assert (Hdoc : document bundle_path w1 = Some text).
    { unfold document, document_path, w1. cbn [cwd files store_set store_get].
      rewrite String.eqb_refl. reflexivity. }
    apply loop_lines in Hloop. destruct Hloop as (_ & _ & Hagain).
    destruct (Hagain (splitlines text) []) as [u' Hloop'].
    rewrite (check_lib_links_md_shape E bundle_path w1 Hb).
    change (get_bundle_submodules E (ext w1) (cwd w1))
      with (get_bundle_submodules E (ext w) (cwd w)).
    rewrite Hsubs, Hlist, Hdoc.
    change (ext w1) with (ext w). rewrite Hloop'.
    eexists. eexists. split; [reflexivity|]. split; [|split].
    + unfold document, document_path.
      cbn [cwd files store_set store_get].
      rewrite String.eqb_refl. reflexivity.
    + intros _. exists text. reflexivity.
    + intros Hlisted.
      assert (Hcat : forallb (categorized) (submodules_list E w) = true).
      { rewrite forallb_forall in *. intros sm Hsm. specialize (Hlisted sm Hsm).
        unfold listed in Hlisted.
        apply andb_true_iff in Hlisted. destruct Hlisted as [Hl _].
        apply andb_true_iff in Hl. destruct Hl as [Hl _]. exact Hl. }
      destruct (loop_lines_free Ext E (ext w) bundle_path (submodules_list E w)
                  (splitlines text) Hlisted _ _ _ _ _ _ Hloop'
                  eq_refl eq_refl) as [Hd Hh].
      assert (Hsplit : splitlines text
                       = document_lines (List.length (submodules_list E w))
                                        d h).
      { unfold text. rewrite lib_list_document_lines.
        apply splitlines_lines_text. unfold document_lines.
        rewrite !forallb_app, header_lines_free.
        rewrite (forallb_py_sorted _ String.leb linebreak_free d Hd).
        rewrite (forallb_py_sorted _ String.leb linebreak_free h Hh).
        reflexivity. }
      eapply (loop_no_updates Ext E (ext w) bundle_path); [exact Hcat| |].
      * exact Hloop'.
      * intros x Hx. rewrite Hsplit. unfold document_lines.
        apply in_or_app. right.
        destruct Hx as [Hx|Hx].
        -- apply in_or_app. left. apply In_py_sorted. assumption.
        -- apply in_or_app. right. apply in_or_app. right.
           apply In_py_sorted. assumption.
  - unfold check_lib_links_md in *. rewrite Hb in *. cbn [negb] in *.
    inversion Hrun; subst; clear Hrun.
    exists [], w1. split; [reflexivity|]. split; [reflexivity|].
    split; [discriminate | reflexivity].
Qed.

Lemma check_lib_links_md_twice_witness :
  fst (check_lib_links_md (Scripted.env_of Scenario_listing.s)
         Scenario_listing.bundle_path
         (snd (check_lib_links_md (Scripted.env_of Scenario_listing.s)
                 Scenario_listing.bundle_path (Scripted.start "/work"))))
  = Ok [].
Proof.
  destruct (check_lib_links_md_twice (Scripted.env_of Scenario_listing.s)
              Scenario_listing.bundle_path (Scripted.start "/work")
              (snd (check_lib_links_md (Scripted.env_of Scenario_listing.s)
                      Scenario_listing.bundle_path (Scripted.start "/work")))
              ["Adafruit_CircuitPython_Foo"; "Adafruit_CircuitPython_Bar"])
    as (u & w2 & Hrun & _ & _ & Hnone).
  - vm_compute. reflexivity.
  - rewrite Hrun. cbn [fst]. f_equal. apply Hnone. vm_compute. reflexivity.
Defined.

(* ================================================================= *)
(** * Further properties of the engine *)

(* ----------------------------------------------------------------- *)
(** ** The top level and the directory discipline *)

Lemma guarded_bundle_raises {Ext} (E : Env Ext)
  (bundles_dir cp_bundle : string) (w w1 : World Ext) (e : exn) :
  guarded_bundle E bundles_dir cp_bundle w = (Raise e, w1) ->
  is_RuntimeError e = false.
Proof.
  unfold guarded_bundle, try_except.
  destruct (process_bundle E cp_bundle (path_join bundles_dir cp_bundle) w)
    as [[[]|e0] w0]; [discriminate|].
  destruct e0; cbv [bind print]; intros H; inversion H; subst; reflexivity.
Qed.

(** X1.  No [RuntimeError] leaves the main loop: whatever the bundles
    do, the loop either completes or ends with an exception of another
    class. *)
Theorem main_loop_contains_RuntimeError {Ext} (E : Env Ext)
  (bundles_dir : string) (bundles : list string) (w : World Ext) :
  fst (main_loop E bundles_dir bundles w) = Ok tt
  \/ exists e, fst (main_loop E bundles_dir bundles w) = Raise e
               /\ is_RuntimeError e = false.
Proof.
  unfold main_loop. revert w.
  induction bundles as [|cp_bundle rest IH]; intros w.
  - left. reflexivity.
  - cbn [for_each].
    destruct (guarded_bundle E bundles_dir cp_bundle w) as [[[]|e] w1] eqn:Hg.
    + rewrite (bind_ok Ext _ _ _ _ _ Hg). apply IH.
    + rewrite (bind_raise Ext _ _ _ _ _ Hg). right. exists e.
      split; [reflexivity|].
      exact (guarded_bundle_raises E bundles_dir cp_bundle w w1 e Hg).
Qed.

(** X2.  [Submodule] is a faithful bracket.  When the process's
    directory exists whatever happens outside, the block leaves the
    process in the directory it started from, on normal exit and on an
    exception alike; a directory that cannot be entered raises before
    the block runs; otherwise the outcome of the block, run from inside
    the directory, is the outcome of the whole. *)
Theorem Submodule_restores {Ext} (E : Env Ext) {A} (directory : string)
  (body : M Ext A) (w : World Ext) :
  (forall e, sys_isdir E e (cwd w) = true) ->
  cwd (snd (Submodule E directory body w)) = cwd w
  /\ (enterable E w directory = false ->
      Submodule E directory body w = (Raise (OSError directory), w))
  /\ (enterable E w directory = true ->
      fst (Submodule E directory body w) = fst (body (entered w directory))).
Proof.
  intros Hdir.
  unfold Submodule, bind, getcwd, chdir, finally, chdir_abs, enterable,
    entered.
  destruct (negb (String.eqb directory "")
            && sys_isdir E (ext w) (path_join (cwd w) directory)).
  - destruct (body _) as [r w2]. rewrite Hdir. cbn [fst snd cwd].
    repeat split; try discriminate; reflexivity.
  - repeat split; try discriminate; reflexivity.
Qed.

Lemma Submodule_restores_witness :
  cwd (snd (Submodule (Scripted.env_of Scenario_foo.s) "libraries/drivers/foo"
              (raise (ValueError "inside") : M unit unit)
              (Scripted.start "/work/bundle")))
  = "/work/bundle"
  /\ fst (Submodule (Scripted.env_of Scenario_foo.s) "libraries/drivers/foo"
            (raise (ValueError "inside") : M unit unit)
            (Scripted.start "/work/bundle"))
     = Raise (ValueError "inside").
Proof.
  destruct (Submodule_restores (Scripted.env_of Scenario_foo.s)
              "libraries/drivers/foo"
              (raise (ValueError "inside") : M unit unit)
              (Scripted.start "/work/bundle")) as (Hcwd & _ & Hbody).
  - intros e. reflexivity.
  - split; [exact Hcwd|]. rewrite Hbody; reflexivity.
Defined.

(* ----------------------------------------------------------------- *)
(** ** The identity cache *)

Lemma cached_turn {Ext} (E : Env Ext) (repo : string)
  (d : tally) (log_line sha author_email committer_email a c : string)
  (w : World Ext) :
  split_on "," log_line = [sha; author_email; committer_email] ->
  store_get (cache_key author_email) (redis w) = Some a -> a <> "" ->
  store_get (cache_key committer_email) (redis w) = Some c -> c <> "" ->
  contributors_step E repo d log_line w
  = (Ok (credit_commit (Some (HStr a)) (Some (HStr c)) committer_email d), w).
Proof.
  intros Hline Ha Hane Hc Hcne.
  apply String.eqb_neq in Hane, Hcne.
  unfold contributors_step. rewrite Hline.
  unfold bind, redis_get. fold (cache_key author_email).
  fold (cache_key committer_email). rewrite Ha, Hc.
  cbn [cache_miss]. rewrite Hane, Hcne. reflexivity.
Qed.

(** X3.  The cache is the fast path: when both emails of a log line
    have a non-empty cache entry, the turn credits the decoded entries
    and leaves the world as it is: no remote lookup, no cache write. *)
Theorem contributors_step_cached {Ext} (E : Env Ext) (repo : string)
  (d : tally) (log_line sha author_email committer_email a c : string)
  (w : World Ext) :
  split_on "," log_line = [sha; author_email; committer_email] ->
  store_get (cache_key author_email) (redis w) = Some a -> a <> "" ->
  store_get (cache_key committer_email) (redis w) = Some c -> c <> "" ->
  contributors_step E repo d log_line w
  = (Ok (credit_commit (Some (HStr a)) (Some (HStr c)) committer_email d), w).
Proof.
  apply cached_turn.
Qed.

Lemma contributors_step_cached_witness :
  contributors_step (Scripted.env_of Scenario_log.s) "adafruit/lib" []
    "c2,bob@example.org,carol@example.org" Scenario_log.w0
  = (Ok [(HStr "bob", 1%Z); (HStr "carol", 1%Z)], Scenario_log.w0).
Proof.
  apply (contributors_step_cached (Scripted.env_of Scenario_log.s)
           "adafruit/lib" [] "c2,bob@example.org,carol@example.org"
           "c2" "bob@example.org" "carol@example.org" "bob" "carol"
           Scenario_log.w0); try reflexivity; discriminate.
Defined.

(** X4.  A cache miss is settled by one remote lookup that never
    aborts the run by itself: when the hosting service answers, the
    turn succeeds, credits for each party the login it was given or
    else the raw cache value, has made exactly the one lookup for that
    commit, and has written to the cache the logins it was given and
    nothing else (the committer's login wins when both emails are the
    same). *)
Theorem contributors_step_lookup {Ext} (E : Env Ext) (repo : string)
  (d : tally) (log_line sha author_email committer_email : string)
  (w : World Ext) (info : commit_info) :
  split_on "," log_line = [sha; author_email; committer_email] ->
  cache_miss (store_get (cache_key author_email) (redis w))
  || cache_miss (store_get (cache_key committer_email) (redis w)) = true ->
  github_get_commit E (ext w) (commit_url repo sha) = Ok info ->
  exists w1,
    contributors_step E repo d log_line w
    = (Ok (credit_commit
             (resolved_party (ci_author info)
                (store_get (cache_key author_email) (redis w)))
             (resolved_party (ci_committer info)
                (store_get (cache_key committer_email) (redis w)))
             committer_email d), w1)
    /\ calls w1 = GithubGet (commit_url repo sha) :: calls w
    /\ cwd w1 = cwd w /\ files w1 = files w /\ ext w1 = ext w
    /\ out w1 = out w
    /\ (forall login, ci_committer info = Some login ->
          store_get (cache_key committer_email) (redis w1) = Some login)
    /\ (forall login, ci_author info = Some login ->
          author_email <> committer_email \/ ci_committer info = None ->
          store_get (cache_key author_email) (redis w1) = Some login)
    /\ (ci_author info = None -> ci_committer info = None ->
        redis w1 = redis w)
    /\ (forall k, k <> cache_key author_email ->
          k <> cache_key committer_email ->
          store_get k (redis w1) = store_get k (redis w)).
Proof.
  intros Hline Hmiss Hinfo.
  unfold contributors_step. rewrite Hline.
  unfold bind at 1. unfold redis_get at 1. cbv beta iota.
  unfold bind at 1. unfold redis_get at 1. cbv beta iota.
  fold (cache_key author_email). fold (cache_key committer_email).
  rewrite Hmiss.
  unfold bind, github_get_commit_info, redis_set, ret, record_call.
  fold (commit_url repo sha).
  cbn [cwd out redis files ext calls]. rewrite Hinfo.
  destruct info as [[la|] [lc|]]; cbn [ci_author ci_committer resolved_party];
    eexists; (split; [reflexivity|]);
    cbn [cwd out redis files ext calls store_set store_get];
    repeat split; try reflexivity; try discriminate.
  - intros login H. inversion H; subst. rewrite String.eqb_refl. reflexivity.
  - intros login H [Hne|Hnone]; [|discriminate]. inversion H; subst.
    assert (Hk : String.eqb (cache_key author_email)
                            (cache_key committer_email) = false).
    { apply String.eqb_neq. unfold cache_key. intros Heq.
      apply Hne. injection Heq as Heq.
      repeat (injection Heq as _ Heq). exact Heq. }
    rewrite Hk, String.eqb_refl. reflexivity.
  - intros k Ha Hc. apply String.eqb_neq in Ha, Hc. rewrite Ha, Hc.
    reflexivity.
  - intros login H _. inversion H; subst. rewrite String.eqb_refl.
    reflexivity.
  - intros k Ha Hc. apply String.eqb_neq in Ha. rewrite Ha. reflexivity.
  - intros login H. inversion H; subst. rewrite String.eqb_refl. reflexivity.
  - intros k Ha Hc. apply String.eqb_neq in Hc. rewrite Hc. reflexivity.
Qed.

Lemma contributors_step_lookup_witness :
  fst (contributors_step (Scripted.env_of Scenario_lookup.s) "adafruit/lib" []
         "c9,dave@example.org,erin@example.org" Scenario_lookup.w0)
  = Ok [(HStr "dave", 1%Z); (HBytes "erin", 1%Z)].
Proof.
  destruct (contributors_step_lookup (Scripted.env_of Scenario_lookup.s)
              "adafruit/lib" [] "c9,dave@example.org,erin@example.org"
              "c9" "dave@example.org" "erin@example.org"
              Scenario_lookup.w0
              {| ci_author := Some "dave"; ci_committer := None |})
    as (w1 & Hrun & _).
  - reflexivity.
  - reflexivity.
  - reflexivity.
  - rewrite Hrun. reflexivity.
Defined.

(** X5.  Memoization: once a remote lookup has given a non-empty login
    for the author and for the committer of a log line, the line is
    served from the cache from then on: a later turn on the same line
    makes no lookup and changes nothing. *)
Theorem contributors_step_memoized {Ext} (E : Env Ext) (repo : string)
  (d d' : tally) (log_line sha author_email committer_email la lc : string)
  (w : World Ext) :
  split_on "," log_line = [sha; author_email; committer_email] ->
  github_get_commit E (ext w) (commit_url repo sha)
  = Ok {| ci_author := Some la; ci_committer := Some lc |} ->
  la <> "" -> lc <> "" ->
  snd (contributors_step E repo d' log_line
         (snd (contributors_step E repo d log_line w)))
  = snd (contributors_step E repo d log_line w).
Proof.
  intros Hline Hinfo Hla Hlc.
  assert (Hturn : forall v : World Ext,
             cache_miss (store_get (cache_key author_email) (redis v))
             || cache_miss (store_get (cache_key committer_email) (redis v))
             = false ->
             forall t, snd (contributors_step E repo t log_line v) = v).
  { intros v Hhit t. apply orb_false_iff in Hhit. destruct Hhit as [Ha Hc].
    destruct (store_get (cache_key author_email) (redis v)) as [a|] eqn:Ea;
      [|discriminate].
    destruct (store_get (cache_key committer_email) (redis v)) as [c|] eqn:Ec;
      [|discriminate].
    cbn [cache_miss] in Ha, Hc. apply String.eqb_neq in Ha, Hc.
    rewrite (cached_turn E repo t log_line sha author_email committer_email
               a c v Hline Ea Ha Ec Hc). reflexivity. }
  destruct (cache_miss (store_get (cache_key author_email) (redis w))
            || cache_miss (store_get (cache_key committer_email) (redis w)))
    eqn:Hmiss.
  - assert (Hrun : snd (contributors_step E repo d log_line w)
                   = mkWorld (cwd w) (out w)
                       (store_set (cache_key committer_email) lc
                          (store_set (cache_key author_email) la (redis w)))
                       (files w) (ext w)
                       (GithubGet (commit_url repo sha) :: calls w)).
    { unfold contributors_step. rewrite Hline.
      unfold bind at 1. unfold redis_get at 1. cbv beta iota.
      unfold bind at 1. unfold redis_get at 1. cbv beta iota.
      fold (cache_key author_email). fold (cache_key committer_email).
      rewrite Hmiss.
      unfold bind, github_get_commit_info, redis_set, ret, record_call.
      fold (commit_url repo sha).
      cbn [cwd out redis files ext calls]. rewrite Hinfo. reflexivity. }
    rewrite Hrun. apply Hturn.
    cbn [redis store_set store_get].
    apply String.eqb_neq in Hla, Hlc.
    destruct (String.eqb (cache_key author_email) (cache_key committer_email));
      rewrite ?String.eqb_refl; cbn [cache_miss orb];
      rewrite ?Hla, ?Hlc; reflexivity.
  - rewrite (Hturn w Hmiss d). apply Hturn. exact Hmiss.
Qed.

Lemma contributors_step_memoized_witness :
  snd (contributors_step (Scripted.env_of Scenario_lookup.s) "adafruit/lib" []
         "c10,dave@example.org,frank@example.org"
         (snd (contributors_step (Scripted.env_of Scenario_lookup.s)
                 "adafruit/lib" [] "c10,dave@example.org,frank@example.org"
                 Scenario_lookup.w0)))
  = snd (contributors_step (Scripted.env_of Scenario_lookup.s) "adafruit/lib"
           [] "c10,dave@example.org,frank@example.org" Scenario_lookup.w0).
Proof.
  apply (contributors_step_memoized (Scripted.env_of Scenario_lookup.s)
           "adafruit/lib" [] [] "c10,dave@example.org,frank@example.org"
           "c10" "dave@example.org" "frank@example.org" "dave" "frank"
           Scenario_lookup.w0); try reflexivity; discriminate.
Defined.

(* ----------------------------------------------------------------- *)
(** ** Sorting *)

Module SortFacts.

Section Order.

Variable A : Type.
Variable le : A -> A -> bool.

Lemma Permutation_insert_sorted (x : A) (l : list A) :
  Permutation (insert_sorted le x l) (x :: l).
Proof.
  induction l as [|y l IH]; simpl; [apply Permutation_refl|].
  destruct (le x y); [apply Permutation_refl|].
  eapply Permutation_trans; [apply perm_skip, IH | apply perm_swap].
Qed.

Lemma Permutation_py_sorted (l : list A) : Permutation (py_sorted le l) l.
Proof.
  induction l as [|x l IH]; simpl; [apply Permutation_refl|].
  eapply Permutation_trans; [apply Permutation_insert_sorted|].
  apply perm_skip, IH.
Qed.

Hypothesis le_total : forall a b, le a b = false -> le b a = true.
Hypothesis le_trans :
  forall a b c, le a b = true -> le b c = true -> le a c = true.

Lemma Forall_insert_sorted (P : A -> Prop) (x : A) (l : list A) :
  P x -> Forall P l -> Forall P (insert_sorted le x l).
Proof.
  intros Hx Hl. induction Hl as [|y l Hy Hl IH]; simpl.
  - constructor; [assumption | constructor].
  - destruct (le x y); repeat (constructor; try assumption).
Qed.

Lemma StronglySorted_insert_sorted (x : A) (l : list A) :
  StronglySorted (fun a b => le a b = true) l ->
  StronglySorted (fun a b => le a b = true) (insert_sorted le x l).
Proof.
  induction 1 as [|y l Hl IH Hy]; simpl.
  - constructor; constructor.
  - destruct (le x y) eqn:Hxy.
    + constructor; [constructor; assumption|].
      constructor; [assumption|].
      eapply Forall_impl; [|exact Hy].
      intros z Hz. eapply le_trans; eassumption.
    + constructor; [exact IH|].
      apply Forall_insert_sorted; [apply le_total; assumption | assumption].
Qed.

Lemma StronglySorted_py_sorted (l : list A) :
  StronglySorted (fun a b => le a b = true) (py_sorted le l).
Proof.
  induction l as [|x l IH]; simpl; [constructor|].
  apply StronglySorted_insert_sorted. assumption.
Qed.

End Order.

Lemma StronglySorted_weaken {A} (R R' : A -> A -> Prop) (l : list A) :
  (forall a b, R a b -> R' a b) -> StronglySorted R l -> StronglySorted R' l.
Proof.
  intros HR. induction 1 as [|x l Hl IH Hx]; constructor; [assumption|].
  eapply Forall_impl; [|exact Hx]. intros y. apply HR.
Qed.

(** Stability: an element is put in front of everything it does not
    have to follow. *)
Lemma filter_insert_sorted {A} (le : A -> A -> bool) (P : A -> bool) (x : A)
  (l : list A) :
  (P x = true -> forall y, le x y = false -> P y = false) ->
  filter P (insert_sorted le x l) = filter P (x :: l).
Proof.
  intros Hpass. induction l as [|y l IH]; [reflexivity|].
  cbn [insert_sorted]. destruct (le x y) eqn:Hxy; [reflexivity|].
  cbn [filter] in *. rewrite IH.
  destruct (P x) eqn:Hx; [|reflexivity].
  rewrite (Hpass eq_refl y Hxy). reflexivity.
Qed.

Lemma string_compare_trans (a b c : string) :
  String.compare a b <> Gt -> String.compare b c <> Gt ->
  String.compare a c <> Gt.
Proof.
  revert b c. induction a as [|x a IH]; intros [|y b] [|z c]; simpl;
    try congruence.
  unfold Ascii.compare.
  destruct (N.compare_spec (N_of_ascii x) (N_of_ascii y)) as [Hxy|Hxy|Hxy];
    destruct (N.compare_spec (N_of_ascii y) (N_of_ascii z)) as [Hyz|Hyz|Hyz];
    destruct (N.compare_spec (N_of_ascii x) (N_of_ascii z)) as [Hxz|Hxz|Hxz];
    try congruence; try lia.
  apply IH.
Qed.

Lemma string_leb_trans (a b c : string) :
  String.leb a b = true -> String.leb b c = true -> String.leb a c = true.
Proof.
  unfold String.leb. intros Hab Hbc.
  pose proof (string_compare_trans a b c) as H.
  destruct (String.compare a b), (String.compare b c), (String.compare a c);
    try reflexivity; try discriminate; exfalso; apply H; congruence.
Qed.

Lemma string_leb_total (a b : string) :
  String.leb a b = false -> String.leb b a = true.
Proof.
  intros H. destruct (String.leb_total a b) as [H'|H']; congruence.
Qed.

End SortFacts.

(** X6.  The contributors are thanked in descending order of weight,
    each entry of the tally once, and contributors of equal weight in
    the order in which the tally holds them. *)
Theorem sorted_contributors_ranking (contributors : tally) :
  exists ranked : tally,
    sorted_contributors contributors = map fst ranked
    /\ Permutation ranked contributors
    /\ StronglySorted (fun a b => (snd b <= snd a)%Z) ranked
    /\ forall v, filter (fun p => (snd p =? v)%Z) ranked
                 = filter (fun p => (snd p =? v)%Z) contributors.
Proof.
  exists (py_sorted (fun a b => (snd b <=? snd a)%Z) contributors).
  split; [reflexivity|]. split; [apply SortFacts.Permutation_py_sorted|].
  split.
  - eapply SortFacts.StronglySorted_weaken;
      [|apply (SortFacts.StronglySorted_py_sorted _
                 (fun a b : handle * Z => (snd b <=? snd a)%Z))].
    + intros a b H. apply Z.leb_le. exact H.
    + intros a b H. apply Z.leb_gt in H. apply Z.leb_le. lia.
    + intros a b c Hab Hbc. apply Z.leb_le in Hab, Hbc. apply Z.leb_le. lia.
  - intros v. induction contributors as [|x l IH]; [reflexivity|].
    cbn [py_sorted]. rewrite SortFacts.filter_insert_sorted.
    + cbn [filter]. rewrite IH. reflexivity.
    + intros Hx y Hy. apply Z.eqb_eq in Hx. apply Z.leb_gt in Hy.
      apply Z.eqb_neq. lia.
Qed.

(* ----------------------------------------------------------------- *)
(** ** The listing document, continued *)

(** X7.  Reading the listing document back line by line gives the
    header with the library count, the driver lines in ascending order,
    an empty line, the helpers heading and the helper lines in
    ascending order: every rendered line once, provided no rendered
    line has a line boundary in it. *)
Theorem lib_list_document_reads_back (lib_count : nat)
  (write_drivers write_helpers : list string) :
  forallb linebreak_free write_drivers = true ->
  forallb linebreak_free write_helpers = true ->
  exists drivers helpers,
    splitlines (lib_list_document lib_count write_drivers write_helpers)
    = (header_lines lib_count ++ drivers ++ [""; "## Helpers:"] ++ helpers)%list
    /\ Permutation drivers write_drivers
    /\ Permutation helpers write_helpers
    /\ StronglySorted (fun a b => String.leb a b = true) drivers
    /\ StronglySorted (fun a b => String.leb a b = true) helpers.
Proof.
  intros Hd Hh.
  exists (py_sorted String.leb write_drivers),
         (py_sorted String.leb write_helpers).
  split; [|repeat split].
  - rewrite lib_list_document_lines. apply splitlines_lines_text.
    unfold document_lines.
    rewrite !forallb_app, header_lines_free.
    rewrite (forallb_py_sorted _ String.leb linebreak_free _ Hd).
    rewrite (forallb_py_sorted _ String.leb linebreak_free _ Hh).
    reflexivity.
  - apply SortFacts.Permutation_py_sorted.
  - apply SortFacts.Permutation_py_sorted.
  - apply SortFacts.StronglySorted_py_sorted;
      [apply SortFacts.string_leb_total | apply SortFacts.string_leb_trans].
  - apply SortFacts.StronglySorted_py_sorted;
      [apply SortFacts.string_leb_total | apply SortFacts.string_leb_trans].
Qed.

Lemma lib_list_document_reads_back_witness :
  exists drivers helpers,
    splitlines (lib_list_document 3 ["* [b](u)"; "* [a](u)"] ["* [c](u)"])
    = (header_lines 3 ++ drivers ++ [""; "## Helpers:"] ++ helpers)%list
    /\ Permutation drivers ["* [b](u)"; "* [a](u)"]
    /\ Permutation helpers ["* [c](u)"]
    /\ StronglySorted (fun a b => String.leb a b = true) drivers
    /\ StronglySorted (fun a b => String.leb a b = true) helpers.
Proof.
  apply (lib_list_document_reads_back 3 ["* [b](u)"; "* [a](u)"]
           ["* [c](u)"]); reflexivity.
Defined.

Lemma loop_updates {Ext} (E : Env Ext) (e : Ext) (bundle_path : string)
  (read_lines : list string) (subs : list submodule) :
  forall d h u d' h' u',
    rfold subs (lib_links_step E e bundle_path read_lines) (d, h, u)
    = Ok (d', h', u') ->
    u' = (u ++ map (fun sm => url_name_of (sm_url sm))
                   (filter (fun sm => negb (line_known E e bundle_path
                                               read_lines sm)) subs))%list.
Proof.
  induction subs as [|sm subs IH]; intros d h u d' h' u' H.
  - inversion H; subst. cbn [filter map]. rewrite app_nil_r. reflexivity.
  - cbn [rfold] in H. rewrite lib_links_step_shape in H.
    cbn [filter]. unfold line_known at 1.
    destruct (list_line_of E e bundle_path sm) as [line|x]; [|discriminate].
    cbn [rbind] in H.
    destruct (existsb (String.eqb line) read_lines); cbn [negb map];
      destruct (contains "drivers" (sm_path sm));
      [| destruct (contains "helpers" (sm_path sm))
       | | destruct (contains "helpers" (sm_path sm))];
      apply IH in H; rewrite H, <- ?app_assoc; reflexivity.
Qed.

(** X8.  New libraries are found by content: a run of
    [check_lib_links_md] on the primary bundle reports, in path order,
    exactly the libraries whose rendered line is not a line of the
    previous document; with no previous document it reports every
    library. *)
Theorem check_lib_links_md_unlisted {Ext} (E : Env Ext) (bundle_path : string)
  (w w1 : World Ext) (updates_made : list string) :
  contains "Adafruit_CircuitPython_Bundle" bundle_path = true ->
  check_lib_links_md E bundle_path w = (Ok updates_made, w1) ->
  updates_made
  = map (fun sm => url_name_of (sm_url sm))
        (filter (fun sm => negb (line_known E (ext w) bundle_path
                                   (previous_lines bundle_path w) sm))
                (submodules_list E w))
  /\ (document bundle_path w = None ->
      updates_made
      = map (fun sm => url_name_of (sm_url sm)) (submodules_list E w)).
Proof.
  intros Hb Hrun.
  rewrite (check_lib_links_md_shape E bundle_path w Hb) in Hrun.
  destruct (get_bundle_submodules E (ext w) (cwd w)) as [subs|x] eqn:Hsubs;
    [|discriminate].
  fold (previous_lines bundle_path w) in Hrun.
  destruct (rfold (submodules_list E w) _ _) as [[[d h] u]|x] eqn:Hloop;
    [|discriminate].
  inversion Hrun; subst u w1; clear Hrun.
  apply loop_updates in Hloop. cbn [app] in Hloop.
  split; [exact Hloop|].
  intros Hnone. rewrite Hloop. unfold previous_lines. rewrite Hnone.
  f_equal. clear Hloop.
  induction (submodules_list E w) as [|sm l IH]; [reflexivity|].
  cbn [filter]. unfold line_known at 1.
  destruct (list_line_of E (ext w) bundle_path sm); cbn [existsb negb];
    rewrite IH; reflexivity.
Qed.

Lemma check_lib_links_md_unlisted_witness :
  fst (check_lib_links_md (Scripted.env_of Scenario_listing.s)
         Scenario_listing.bundle_path (Scripted.start "/work"))
  = Ok ["Adafruit_CircuitPython_Foo"; "Adafruit_CircuitPython_Bar"].
Proof.
  destruct (check_lib_links_md_unlisted (Scripted.env_of Scenario_listing.s)
              Scenario_listing.bundle_path (Scripted.start "/work")
              (snd (check_lib_links_md (Scripted.env_of Scenario_listing.s)
                      Scenario_listing.bundle_path (Scripted.start "/work")))
              ["Adafruit_CircuitPython_Foo"; "Adafruit_CircuitPython_Bar"])
    as [_ Hall].
  - reflexivity.
  - vm_compute. reflexivity.
  - vm_compute. reflexivity.
Defined.

(* ----------------------------------------------------------------- *)
(** ** The status scanner, continued *)

Lemma scan_status_line_ok {Ext} (E : Env Ext) (updates updates' : list update)
  (status_line : string) (w w' : World Ext) :
  scan_status_line E updates status_line w = (Ok updates', w') ->
  (listing_line status_line = true /\ updates' = updates)
  \/ (listing_line status_line = false /\ library_line status_line = true
      /\ exists r, updates' = (updates ++ [r])%list).
Proof.
  unfold scan_status_line, listing_line, library_line.
  destruct (split_ws status_line) as [|action [|directory [|x rest]]];
    try (intros H; discriminate H).
  destruct (endswith "library_list.md" directory).
  - intros H. inversion H; subst. left. split; reflexivity.
  - destruct (String.eqb action "M"); cbn [negb orb andb];
      [|intros H; discriminate H].
    destruct (startswith "libraries" directory); cbn [negb];
      [|intros H; discriminate H].
    intros H. apply bind_inv in H. destruct H as (diff & w1 & _ & H).
    destruct (nth_error _ 2) as [commit_range|]; [|discriminate H].
    apply bind_inv in H. destruct H as (old_commit & w2 & _ & H).
    apply bind_inv in H. destruct H as (new_commit & w3 & _ & H).
    apply bind_inv in H. destruct H as (url & w4 & _ & H).
    inversion H; subst. right. repeat split. eexists. reflexivity.
Qed.

Lemma scan_status_records {Ext} (E : Env Ext) (lines : list string) :
  forall updates updates' (w w' : World Ext),
    for_each lines (scan_status_line E) updates w = (Ok updates', w') ->
    (exists records,
        updates' = (updates ++ records)%list
        /\ List.length records
           = List.length (filter (fun l => negb (listing_line l)) lines))
    /\ Forall (fun l => listing_line l = true \/ library_line l = true) lines.
Proof.
  induction lines as [|l lines IH]; intros updates updates' w w' H.
  - inversion H; subst. split; [|constructor].
    exists []. rewrite app_nil_r. split; reflexivity.
  - cbn [for_each] in H. apply bind_inv in H.
    destruct H as (u1 & w1 & Hstep & Hrest).
    apply IH in Hrest. destruct Hrest as ((records & Hrec & Hlen) & Hall).
    apply scan_status_line_ok in Hstep.
    destruct Hstep as [[Hl ->]|(Hl & Hlib & r & ->)].
    + split; [|constructor; [left; assumption | assumption]].
      exists records. cbn [filter]. rewrite Hl. cbn [negb].
      split; assumption.
    + split; [|constructor; [right; assumption | assumption]].
      exists (r :: records). cbn [filter]. rewrite Hl. cbn [negb].
      split.
      * rewrite Hrec, <- app_assoc. reflexivity.
      * simpl. f_equal. exact Hlen.
Qed.

(** A turn of the scanner that completes has either skipped the line
    of the listing document or appended the record of a modified
    library. *)
Lemma scan_status_line_turn {Ext} (E : Env Ext) (updates updates' : list update)
  (status_line : string) (w w' : World Ext) :
  scan_status_line E updates status_line w = (Ok updates', w') ->
  (listing_line status_line = true /\ updates' = updates /\ w' = w)
  \/ (exists directory diff commit_range old_commit new_commit url w2 w3,
        split_ws status_line = ["M"; directory]
        /\ endswith "library_list.md" directory = false
        /\ startswith "libraries" directory = true
        /\ git_read E (ext w) (files w) (cwd w) (DIFF_LOG directory)
           = (0, diff)
        /\ nth_error (split_ws (hd "" (split_on LF diff))) 2
           = Some commit_range
        /\ commit_to_tag E directory
             (hd "" (split_on "." (strip_char ":" commit_range)))
             (record_call (GitCall (cwd w) (DIFF_LOG directory)) w)
           = (Ok old_commit, w2)
        /\ commit_to_tag E directory
             (last (split_on "." (strip_char ":" commit_range)) "") w2
           = (Ok new_commit, w3)
        /\ repo_remote_url E directory w3 = (Ok url, w')
        /\ updates'
           = (updates ++ [(drop_last 4 url, old_commit, new_commit,
                           join NL (middle (split_on LF diff)))])%list).
Proof.
  unfold scan_status_line, listing_line, DIFF_LOG.
  destruct (split_ws status_line) as [|action [|directory [|x rest]]];
    try (intros H; discriminate H).
  destruct (endswith "library_list.md" directory) eqn:Hend.
  - intros H. unfold ret in H. injection H as <- <-.
    left. repeat split; reflexivity.
  - destruct (String.eqb action "M") eqn:Haction; cbn [negb orb];
      [|intros H; discriminate H].
    apply String.eqb_eq in Haction. subst action.
    destruct (startswith "libraries" directory) eqn:Hstart; cbn [negb];
      [|intros H; discriminate H].
    intros H. apply bind_inv in H. destruct H as (diff & w1 & Hdiff & H).
    unfold git_out, bind, git_query in Hdiff.
    destruct (git_read E (ext w) (files w) (cwd w)
                ["diff"; "--submodule=log"; directory]) as [code text_]
      eqn:Hread.
    destruct (code =? 0)%nat eqn:Hcode; [|discriminate Hdiff].
    apply Nat.eqb_eq in Hcode. subst code.
    unfold ret in Hdiff. injection Hdiff as <- <-.
    destruct (nth_error (split_ws (hd "" (split_on LF text_))) 2)
      as [commit_range|] eqn:Hrange; [|discriminate H].
    apply bind_inv in H. destruct H as (old_commit & w2 & Hold & H).
    apply bind_inv in H. destruct H as (new_commit & w3 & Hnew & H).
    apply bind_inv in H. destruct H as (url & w4 & Hurl & H).
    unfold ret in H. injection H as <- <-.
    right. exists directory, text_, commit_range, old_commit, new_commit, url,
             w2, w3.
    repeat split; assumption || reflexivity.
Qed.

Lemma scan_status_scanned {Ext} (E : Env Ext) (lines : list string) :
  forall updates updates' (w w' : World Ext),
    for_each lines (scan_status_line E) updates w = (Ok updates', w') ->
    exists records,
      updates' = (updates ++ records)%list /\ scanned E lines w records w'.
Proof.
  induction lines as [|l lines IH]; intros updates updates' w w' H.
  - cbn [for_each] in H. unfold ret in H. injection H as <- <-.
    exists []. rewrite app_nil_r. split; [reflexivity | constructor].
  - cbn [for_each] in H. apply bind_inv in H.
    destruct H as (u1 & w1 & Hstep & Hrest).
    apply IH in Hrest. destruct Hrest as (records & -> & Hscan).
    apply scan_status_line_turn in Hstep.
    destruct Hstep
      as [(Hl & -> & ->)
         |(directory & diff & commit_range & old_commit & new_commit & url
           & w2 & w3 & Hsplit & Hend & Hstart & Hread & Hrange & Hold & Hnew
           & Hurl & ->)].
    + exists records. split; [reflexivity|].
      apply scanned_listing; assumption.
    + eexists. split; [rewrite <- app_assoc; reflexivity|].
      cbn [app]. eapply scanned_library; eassumption.
Qed.

(** X9.  A run of [update_bundle] that returns has met only the listing
    document's status line and lines of modified libraries ([M] under
    [libraries]).  What it returns is, in the order of the report, the
    change record of each modified library (its remote URL without the
    last four characters, the tags or commits of the two ends of the
    range of its diff, and the summary lines of the diff), followed by
    the record of the listing document when, and only when, the check
    of the document, run back in the starting directory after the
    scan, reported new libraries. *)
Theorem update_bundle_records {Ext} (E : Env Ext) (bundle_path : string)
  (w w1 w' : World Ext) (working_directory status : string)
  (updates : list update) :
  bundle_status E bundle_path w = (Ok (working_directory, status), w1) ->
  update_bundle E bundle_path w = (Ok updates, w') ->
  exists records w2 lib_list_updates,
    scanned E (status_lines status) w1 records w2
    /\ check_lib_links_md E bundle_path
         (mkWorld working_directory (out w2) (redis w2) (files w2) (ext w2)
                  (calls w2))
       = (Ok lib_list_updates, w')
    /\ updates = (records
                  ++ match lib_list_updates with
                     | [] => []
                     | _ => [lib_list_update lib_list_updates]
                     end)%list
    /\ List.length records
       = List.length (filter (fun l => negb (listing_line l))
                             (status_lines status))
    /\ Forall (fun l => listing_line l = true \/ library_line l = true)
              (status_lines status).
Proof.
  intros Hstatus Hrun. unfold update_bundle in Hrun.
  rewrite (bind_ok Ext _ _ _ _ _ Hstatus) in Hrun.
  apply bind_inv in Hrun. destruct Hrun as (records & w2 & Hscan & Hrun).
  apply bind_inv in Hrun. destruct Hrun as ([] & w3 & Hcd & Hrun).
  apply bind_inv in Hrun. destruct Hrun as (libs & w4 & Hlibs & Hrun).
  unfold ret in Hrun. injection Hrun as <- <-.
  unfold chdir_abs in Hcd.
  destruct (sys_isdir E (ext w2) working_directory); [|discriminate Hcd].
  injection Hcd as <-.
  assert (Hloop : for_each (status_lines status) (scan_status_line E) [] w1
                  = (Ok records, w2)).
  { unfold status_lines. destruct (String.eqb status ""); exact Hscan. }
  exists records, w2, libs.
  pose proof (scan_status_scanned E _ _ _ _ _ Hloop) as (new & Hnew & Hsc).
  cbn [app] in Hnew. subst new.
  pose proof (scan_status_records E _ _ _ _ _ Hloop) as ((new & Hnew & Hlen) & Hall).
  cbn [app] in Hnew. subst new.
  split; [exact Hsc|]. split; [exact Hlibs|].
  split; [destruct libs; [rewrite app_nil_r|]; reflexivity|].
  split; assumption.
Qed.

Lemma update_bundle_records_witness :
  exists records w2,
    scanned (Scripted.env_of Scenario_foo.s)
      (status_lines "M libraries/drivers/foo")
      (snd (bundle_status (Scripted.env_of Scenario_foo.s)
              "/work/.bundles/CircuitPython_Community_Bundle"
              (Scripted.start "/work")))
      records w2
    /\ [("https://github.com/adafruit/foo", "abc123", "def456",
         "  > bumped version")]
       = (records ++ [])%list.
Proof.
  destruct (update_bundle_records (Scripted.env_of Scenario_foo.s)
              "/work/.bundles/CircuitPython_Community_Bundle"
              (Scripted.start "/work")
              (snd (bundle_status (Scripted.env_of Scenario_foo.s)
                      "/work/.bundles/CircuitPython_Community_Bundle"
                      (Scripted.start "/work")))
              (snd (update_bundle (Scripted.env_of Scenario_foo.s)
                      "/work/.bundles/CircuitPython_Community_Bundle"
                      (Scripted.start "/work")))
              "/work" "M libraries/drivers/foo"
              [("https://github.com/adafruit/foo", "abc123", "def456",
                "  > bumped version")])
    as (records & w2 & libs & Hscan & Hlibs & Hupdates & _).
  - vm_compute. reflexivity.
  - vm_compute. reflexivity.
  - exists records, w2. split; [exact Hscan|].
    assert (Hnone : libs = []).
    { unfold check_lib_links_md in Hlibs. cbn [negb contains] in Hlibs.
      vm_compute in Hlibs. injection Hlibs as <- _. reflexivity. }
    rewrite Hnone in Hupdates. exact Hupdates.
Defined.

(* ----------------------------------------------------------------- *)
(** ** Merging tallies, continued *)

Lemma keys_incr (k : handle) (n : Z) (d : tally) :
  keys (tally_incr k n d) = keys d.
Proof.
  unfold tally_incr. destruct (tally_get k d) as [v|] eqn:Hk; [|reflexivity].
  rewrite keys_set. unfold tally_mem. rewrite Hk. reflexivity.
Qed.

Lemma keys_add_one (k : handle) (v : Z) (m : tally) :
  keys (tally_incr k v (tally_touch k m))
  = (keys m ++ if tally_mem k m then [] else [k])%list.
Proof.
  rewrite keys_incr. unfold tally_touch.
  destruct (tally_mem k m) eqn:Hm.
  - rewrite app_nil_r. reflexivity.
  - rewrite keys_set, Hm. reflexivity.
Qed.

Lemma mem_add_one (k k' : handle) (v : Z) (m : tally) :
  handle_eqb k' k = false ->
  tally_mem k' (tally_incr k v (tally_touch k m)) = tally_mem k' m.
Proof.
  intros Hne. unfold tally_mem. rewrite TallyFacts.get_add_one, Hne.
  reflexivity.
Qed.

(** The keys after a merge: those of the master, then the keys of the
    additions that the master does not have, in the order of the
    additions. *)
Lemma keys_add_contributors (additions : tally) :
  well_formed additions ->
  forall master,
    keys (add_contributors master additions)
    = (keys master
       ++ filter (fun k => negb (tally_mem k master)) (keys additions))%list.
Proof.
  unfold add_contributors, well_formed.
  induction additions as [|[k0 v0] x IH]; intros Hwf master;
    cbn [fold_left keys map fst filter].
  - rewrite app_nil_r. reflexivity.
  - fold (keys x). inversion Hwf as [|? ? Hout Hrest]; subst.
    rewrite (IH Hrest), keys_add_one, <- app_assoc. f_equal.
    assert (Hfilter :
              filter (fun k => negb (tally_mem k
                                       (tally_incr k0 v0
                                          (tally_touch k0 master)))) (keys x)
              = filter (fun k => negb (tally_mem k master)) (keys x)).
    { apply filter_ext_in. intros k Hk. f_equal. apply mem_add_one.
      apply TallyFacts.handle_eqb_neq. intros ->. contradiction. }
    rewrite Hfilter. destruct (tally_mem k0 master); reflexivity.
Qed.

(** X10.  Merging a library's tally into the master tally keeps every
    contributor the master already has, in place, and appends behind
    them the contributors of the library that the master does not
    have, all of them and in the library's order; each contributor's
    weight afterwards is the sum of its weights in the two tallies;
    when all weights are positive before, they are positive after. *)
Theorem add_contributors_extends (master_list additions : tally) :
  well_formed additions -> positive master_list -> positive additions ->
  keys (add_contributors master_list additions)
  = (keys master_list
     ++ filter (fun k => negb (tally_mem k master_list)) (keys additions))%list
  /\ (forall k,
         tally_get k (add_contributors master_list additions)
         = oplus (tally_get k master_list) (tally_get k additions))
  /\ positive (add_contributors master_list additions).
Proof.
  intros Hwf Hm Ha. split; [apply keys_add_contributors; exact Hwf|].
  split; [intros k; apply (TallyFacts.get_add_contributors additions Hwf)|].
  intros k v. rewrite (TallyFacts.get_add_contributors additions Hwf).
  destruct (tally_get k master_list) as [x|] eqn:Hx;
    destruct (tally_get k additions) as [y|] eqn:Hy; cbn [oplus];
    intros Hv; inversion Hv; subst; clear Hv.
  - apply Hm in Hx. apply Ha in Hy. lia.
  - apply Hm in Hx. exact Hx.
  - apply Ha in Hy. exact Hy.
Qed.

Lemma add_contributors_extends_witness :
  keys (add_contributors Scenario_tallies.lib_a Scenario_tallies.lib_c)
  = (keys Scenario_tallies.lib_a
     ++ filter (fun k => negb (tally_mem k Scenario_tallies.lib_a))
               (keys Scenario_tallies.lib_c))%list
  /\ filter (fun k => negb (tally_mem k Scenario_tallies.lib_a))
            (keys Scenario_tallies.lib_c) <> [].
Proof.
  split; [|vm_compute; discriminate].
  refine (proj1 (add_contributors_extends Scenario_tallies.lib_a
                   Scenario_tallies.lib_c _ _ _)).
  - repeat constructor; simpl; intuition discriminate.
  - intros k v. simpl.
    repeat match goal with
           | |- context [handle_eqb ?a ?b] => destruct (handle_eqb a b)
           end; intros H; inversion H; lia.
  - intros k v. simpl.
    repeat match goal with
           | |- context [handle_eqb ?a ?b] => destruct (handle_eqb a b)
           end; intros H; inversion H; lia.
Defined.

(* ----------------------------------------------------------------- *)
(** ** The release composer, continued *)

Lemma release_step_links {Ext} (E : Env Ext) (st st' : release_scan)
  (line : string) (w w' : World Ext) :
  release_step E st line w = (Ok st', w') ->
  links_complete st -> links_complete st'.
Proof.
  unfold release_step. intros H HP.
  destruct (startswith "diff" line).
  { inversion H; subst. exact HP. }
  destruct (contains "index" line).
  { inversion H; subst. exact HP. }
  destruct (negb (startswith "+Subproject" line)).
  { inversion H; subst. exact HP. }
  apply bind_inv in H. destruct H as (index_line & w1 & _ & H).
  destruct (nth_error (split_ws index_line) 1) as [commit_range|];
    [|discriminate H].
  apply bind_inv in H. destruct H as (directory & w2 & _ & H).
  assert (Hgrow : forall added updated repo_url release_tag c,
             (forall n, In n added \/ In n updated ->
                        n = last (split_on "/" directory) ""
                        \/ In n (added_submodules st)
                        \/ In n (updated_submodules st)) ->
             links_complete
               (mkScan (current_submodule st) (current_index st) added updated
                  (store_set (last (split_on "/" directory) "")
                     (drop_last 4 repo_url ++ "/releases/" ++ release_tag)
                     (repo_links st)) c)).
  { intros added updated repo_url release_tag c Hin n Hn.
    cbn [added_submodules updated_submodules repo_links] in *.
    cbn [store_set store_get].
    destruct (String.eqb n (last (split_on "/" directory) "")) eqn:Heq.
    - exists repo_url, release_tag. reflexivity.
    - apply String.eqb_neq in Heq.
      destruct (Hin n Hn) as [Hnew|Hold]; [contradiction|].
      apply HP. exact Hold. }
  destruct (startswith "0000000" commit_range);
    [|destruct (endswith "0000000" commit_range)].
  - apply bind_inv in H. destruct H as (repo_url & w3 & _ & H).
    apply bind_inv in H. destruct H as (release_tag & w4 & _ & H).
    apply bind_inv in H. destruct H as (c & w5 & _ & H).
    inversion H; subst; clear H. apply Hgrow.
    intros n [Hn|Hn]; [|right; right; exact Hn].
    apply in_app_or in Hn. destruct Hn as [Hn|[Hn|[]]].
    + right. left. exact Hn.
    + left. symmetry. exact Hn.
  - inversion H; subst. exact HP.
  - apply bind_inv in H. destruct H as (repo_url & w3 & _ & H).
    apply bind_inv in H. destruct H as (release_tag & w4 & _ & H).
    apply bind_inv in H. destruct H as (c & w5 & _ & H).
    inversion H; subst; clear H. apply Hgrow.
    intros n [Hn|Hn]; [right; left; exact Hn|].
    apply in_app_or in Hn. destruct Hn as [Hn|[Hn|[]]].
    + right. right. exact Hn.
    + left. symmetry. exact Hn.
Qed.

(** What a turn of the loop that completes does to the two lists and
    to the links: nothing, or it lists one library with the link of
    this turn. *)
Lemma release_step_turn {Ext} (E : Env Ext) (st st' : release_scan)
  (line : string) (w w' : World Ext) :
  release_step E st line w = (Ok st', w') ->
  (added_submodules st' = added_submodules st
   /\ updated_submodules st' = updated_submodules st
   /\ repo_links st' = repo_links st)
  \/ (startswith "+Subproject" line = true
      /\ exists library link,
           listing_turn E st w library link
           /\ repo_links st' = store_set library link (repo_links st)
           /\ (forall n,
                  In n (added_submodules st') \/ In n (updated_submodules st')
                  -> n = library
                     \/ In n (added_submodules st)
                     \/ In n (updated_submodules st))).
Proof.
  unfold release_step. intros H.
  destruct (startswith "diff" line).
  { unfold ret in H. injection H as <- <-. left. repeat split. }
  destruct (contains "index" line).
  { unfold ret in H. injection H as <- <-. left. repeat split. }
  destruct (startswith "+Subproject" line) eqn:Hcandidate; cbn [negb] in H.
  2:{ unfold ret in H. injection H as <- <-. left. repeat split. }
  apply bind_inv in H. destruct H as (index_line & w1 & Hindex & H).
  destruct (current_index st) as [il|] eqn:Hci; [|discriminate Hindex].
  cbn [deref] in Hindex. unfold ret in Hindex. injection Hindex as <- <-.
  destruct (nth_error (split_ws il) 1) as [commit_range|] eqn:Hrange;
    [|discriminate H].
  apply bind_inv in H. destruct H as (directory & w2 & Hdir & H).
  destruct (current_submodule st) as [dir|] eqn:Hcs; [|discriminate Hdir].
  cbn [deref] in Hdir. unfold ret in Hdir. injection Hdir as <- <-.
  destruct (startswith "0000000" commit_range) eqn:Hadded;
    [|destruct (endswith "0000000" commit_range) eqn:Hremoved].
  - apply bind_inv in H. destruct H as (repo_url & w3 & Hurl & H).
    apply bind_inv in H. destruct H as (release_tag & w4 & Htag & H).
    apply bind_inv in H. destruct H as (c & w5 & _ & H).
    unfold ret in H. injection H as <- <-.
    right. split; [reflexivity|].
    exists (last (split_on "/" dir) ""),
           (drop_last 4 repo_url ++ "/releases/" ++ release_tag).
    split; [|split; [reflexivity|]].
    + exists il, commit_range, dir, repo_url, release_tag, w3, w4.
      unfold new_reference. rewrite Hadded.
      repeat split; try assumption; try reflexivity. left. reflexivity.
    + cbn [added_submodules updated_submodules].
      intros n [Hn|Hn]; [|right; right; exact Hn].
      apply in_app_or in Hn. destruct Hn as [Hn|[Hn|[]]].
      * right. left. exact Hn.
      * left. symmetry. exact Hn.
  - unfold ret in H. injection H as <- <-. left. repeat split.
  - apply bind_inv in H. destruct H as (repo_url & w3 & Hurl & H).
    apply bind_inv in H. destruct H as (release_tag & w4 & Htag & H).
    apply bind_inv in H. destruct H as (c & w5 & _ & H).
    unfold ret in H. injection H as <- <-.
    right. split; [reflexivity|].
    exists (last (split_on "/" dir) ""),
           (drop_last 4 repo_url ++ "/releases/" ++ release_tag).
    split; [|split; [reflexivity|]].
    + exists il, commit_range, dir, repo_url, release_tag, w3, w4.
      unfold new_reference. rewrite Hadded.
      repeat split; try assumption; try reflexivity. right. exact Hremoved.
    + cbn [added_submodules updated_submodules].
      intros n [Hn|Hn]; [right; left; exact Hn|].
      apply in_app_or in Hn. destruct Hn as [Hn|[Hn|[]]].
      * right. right. exact Hn.
      * left. symmetry. exact Hn.
Qed.

(** X11.  When the loop over the diff completes, every library it has
    put on the added or on the updated list has its link, so the
    release description can look up each listed library.  The link was
    stored in a turn of this very run, on a line that announces a new
    commit of a subproject: it is the remote URL of the library's
    directory, read in that turn, without its last four characters,
    followed by [/releases/] and the tag (or else the commit) of the
    new end of the library's range, resolved in that turn. *)
Theorem release_loop_links {Ext} (E : Env Ext) (lines : list string)
  (contributors : tally) (w w' : World Ext) (st : release_scan) :
  for_each lines (release_step E) (mkScan None None [] [] [] contributors) w
  = (Ok st, w') ->
  forall library,
    In library (added_submodules st) \/ In library (updated_submodules st) ->
    exists pre line post st1 w1 link,
      lines = (pre ++ line :: post)%list
      /\ startswith "+Subproject" line = true
      /\ for_each pre (release_step E)
                  (mkScan None None [] [] [] contributors) w
         = (Ok st1, w1)
      /\ listing_turn E st1 w1 library link
      /\ store_get library (repo_links st) = Some link
      /\ markdown_link (repo_links st) library
         = "[" ++ library ++ "](" ++ link ++ ")".
Proof.
  revert st w'. induction lines as [|x l IH] using rev_ind;
    intros st w' Hloop library Hin.
  - cbn [for_each] in Hloop. unfold ret in Hloop. injection Hloop as <- <-.
    destruct Hin as [[]|[]].
  - rewrite for_each_app in Hloop. apply bind_inv in Hloop.
    destruct Hloop as (st1 & w1 & Hpre & Hlast).
    cbn [for_each] in Hlast. apply bind_inv in Hlast.
    destruct Hlast as (st2 & w2 & Hstep & Hret).
    unfold ret in Hret. injection Hret as <- <-.
    assert (Hold : In library (added_submodules st1)
                   \/ In library (updated_submodules st1) ->
                   store_get library (repo_links st2)
                   = store_get library (repo_links st1) ->
                   exists pre line post st0 w0 link,
                     (l ++ [x])%list = (pre ++ line :: post)%list
                     /\ startswith "+Subproject" line = true
                     /\ for_each pre (release_step E)
                                 (mkScan None None [] [] [] contributors) w
                        = (Ok st0, w0)
                     /\ listing_turn E st0 w0 library link
                     /\ store_get library (repo_links st2) = Some link
                     /\ markdown_link (repo_links st2) library
                        = "[" ++ library ++ "](" ++ link ++ ")").
    { intros Hin1 Hsame.
      destruct (IH st1 w1 Hpre library Hin1)
        as (pre & line & post & st0 & w0 & link & -> & Hline & Hrun & Hturn
            & Hlink & _).
      exists pre, line, (post ++ [x])%list, st0, w0, link.
      split; [rewrite <- app_assoc; reflexivity|].
      split; [exact Hline|]. split; [exact Hrun|]. split; [exact Hturn|].
      rewrite Hsame. split; [exact Hlink|].
      unfold markdown_link. rewrite Hsame, Hlink. reflexivity. }
    destruct (release_step_turn E st1 st2 x w1 w2 Hstep)
      as [(Ha & Hu & Hl)
         |(Hline & lib & link & Hturn & Hl & Hnames)].
    + apply Hold; [rewrite <- Ha, <- Hu; exact Hin | rewrite Hl; reflexivity].
    + destruct (String.eqb library lib) eqn:Heq.
      * apply String.eqb_eq in Heq. subst lib.
        exists l, x, [], st1, w1, link.
        split; [reflexivity|]. split; [exact Hline|].
        split; [exact Hpre|]. split; [exact Hturn|].
        assert (Hget : store_get library (repo_links st2) = Some link).
        { rewrite Hl. cbn [store_set store_get].
          rewrite String.eqb_refl. reflexivity. }
        split; [exact Hget|].
        unfold markdown_link. rewrite Hget. reflexivity.
      * apply Hold.
        -- destruct (Hnames library Hin) as [Hnew|Hlisted];
             [|exact Hlisted].
           apply String.eqb_neq in Heq. contradiction.
        -- rewrite Hl. cbn [store_set store_get]. rewrite Heq. reflexivity.
Qed.

Lemma release_loop_links_witness :
  exists pre line post st1 w1 link,
    Scenario_release.diff_lines = (pre ++ line :: post)%list
    /\ startswith "+Subproject" line = true
    /\ for_each pre (release_step (Scripted.env_of Scenario_release.s))
                (mkScan None None [] [] [] []) Scenario_release.inside
       = (Ok st1, w1)
    /\ listing_turn (Scripted.env_of Scenario_release.s) st1 w1 "foo" link
    /\ store_get "foo" (repo_links Scenario_release.scanned) = Some link
    /\ markdown_link (repo_links Scenario_release.scanned) "foo"
       = "[" ++ "foo" ++ "](" ++ link ++ ")".
Proof.
  apply (release_loop_links (Scripted.env_of Scenario_release.s)
           Scenario_release.diff_lines [] Scenario_release.inside
           (snd (for_each Scenario_release.diff_lines
                   (release_step (Scripted.env_of Scenario_release.s))
                   (mkScan None None [] [] [] [])
                   Scenario_release.inside))
           Scenario_release.scanned).
  - vm_compute. reflexivity.
  - right. left. reflexivity.
Defined.

Section NoPostMore.

Variable Ext : Type.
Variable E : Env Ext.

Lemma no_post_git_out (argv : list string) : no_post (git_out E argv).
Proof.
  unfold git_out. apply no_post_bind; [apply no_post_git_query|].
  intros [code output]. destruct (code =? 0)%nat; intros w; reflexivity.
Qed.

Lemma no_post_Submodule {A} (directory : string) (body : M Ext A) :
  no_post body -> no_post (Submodule E directory body).
Proof.
  intros Hbody. unfold Submodule.
  apply no_post_bind; [intros w; reflexivity|]. intros original.
  apply no_post_bind; [apply no_post_chdir|]. intros _.
  apply no_post_finally; [exact Hbody | apply no_post_chdir_abs].
Qed.

Lemma no_post_commit_to_tag (repo_path commit : string) :
  no_post (commit_to_tag E repo_path commit).
Proof.
  unfold commit_to_tag. apply no_post_Submodule.
  apply no_post_bind; [apply no_post_git_query|].
  intros [code output].
  destruct (code =? 0)%nat; [intros w; reflexivity|].
  destruct (code =? 128)%nat; intros w; reflexivity.
Qed.

Lemma no_post_repo_remote_url (repo_path : string) :
  no_post (repo_remote_url E repo_path).
Proof.
  unfold repo_remote_url. apply no_post_Submodule.
  apply no_post_bind; [apply no_post_git_out|].
  intros output w. reflexivity.
Qed.

Lemma no_post_release_step (st : release_scan) (line : string) :
  no_post (release_step E st line).
Proof.
  unfold release_step.
  destruct (startswith "diff" line); [intros w; reflexivity|].
  destruct (contains "index" line); [intros w; reflexivity|].
  destruct (negb (startswith "+Subproject" line)); [intros w; reflexivity|].
  apply no_post_bind.
  { destruct (current_index st); intros w; reflexivity. }
  intros index_line.
  destruct (nth_error (split_ws index_line) 1) as [commit_range|];
    [|intros w; reflexivity].
  apply no_post_bind.
  { destruct (current_submodule st); intros w; reflexivity. }
  intros directory.
  assert (Hrest : forall added updated cr,
             no_post
               (repo_url <- repo_remote_url E directory ;;
                release_tag <-
                  commit_to_tag E directory (last (split_on "." cr) "") ;;
                contributors <-
                  Submodule E directory
                    (name <- lift (repo_name repo_url) ;;
                     submodule_contributors <- get_contributors E name cr ;;
                     ret (add_contributors (contributors st)
                                           submodule_contributors)) ;;
                ret (mkScan (current_submodule st) (current_index st)
                            added updated
                            (store_set (last (split_on "/" directory) "")
                               (drop_last 4 repo_url ++ "/releases/"
                                ++ release_tag)
                               (repo_links st))
                            contributors))).
  { intros added updated cr.
    apply no_post_bind; [apply no_post_repo_remote_url|]. intros repo_url.
    apply no_post_bind; [apply no_post_commit_to_tag|]. intros release_tag.
    apply no_post_bind; [|intros c w; reflexivity].
    apply no_post_Submodule.
    apply no_post_bind; [intros w; reflexivity|]. intros name.
    apply no_post_bind; [apply no_post_get_contributors|].
    intros c w. reflexivity. }
  destruct (startswith "0000000" commit_range);
    [apply Hrest|destruct (endswith "0000000" commit_range)];
    [intros w; reflexivity | apply Hrest].
Qed.

Lemma no_post_repo_sha : no_post (repo_sha E).
Proof.
  unfold repo_sha. apply no_post_bind; [apply no_post_git_out|].
  intros version w. reflexivity.
Qed.

End NoPostMore.

(** X12.  A run of [new_release] calls the release-creation endpoint at
    most once, on the bundle's own releases address, and the payload it
    sends is never a draft and never a prerelease. *)
Theorem new_release_posts_once {Ext} (E : Env Ext)
  (bundle bundle_path : string) (w : World Ext) :
  posts (snd (new_release E bundle bundle_path w)) = posts w
  \/ exists payload,
       posts (snd (new_release E bundle bundle_path w))
       = GithubPost (releases_url bundle) payload :: posts w
       /\ draft payload = false /\ prerelease payload = false.
Proof.
  remember (new_release E bundle bundle_path w) as r eqn:Hr.
  unfold new_release in Hr.
  pose proof (no_post_release_prelude Ext E bundle bundle_path w) as Hp.
  unfold bind at 1 in Hr.
  destruct (release_prelude E bundle bundle_path w)
    as [[[[wd last_tag] c]|e] w1]; cbn [snd] in Hp;
    [|subst r; left; exact Hp].
  rewrite <- Hp. clear Hp.
  pose proof (no_post_git_out Ext E
                ["diff"; "--submodule=short"; last_tag ++ ".."] w1) as Hd.
  unfold bind at 1 in Hr.
  destruct (git_out E ["diff"; "--submodule=short"; last_tag ++ ".."] w1)
    as [[output|e] w2]; cbn [snd] in Hd; [|subst r; left; exact Hd].
  rewrite <- Hd. clear Hd.
  destruct (String.eqb (strip output) ""); [subst r; left; reflexivity|].
  pose proof (no_post_for_each Ext (release_step E)
                (split_on LF (strip output))
                (no_post_release_step Ext E)
                (mkScan None None [] [] [] c) w2) as Hl.
  unfold bind at 1 in Hr.
  destruct (for_each (split_on LF (strip output)) (release_step E)
                     (mkScan None None [] [] [] c) w2)
    as [[st|e] w3]; cbn [snd] in Hl; [|subst r; left; exact Hl].
  rewrite <- Hl. clear Hl.
  destruct st as [cs ci added updated links contributors].
  unfold bind at 1 in Hr. unfold today at 1 in Hr. cbv beta iota in Hr.
  pose proof (no_post_repo_sha Ext E w3) as Hs.
  unfold bind at 1 in Hr.
  destruct (repo_sha E w3) as [[sha|e] w4]; cbn [snd] in Hs;
    [|subst r; left; exact Hs].
  rewrite <- Hs. clear Hs.
  unfold bind at 1 in Hr. unfold today at 1 in Hr. cbv beta iota in Hr.
  unfold bind at 1 in Hr. unfold today at 1 in Hr. cbv beta iota in Hr.
  unfold bind at 1 in Hr. unfold today at 1 in Hr. cbv beta iota in Hr.
  unfold bind at 1 in Hr. unfold print at 1 in Hr. cbv beta iota in Hr.
  unfold bind at 1 in Hr. unfold print at 1 in Hr. cbv beta iota in Hr.
  unfold bind at 1 in Hr. unfold github_post_release at 1 in Hr.
  cbn [cwd out redis files ext calls tag_name body] in Hr.
  match type of Hr with
  | context [github_post E ?x ?u ?r] =>
      destruct (github_post E x u r) as [[resp|e] e']
  end.
  - match type of Hr with
    | r = bind ?k ?f ?v =>
        assert (Hk : no_post (bind k f))
    end.
    { apply no_post_bind.
      - destruct (negb (ok resp)); intros v; reflexivity.
      - intros _. apply no_post_chdir_abs. }
    subst r. right. eexists. split.
    + rewrite Hk. reflexivity.
    + split; reflexivity.
  - subst r. right. eexists. split; [reflexivity|]. split; reflexivity.
Qed.

(** X13.  A release that the hosting service refuses is reported, not
    raised.  When the diff is not empty, the loop over it completes and
    the head commit is read, [new_release] posts the payload once,
    prints the tag and the body, and returns normally, in the working
    directory it saved on entry (which must still be there), whether
    the response is a success or not; for a refusal it also prints that
    the creation failed, the payload, the address of the request and
    the text of the response. *)
Theorem new_release_publishes {Ext} (E : Env Ext)
  (bundle bundle_path : string) (w w1 w3 : World Ext)
  (working_directory last_tag output sha_out : string)
  (contributors : tally) (st : release_scan) (resp : response) (e' : Ext) :
  release_prelude E bundle bundle_path w
  = (Ok (working_directory, last_tag, contributors), w1) ->
  git_read E (ext w1) (files w1) (cwd w1) (DIFF_SINCE last_tag)
  = (0, output) ->
  strip output <> "" ->
  for_each (split_on LF (strip output)) (release_step E)
           (mkScan None None [] [] [] contributors)
           (record_call (GitCall (cwd w1) (DIFF_SINCE last_tag)) w1)
  = (Ok st, w3) ->
  git_read E (ext w3) (files w3) (cwd w3) HEAD_SHA = (0, sha_out) ->
  github_post E (ext w3) (releases_url bundle)
              (release_payload E (ext w3) st (strip sha_out))
  = (Ok resp, e') ->
  sys_isdir E e' working_directory = true ->
  new_release E bundle bundle_path w
  = (Ok tt,
     mkWorld working_directory
       ((if ok resp then []
         else [PText (text resp); PText (request_url resp);
               PRelease (release_payload E (ext w3) st (strip sha_out));
               PText "Failed to create release"])
        ++ PText (body (release_payload E (ext w3) st (strip sha_out)))
        :: PText ("Releasing "
                  ++ tag_name (release_payload E (ext w3) st (strip sha_out)))
        :: out w3)%list
       (redis w3) (files w3) e'
       (GithubPost (releases_url bundle)
                   (release_payload E (ext w3) st (strip sha_out))
        :: GitCall (cwd w3) HEAD_SHA :: calls w3)).
Proof.
  intros Hprelude Hdiff Hblank Hloop Hsha Hpost Hdir.
  apply String.eqb_neq in Hblank.
  unfold new_release. rewrite (bind_ok Ext _ _ _ _ _ Hprelude).
  unfold git_out at 1, git_query at 1. unfold bind at 1 2.
  fold (DIFF_SINCE last_tag). rewrite Hdiff. cbn [Nat.eqb ret].
  rewrite Hblank.
  rewrite (bind_ok Ext _ _ _ _ _ Hloop).
  destruct st as [cs ci added updated links tally_].
  unfold bind at 1. unfold today at 1. cbv beta iota.
  unfold repo_sha, git_out, git_query. fold HEAD_SHA.
  unfold bind at 1 2 3. rewrite Hsha. cbn [Nat.eqb ret].
  unfold bind at 1. unfold today at 1. cbv beta iota.
  unfold bind at 1. unfold today at 1. cbv beta iota.
  unfold bind at 1. unfold today at 1. cbv beta iota.
  unfold bind at 1. unfold print at 1. cbv beta iota.
  unfold bind at 1. unfold print at 1. cbv beta iota.
  unfold bind at 1. unfold github_post_release at 1.
  cbn [cwd out redis files ext calls tag_name body record_call].
  fold (releases_url bundle).
  change (github_post E (ext w3) (releases_url bundle) _)
    with (github_post E (ext w3) (releases_url bundle)
            (release_payload E (ext w3)
               (mkScan cs ci added updated links tally_) (strip sha_out))).
  rewrite Hpost.
  unfold bind, print, print_release, chdir_abs, ret.
  destruct (ok resp); cbn [negb cwd out redis files ext calls];
    rewrite Hdir; reflexivity.
Qed.

Lemma new_release_publishes_witness :
  fst (new_release (Scripted.env_of Scenario_rejected.s)
         "CircuitPython_Community_Bundle" Scenario_release.bundle_dir
         Scenario_release.w0)
  = Ok tt
  /\ firstn 4 (out (snd (new_release (Scripted.env_of Scenario_rejected.s)
                           "CircuitPython_Community_Bundle"
                           Scenario_release.bundle_dir Scenario_release.w0)))
     = [PText "Validation Failed";
        PText (request_url Scenario_rejected.refusal);
        PRelease (release_payload (Scripted.env_of Scenario_rejected.s) tt
                    Scenario_release.scanned
                    "0123456789abcdef0123456789abcdef01234567");
        PText "Failed to create release"].
Proof.
  pose proof (new_release_publishes (Scripted.env_of Scenario_rejected.s)
                "CircuitPython_Community_Bundle" Scenario_release.bundle_dir
                Scenario_release.w0
                (snd (release_prelude (Scripted.env_of Scenario_rejected.s)
                        "CircuitPython_Community_Bundle"
                        Scenario_release.bundle_dir Scenario_release.w0))
                (snd (for_each Scenario_release.diff_lines
                        (release_step (Scripted.env_of Scenario_rejected.s))
                        (mkScan None None [] [] [] [])
                        (record_call
                           (GitCall Scenario_release.bundle_dir
                              (DIFF_SINCE "20261101"))
                           (snd (release_prelude
                                   (Scripted.env_of Scenario_rejected.s)
                                   "CircuitPython_Community_Bundle"
                                   Scenario_release.bundle_dir
                                   Scenario_release.w0)))))
                "/work" "20261101"
                (String.concat NL Scenario_release.diff_lines ++ NL)
                ("0123456789abcdef0123456789abcdef01234567" ++ NL)
                [] Scenario_release.scanned Scenario_rejected.refusal tt) as H.
  rewrite H.
  - split; reflexivity.
  - vm_compute. reflexivity.
  - reflexivity.
  - discriminate.
  - vm_compute. reflexivity.
  - reflexivity.
  - reflexivity.
  - reflexivity.
Defined.

(* ----------------------------------------------------------------- *)
(** ** The working directory *)

Section Stays.

Variable Ext : Type.
Variable E : Env Ext.

Lemma stays_bind {A B} (m : M Ext A) (f : A -> M Ext B) :
  stays m -> (forall a, stays (f a)) -> stays (bind m f).
Proof.
  intros Hm Hf w. unfold bind. specialize (Hm w).
  destruct (m w) as [[a|e] w1]; simpl in *.
  - rewrite Hf. assumption.
  - assumption.
Qed.

Lemma stays_for_each {A S} (body : S -> A -> M Ext S) (l : list A) :
  (forall s x, stays (body s x)) -> forall s, stays (for_each l body s).
Proof.
  intros Hbody. induction l as [|x l IH]; intros s.
  - intros w. reflexivity.
  - simpl. apply stays_bind; [apply Hbody | apply IH].
Qed.

Lemma stays_try_except {A} (m : M Ext A) (h : exn -> option (M Ext A)) :
  stays m -> (forall e k, h e = Some k -> stays k) -> stays (try_except m h).
Proof.
  intros Hm Hh w. unfold try_except. specialize (Hm w).
  destruct (m w) as [[a|e] w1]; simpl in *; [assumption|].
  destruct (h e) as [k|] eqn:Hk; [|assumption].
  rewrite (Hh e k Hk). assumption.
Qed.

Lemma stays_contributors_step (repo : string) (d : tally) (l : string) :
  stays (contributors_step E repo d l).
Proof.
  unfold contributors_step.
  destruct (split_on "," l) as [|sha [|ae [|ce [|]]]];
    try (intros w; reflexivity).
  apply stays_bind; [intros w; reflexivity|]. intros a.
  apply stays_bind; [intros w; reflexivity|]. intros c.
  apply stays_bind; [|intros [a' c'] w; reflexivity].
  destruct (cache_miss a || cache_miss c); [|intros w; reflexivity].
  apply stays_bind; [intros w; reflexivity|]. intros info.
  apply stays_bind.
  - destruct (ci_author info); intros w; reflexivity.
  - intros a'. apply stays_bind; [|intros c' w; reflexivity].
    destruct (ci_committer info); intros w; reflexivity.
Qed.

Lemma stays_get_contributors (repo commit_range : string) :
  stays (get_contributors E repo commit_range).
Proof.
  unfold get_contributors.
  apply stays_bind; [intros w; reflexivity|]. intros [code output].
  apply stays_bind.
  - destruct (code =? 0)%nat; [intros w; reflexivity|].
    destruct (code =? 128)%nat; intros w; reflexivity.
  - intros _. destruct (String.eqb (strip output) "").
    + intros w. reflexivity.
    + apply stays_for_each. intros s x. apply stays_contributors_step.
Qed.

Lemma stays_check_lib_links_md (bundle_path : string) :
  stays (check_lib_links_md E bundle_path).
Proof.
  unfold check_lib_links_md.
  destruct (negb (contains "Adafruit_CircuitPython_Bundle" bundle_path));
    [intros w; reflexivity|].
  apply stays_bind; [intros w; reflexivity|]. intros submodules.
  apply stays_bind.
  - apply stays_try_except.
    + apply stays_bind; [|intros t w; reflexivity].
      intros w. unfold read_file.
      destruct (store_get _ (files w)); reflexivity.
    + intros e k. destruct e; try discriminate.
      intros H. injection H as <-. intros w. reflexivity.
  - intros read_lines.
    apply stays_bind; [intros w; reflexivity|]. intros [[wd wh] um].
    apply stays_bind; intros; intros w; reflexivity.
Qed.

(** What [release_prelude] hands over when it completes: the directory
    the program was in, and a process that is inside the bundle. *)
Lemma release_prelude_enters (bundle bundle_path : string)
  (w w1 : World Ext) (working_directory last_tag : string)
  (contributors : tally) :
  release_prelude E bundle bundle_path w
  = (Ok (working_directory, last_tag, contributors), w1) ->
  working_directory = cwd w /\ cwd w1 = path_join (cwd w) bundle_path.
Proof.
  unfold release_prelude. intros H.
  apply bind_inv in H. destruct H as (wd & w2 & Hwd & H).
  unfold getcwd in Hwd. injection Hwd as <- <-.
  apply bind_inv in H. destruct H as ([] & w3 & Hcd & H).
  apply bind_inv in H. destruct H as ([] & w4 & Hpr & H).
  apply bind_inv in H. destruct H as (tag & w5 & Htag & H).
  apply bind_inv in H. destruct H as (c & w6 & Hc & H).
  unfold ret in H. injection H as <- <- <- <-.
  split; [reflexivity|].
  pose proof (stays_get_contributors ("adafruit/" ++ bundle) (tag ++ "..") w5)
    as Hs.
  rewrite Hc in Hs. simpl in Hs. rewrite Hs.
  unfold github_get_release_tag in Htag. injection Htag as _ <-.
  unfold print in Hpr. injection Hpr as <-.
  unfold chdir in Hcd.
  destruct (negb (String.eqb bundle_path "")
            && sys_isdir E (ext w) (path_join (cwd w) bundle_path));
    [|discriminate].
  injection Hcd as <-. reflexivity.
Qed.

End Stays.

(** X14.  An update of the bundle that completes ends in the directory
    in which it was started, whatever the libraries' status report and
    the listing document were. *)
Theorem update_bundle_returns_home {Ext} (E : Env Ext) (bundle_path : string)
  (w w' : World Ext) (updates : list update) :
  update_bundle E bundle_path w = (Ok updates, w') -> cwd w' = cwd w.
Proof.
  unfold update_bundle. intros H.
  apply bind_inv in H. destruct H as ([wd status] & w1 & Hst & H).
  apply bind_inv in H. destruct H as (us & w2 & _ & H).
  apply bind_inv in H. destruct H as ([] & w3 & Hcd & H).
  apply bind_inv in H. destruct H as (ls & w4 & Hls & H).
  unfold ret in H. injection H as _ <-.
  pose proof (stays_check_lib_links_md Ext E bundle_path w3) as Hs.
  rewrite Hls in Hs. simpl in Hs. rewrite Hs.
  unfold chdir_abs in Hcd.
  destruct (sys_isdir E (ext w2) wd); [|discriminate].
  injection Hcd as <-. cbn [cwd].
  unfold bundle_status in Hst.
  apply bind_inv in Hst. destruct Hst as (wd0 & w5 & Hwd & Hst).
  unfold getcwd in Hwd. injection Hwd as <- <-.
  apply bind_inv in Hst. destruct Hst as ([] & w6 & _ & Hst).
  apply bind_inv in Hst. destruct Hst as ([] & w7 & _ & Hst).
  apply bind_inv in Hst. destruct Hst as (c & w8 & _ & Hst).
  apply bind_inv in Hst. destruct Hst as (o & w9 & _ & Hst).
  unfold ret in Hst. injection Hst as <- _ _. reflexivity.
Qed.

Lemma update_bundle_returns_home_witness :
  cwd (snd (update_bundle (Scripted.env_of Scenario_foo.s)
              "/work/.bundles/CircuitPython_Community_Bundle"
              (Scripted.start "/work")))
  = "/work".
Proof.
  apply (update_bundle_returns_home (Scripted.env_of Scenario_foo.s)
           "/work/.bundles/CircuitPython_Community_Bundle"
           (Scripted.start "/work") _
           [("https://github.com/adafruit/foo", "abc123", "def456",
             "  > bumped version")]).
  vm_compute. reflexivity.
Defined.

(** X15.  When there is nothing to release, [new_release] returns from
    inside the bundle: the working directory it saved on entry, the one
    the program was in, is not entered again. *)
Theorem new_release_idle_stays_inside {Ext} (E : Env Ext)
  (bundle bundle_path : string) (w w1 : World Ext)
  (working_directory last_tag output : string) (contributors : tally) :
  release_prelude E bundle bundle_path w
  = (Ok (working_directory, last_tag, contributors), w1) ->
  git_read E (ext w1) (files w1) (cwd w1) (DIFF_SINCE last_tag)
  = (0, output) ->
  strip output = "" ->
  working_directory = cwd w
  /\ fst (new_release E bundle bundle_path w) = Ok tt
  /\ cwd (snd (new_release E bundle bundle_path w))
     = path_join (cwd w) bundle_path.
Proof.
  intros Hprelude Hdiff Hblank.
  destruct (release_prelude_enters Ext E _ _ _ _ _ _ _ Hprelude) as [Hwd Hin].
  split; [exact Hwd|].
  unfold new_release. rewrite (bind_ok Ext _ _ _ _ _ Hprelude).
  unfold git_out, git_query, bind. fold (DIFF_SINCE last_tag).
  rewrite Hdiff. cbn [Nat.eqb ret]. rewrite Hblank.
  split; [reflexivity | exact Hin].
Qed.

Lemma new_release_idle_stays_inside_witness :
  "/work" = cwd (Scripted.start "/work")
  /\ fst (new_release (Scripted.env_of Scenario_released.s)
            "CircuitPython_Community_Bundle"
            "/work/.bundles/CircuitPython_Community_Bundle"
            (Scripted.start "/work"))
     = Ok tt
  /\ cwd (snd (new_release (Scripted.env_of Scenario_released.s)
                 "CircuitPython_Community_Bundle"
                 "/work/.bundles/CircuitPython_Community_Bundle"
                 (Scripted.start "/work")))
     = "/work/.bundles/CircuitPython_Community_Bundle".
Proof.
  apply (new_release_idle_stays_inside (Scripted.env_of Scenario_released.s)
           "CircuitPython_Community_Bundle"
           "/work/.bundles/CircuitPython_Community_Bundle"
           (Scripted.start "/work")
           (snd (release_prelude (Scripted.env_of Scenario_released.s)
                   "CircuitPython_Community_Bundle"
                   "/work/.bundles/CircuitPython_Community_Bundle"
                   (Scripted.start "/work")))
           "/work" "20261101" NL []).
  - vm_compute. reflexivity.
  - reflexivity.
  - reflexivity.
Defined.

(* ----------------------------------------------------------------- *)
(** ** Fetching a bundle *)

(** The run of [fetch_bundle] on a bundle that is already on disk. *)
Lemma fetch_bundle_on_disk_run {Ext} (E : Env Ext)
  (bundle bundle_path : string) (w : World Ext) :
  bundle_path <> "" ->
  sys_isdir E (ext w) (path_join (cwd w) bundle_path) = true ->
  (exists done,
     calls (snd (fetch_bundle E bundle bundle_path w))
     = (List.rev done ++ calls w)%list
     /\ exists rest, REFRESH (path_join (cwd w) bundle_path)
                     = (done ++ rest)%list)
  /\ cwd (snd (fetch_bundle E bundle bundle_path w))
     = match fst (fetch_bundle E bundle bundle_path w) with
       | Ok _ => cwd w
       | Raise _ => path_join (cwd w) bundle_path
       end.
Proof.
  intros Hpath Hdir. apply String.eqb_neq in Hpath.
  unfold REFRESH.
  remember (fetch_bundle E bundle bundle_path w) as r eqn:Hr.
  unfold fetch_bundle in Hr.
  unfold bind at 1 in Hr. unfold os_path_isdir at 1 in Hr. rewrite Hdir in Hr.
  cbn [negb] in Hr. unfold bind at 1 in Hr. unfold ret at 1 in Hr.
  unfold bind at 1 in Hr. unfold getcwd at 1 in Hr.
  unfold bind at 1 in Hr. unfold chdir at 1 in Hr.
  rewrite Hpath, Hdir in Hr. cbn [negb andb] in Hr.
  set (dir := path_join (cwd w) bundle_path) in *.
  unfold bind at 1 in Hr. unfold git_do at 1, bind at 1, git_run at 1 in Hr.
  cbn [cwd out redis files ext calls] in Hr.
  destruct (git_exec E (ext w) (files w) dir ["pull"]) as [c1 [e1 f1]].
  destruct (c1 =? 0)%nat; cbn [ret raise] in Hr;
    [|subst r; cbn [fst snd cwd calls];
      split; [exists [GitCall dir ["pull"]];
              split; [reflexivity|eexists; reflexivity]
             | reflexivity]].
  unfold bind at 1 in Hr. unfold git_do at 1, bind at 1, git_run at 1 in Hr.
  cbn [cwd out redis files ext calls] in Hr.
  destruct (git_exec E e1 f1 dir ["submodule"; "init"]) as [c2 [e2 f2]].
  destruct (c2 =? 0)%nat; cbn [ret raise] in Hr;
    [|subst r; cbn [fst snd cwd calls];
      split; [exists [GitCall dir ["pull"]; GitCall dir ["submodule"; "init"]];
              split; [reflexivity|eexists; reflexivity]
             | reflexivity]].
  unfold bind at 1 in Hr. unfold git_do at 1, bind at 1, git_run at 1 in Hr.
  cbn [cwd out redis files ext calls] in Hr.
  destruct (git_exec E e2 f2 dir ["submodule"; "update"]) as [c3 [e3 f3]].
  destruct (c3 =? 0)%nat; cbn [ret raise] in Hr;
    [|subst r; cbn [fst snd cwd calls];
      split; [exists (REFRESH dir); split; [reflexivity|exists []; reflexivity]
             | reflexivity]].
  unfold chdir_abs in Hr. cbn [cwd out redis files ext calls] in Hr.
  destruct (sys_isdir E e3 (cwd w)); subst r; cbn [fst snd cwd calls];
    (split; [exists (REFRESH dir); split; [reflexivity|exists []; reflexivity]
            | reflexivity]).
Qed.

(** X16.  A bundle that is already on disk is never cloned again.
    [fetch_bundle] runs inside the bundle the pull and the two submodule
    commands, in this order, each only if the one before has succeeded,
    and nothing else.  The first command that fails ends the run with
    its exit status as the error; when all three succeed the run
    completes, unless the directory it started from is gone. *)
Theorem fetch_bundle_existing {Ext} (E : Env Ext)
  (bundle bundle_path : string) (w : World Ext)
  (done : list call) (code : nat) (e' : Ext) (f' : store) :
  bundle_path <> "" ->
  sys_isdir E (ext w) (path_join (cwd w) bundle_path) = true ->
  run_in_order E (path_join (cwd w) bundle_path)
    [["pull"]; ["submodule"; "init"]; ["submodule"; "update"]]
    (ext w) (files w)
  = (done, code, (e', f')) ->
  fst (fetch_bundle E bundle bundle_path w)
  = (if (code =? 0)%nat
     then if sys_isdir E e' (cwd w) then Ok tt else Raise (OSError (cwd w))
     else Raise (ErrorReturnCode code))
  /\ calls (snd (fetch_bundle E bundle bundle_path w))
     = (done ++ calls w)%list
  /\ ext (snd (fetch_bundle E bundle bundle_path w)) = e'
  /\ files (snd (fetch_bundle E bundle bundle_path w)) = f'
  /\ out (snd (fetch_bundle E bundle bundle_path w)) = out w
  /\ redis (snd (fetch_bundle E bundle bundle_path w)) = redis w.
Proof.
  intros Hpath Hdir Hrun. apply String.eqb_neq in Hpath.
  remember (fetch_bundle E bundle bundle_path w) as r eqn:Hr.
  unfold fetch_bundle in Hr.
  unfold bind at 1 in Hr. unfold os_path_isdir at 1 in Hr. rewrite Hdir in Hr.
  cbn [negb] in Hr. unfold bind at 1 in Hr. unfold ret at 1 in Hr.
  unfold bind at 1 in Hr. unfold getcwd at 1 in Hr.
  unfold bind at 1 in Hr. unfold chdir at 1 in Hr.
  rewrite Hpath, Hdir in Hr. cbn [negb andb] in Hr.
  set (dir := path_join (cwd w) bundle_path) in *.
  cbn [run_in_order] in Hrun.
  unfold bind at 1 in Hr. unfold git_do at 1, bind at 1, git_run at 1 in Hr.
  cbn [cwd out redis files ext calls] in Hr.
  destruct (git_exec E (ext w) (files w) dir ["pull"]) as [c1 [e1 f1]].
  destruct (c1 =? 0)%nat eqn:H1; cbn [ret raise] in Hr;
    [|injection Hrun as <- <- <- <-; rewrite H1; subst r;
      repeat split; reflexivity].
  unfold bind at 1 in Hr. unfold git_do at 1, bind at 1, git_run at 1 in Hr.
  cbn [cwd out redis files ext calls] in Hr.
  destruct (git_exec E e1 f1 dir ["submodule"; "init"]) as [c2 [e2 f2]].
  destruct (c2 =? 0)%nat eqn:H2; cbn [ret raise] in Hr;
    [|injection Hrun as <- <- <- <-; rewrite H2; subst r;
      repeat split; reflexivity].
  unfold bind at 1 in Hr. unfold git_do at 1, bind at 1, git_run at 1 in Hr.
  cbn [cwd out redis files ext calls] in Hr.
  destruct (git_exec E e2 f2 dir ["submodule"; "update"]) as [c3 [e3 f3]].
  destruct (c3 =? 0)%nat eqn:H3; cbn [ret raise] in Hr;
    [|injection Hrun as <- <- <- <-; rewrite H3; subst r;
      repeat split; reflexivity].
  injection Hrun as <- <- <- <-. cbn [Nat.eqb].
  unfold chdir_abs in Hr. cbn [cwd out redis files ext calls] in Hr.
  destruct (sys_isdir E e3 (cwd w)); subst r; repeat split; reflexivity.
Qed.

Lemma fetch_bundle_existing_witness :
  fst (fetch_bundle (Scripted.env_of Scenario_main.s_pull_fails)
         "Adafruit_CircuitPython_Bundle"
         "/work/.bundles/Adafruit_CircuitPython_Bundle"
         (Scripted.start "/work"))
  = Raise (ErrorReturnCode 1)
  /\ calls (snd (fetch_bundle (Scripted.env_of Scenario_main.s_pull_fails)
                   "Adafruit_CircuitPython_Bundle"
                   "/work/.bundles/Adafruit_CircuitPython_Bundle"
                   (Scripted.start "/work")))
     = [GitCall "/work/.bundles/Adafruit_CircuitPython_Bundle" ["pull"]].
Proof.
  destruct (fetch_bundle_existing (Scripted.env_of Scenario_main.s_pull_fails)
              "Adafruit_CircuitPython_Bundle"
              "/work/.bundles/Adafruit_CircuitPython_Bundle"
              (Scripted.start "/work")
              [GitCall "/work/.bundles/Adafruit_CircuitPython_Bundle" ["pull"]]
              1 tt [])
    as (Hfst & Hcalls & _).
  - discriminate.
  - reflexivity.
  - reflexivity.
  - split; [exact Hfst | exact Hcalls].
Defined.

(** X17.  [fetch_bundle] returns to the directory it was started in
    only when it completes.  Once it has entered a bundle that is on
    disk, any failure leaves the process inside the bundle. *)
Theorem fetch_bundle_strands {Ext} (E : Env Ext)
  (bundle bundle_path : string) (w : World Ext) :
  bundle_path <> "" ->
  sys_isdir E (ext w) (path_join (cwd w) bundle_path) = true ->
  cwd (snd (fetch_bundle E bundle bundle_path w))
  = match fst (fetch_bundle E bundle bundle_path w) with
    | Ok _ => cwd w
    | Raise _ => path_join (cwd w) bundle_path
    end.
Proof.
  intros Hpath Hdir.
  exact (proj2 (fetch_bundle_on_disk_run E bundle bundle_path w Hpath Hdir)).
Qed.

Lemma fetch_bundle_strands_witness :
  fst (fetch_bundle (Scripted.env_of Scenario_main.s_pull_fails)
         "Adafruit_CircuitPython_Bundle"
         "/work/.bundles/Adafruit_CircuitPython_Bundle"
         (Scripted.start "/work"))
  = Raise (ErrorReturnCode 1)
  /\ cwd (snd (fetch_bundle (Scripted.env_of Scenario_main.s_pull_fails)
                 "Adafruit_CircuitPython_Bundle"
                 "/work/.bundles/Adafruit_CircuitPython_Bundle"
                 (Scripted.start "/work")))
     = "/work/.bundles/Adafruit_CircuitPython_Bundle".
Proof.
  split; [reflexivity|].
  rewrite (fetch_bundle_strands (Scripted.env_of Scenario_main.s_pull_fails)
             "Adafruit_CircuitPython_Bundle"
             "/work/.bundles/Adafruit_CircuitPython_Bundle"
             (Scripted.start "/work")).
  - reflexivity.
  - discriminate.
  - reflexivity.
Defined.

(** X18.  In a continuous-integration run whose access token is not
    set, fetching a bundle that is not on disk creates its directory
    and then fails on the missing variable, before any command is run:
    nothing is cloned, and the process has not moved. *)
Theorem fetch_bundle_missing_token {Ext} (E : Env Ext)
  (bundle bundle_path : string) (w : World Ext) (e' : Ext) :
  sys_isdir E (ext w) (path_join (cwd w) bundle_path) = false ->
  sys_makedirs E (ext w) (path_join (cwd w) bundle_path) = Ok e' ->
  env_has E "GITHUB_WORKSPACE" = true ->
  store_get "ADABOT_GITHUB_ACCESS_TOKEN" (environ E) = None ->
  fetch_bundle E bundle bundle_path w
  = (Raise (KeyError "ADABOT_GITHUB_ACCESS_TOKEN"),
     mkWorld (cwd w) (out w) (redis w) (files w) e' (calls w)).
Proof.
  intros Hdir Hmk Hci Htoken.
  unfold fetch_bundle.
  unfold bind at 1. unfold os_path_isdir at 1. rewrite Hdir. cbn [negb].
  unfold bind at 1 2. unfold os_makedirs at 1. rewrite Hmk, Hci.
  unfold bind at 1. unfold env_get. rewrite Htoken. reflexivity.
Qed.

Lemma fetch_bundle_missing_token_witness :
  fetch_bundle (Scripted.env_of Scenario_token.s)
    "Adafruit_CircuitPython_Bundle" Scenario_token.bundle_dir
    (Scripted.start "/work")
  = (Raise (KeyError "ADABOT_GITHUB_ACCESS_TOKEN"), Scripted.start "/work").
Proof.
  apply (fetch_bundle_missing_token (Scripted.env_of Scenario_token.s)
           "Adafruit_CircuitPython_Bundle" Scenario_token.bundle_dir
           (Scripted.start "/work") tt); reflexivity.
Defined.

(* ----------------------------------------------------------------- *)
(** ** Addresses *)

Module AddressFacts.

Lemma split_on_nonempty (sep : ascii) (s : string) : split_on sep s <> [].
Proof.
  destruct s as [|c s]; simpl; [discriminate|].
  destruct (Ascii.eqb c sep); [discriminate|].
  destruct (split_on sep s); discriminate.
Qed.

(** Text without the separator is one part. *)
Lemma split_on_free (s : string) :
  slash_free s = true -> split_on "/" s = [s].
Proof.
  unfold slash_free. induction s as [|c s IH]; simpl; [reflexivity|].
  intros H. apply andb_true_iff in H. destruct H as [Hc Hs].
  apply negb_true_iff in Hc. rewrite Hc, (IH Hs). reflexivity.
Qed.

(** Splitting distributes over a separator. *)
Lemma split_on_app (sep : ascii) (a b : string) :
  split_on sep (a ++ String sep b)
  = (split_on sep a ++ split_on sep b)%list.
Proof.
  induction a as [|c a IH]; simpl.
  - rewrite Ascii.eqb_refl. reflexivity.
  - destruct (Ascii.eqb c sep); [rewrite IH; reflexivity|].
    rewrite IH.
    pose proof (split_on_nonempty sep a) as Hne.
    destruct (split_on sep a) as [|t ts]; [contradiction|]. reflexivity.
Qed.

Lemma rev_app (a b : string) : rev (a ++ b) = rev b ++ rev a.
Proof.
  induction a as [|c a IH]; simpl.
  - symmetry. apply ListingFacts.append_nil_r.
  - rewrite IH. apply ListingFacts.append_assoc.
Qed.

Lemma prefix_app (a b : string) : String.prefix a (a ++ b) = true.
Proof.
  induction a as [|c a IH]; simpl.
  - destruct b; reflexivity.
  - destruct (ascii_dec c c); [assumption | contradiction].
Qed.

Lemma endswith_app (s p : string) : endswith p (s ++ p) = true.
Proof. unfold endswith. rewrite rev_app. apply prefix_app. Qed.

Lemma length_app (a b : string) :
  String.length (a ++ b) = (String.length a + String.length b)%nat.
Proof. induction a as [|c a IH]; simpl; [reflexivity | now rewrite IH]. Qed.

Lemma substring_whole (a b : string) :
  String.substring 0 (String.length a) (a ++ b) = a.
Proof.
  induction a as [|c a IH]; simpl.
  - destruct b; reflexivity.
  - now rewrite IH.
Qed.

Lemma substring_skip (a b : string) (m : nat) :
  String.substring (String.length a) m (a ++ b) = String.substring 0 m b.
Proof. induction a as [|c a IH]; simpl; [reflexivity | assumption]. Qed.

Lemma drop_last_app (s p : string) : drop_last (String.length p) (s ++ p) = s.
Proof.
  unfold drop_last. rewrite length_app.
  replace (String.length s + String.length p - String.length p)%nat
    with (String.length s) by lia.
  apply substring_whole.
Qed.

(** The last two parts of an address that ends in an owner and a
    name. *)
Lemma split_on_tail (base user name : string) :
  slash_free user = true -> slash_free name = true ->
  List.rev (split_on "/" (base ++ "/" ++ user ++ "/" ++ name))
  = name :: user :: List.rev (split_on "/" base).
Proof.
  intros Hu Hn.
  change (base ++ "/" ++ user ++ "/" ++ name)
    with (base ++ String "/" (user ++ String "/" name)).
  rewrite !split_on_app, (split_on_free _ Hu), (split_on_free _ Hn).
  rewrite rev_app_distr. reflexivity.
Qed.

Lemma rfind_from_free (c : ascii) (s : string) (i last : Z) :
  forallb (fun d => negb (Ascii.eqb d c)) (list_ascii_of_string s) = true ->
  rfind_from c s i last = last.
Proof.
  revert i last. induction s as [|d s IH]; simpl; intros i last H;
    [reflexivity|].
  apply andb_true_iff in H. destruct H as [Hd Hs].
  apply negb_true_iff in Hd. rewrite Hd. apply IH. assumption.
Qed.

(** The last occurrence of a character that is followed by none. *)
Lemma rfind_from_last (c : ascii) (a b : string) (i last : Z) :
  forallb (fun d => negb (Ascii.eqb d c)) (list_ascii_of_string b) = true ->
  rfind_from c (a ++ String c b) i last
  = (i + Z.of_nat (String.length a))%Z.
Proof.
  intros Hb. revert i last. induction a as [|d a IH]; intros i last.
  - simpl. rewrite Ascii.eqb_refl, (rfind_from_free _ _ _ _ Hb). lia.
  - cbn [append rfind_from String.length]. rewrite IH. lia.
Qed.

Lemma rfind_from_app_free (c : ascii) (a b : string) (i last : Z) :
  forallb (fun d => negb (Ascii.eqb d c)) (list_ascii_of_string b) = true ->
  rfind_from c (a ++ b) i last = rfind_from c a i last.
Proof.
  intros Hb. revert i last. induction a as [|d a IH]; intros i last.
  - simpl. apply rfind_from_free. assumption.
  - cbn [append rfind_from]. apply IH.
Qed.

Lemma rfind_from_bound (c : ascii) (s : string) (i last : Z) :
  (last < i)%Z -> (rfind_from c s i last < i + Z.of_nat (String.length s))%Z.
Proof.
  revert i last. induction s as [|d s IH]; intros i last Hlt.
  - simpl. lia.
  - cbn [rfind_from String.length].
    assert (H : ((if Ascii.eqb d c then i else last) < i + 1)%Z)
      by (destruct (Ascii.eqb d c); lia).
    specialize (IH (i + 1)%Z _ H). lia.
Qed.

Lemma forallb_list_ascii_app (P : ascii -> bool) (a b : string) :
  forallb P (list_ascii_of_string (a ++ b))
  = forallb P (list_ascii_of_string a) && forallb P (list_ascii_of_string b).
Proof.
  induction a as [|c a IH]; simpl; [reflexivity|].
  rewrite IH. apply andb_assoc.
Qed.

End AddressFacts.

(** X19.  For every clone address that ends in an owner, a name and
    the suffix [.git], [repo_name] is the owner and the name with a
    slash between them, whatever precedes them in the address. *)
Theorem repo_name_of_clone_url (base user name : string) :
  slash_free user = true -> slash_free name = true ->
  repo_name (base ++ "/" ++ user ++ "/" ++ name ++ ".git")
  = Ok (user ++ "/" ++ name).
Proof.
  intros Hu Hn. unfold repo_name.
  replace (base ++ "/" ++ user ++ "/" ++ name ++ ".git")
    with ((base ++ "/" ++ user ++ "/" ++ name) ++ ".git").
  2:{ rewrite !ListingFacts.append_assoc. reflexivity. }
  rewrite AddressFacts.endswith_app.
  rewrite (AddressFacts.drop_last_app _ ".git").
  rewrite (AddressFacts.split_on_tail base user name Hu Hn). reflexivity.
Qed.

Lemma repo_name_of_clone_url_witness :
  repo_name "https://github.com/adafruit/Adafruit_CircuitPython_BusDevice.git"
  = Ok "adafruit/Adafruit_CircuitPython_BusDevice".
Proof.
  apply (repo_name_of_clone_url "https://github.com" "adafruit"
           "Adafruit_CircuitPython_BusDevice"); reflexivity.
Defined.

(** X20.  The title used in the listing document is built from the
    name of the library alone.  For every clone address that ends in a
    name and the suffix [.git], [url_name_of] drops everything up to
    the last slash and the suffix, also when the name has dots of its
    own; for an address without suffix and a name without dots it drops
    everything up to the last slash, whatever dots the host has. *)
Theorem url_name_of_clone_url (base name : string) :
  slash_free name = true ->
  url_name_of (base ++ "/" ++ name ++ ".git") = name
  /\ (dot_free name = true -> url_name_of (base ++ "/" ++ name) = name).
Proof.
  intros Hn. split.
  - unfold url_name_of, rfind.
    assert (Hslash : rfind_from "/" (base ++ "/" ++ name ++ ".git") 0 (-1)
                     = Z.of_nat (String.length base)).
    { change (base ++ "/" ++ name ++ ".git")
        with (base ++ String "/" (name ++ ".git")).
      rewrite AddressFacts.rfind_from_last; [lia|].
      rewrite AddressFacts.forallb_list_ascii_app.
      unfold slash_free in Hn. rewrite Hn. reflexivity. }
    assert (Hdot : rfind_from "." (base ++ "/" ++ name ++ ".git") 0 (-1)
                   = Z.of_nat (String.length base + 1 + String.length name)).
    { replace (base ++ "/" ++ name ++ ".git")
        with ((base ++ "/" ++ name) ++ String "." "git").
      2:{ rewrite !ListingFacts.append_assoc. reflexivity. }
      rewrite AddressFacts.rfind_from_last; [|reflexivity].
      rewrite !AddressFacts.length_app. simpl String.length. lia. }
    rewrite Hslash, Hdot.
    replace (Z.of_nat (String.length base)
             <? Z.of_nat (String.length base + 1 + String.length name))%Z
      with true by (symmetry; apply Z.ltb_lt; lia).
    unfold slice.
    replace (Z.to_nat (Z.of_nat (String.length base) + 1))
      with (S (String.length base)) by lia.
    replace (Z.to_nat
               (Z.of_nat (String.length base + 1 + String.length name)
                - (Z.of_nat (String.length base) + 1)))
      with (String.length name) by lia.
    change (base ++ "/" ++ name ++ ".git")
      with (base ++ String "/" (name ++ ".git")).
    replace (S (String.length base))
      with (String.length (base ++ "/")).
    2:{ rewrite AddressFacts.length_app. simpl. lia. }
    replace (base ++ String "/" (name ++ ".git"))
      with ((base ++ "/") ++ name ++ ".git").
    2:{ rewrite ListingFacts.append_assoc. reflexivity. }
    rewrite AddressFacts.substring_skip. apply AddressFacts.substring_whole.
  - intros Hd. unfold url_name_of, rfind.
    change (base ++ "/" ++ name) with (base ++ String "/" name).
    rewrite AddressFacts.rfind_from_last by exact Hn.
    rewrite (AddressFacts.rfind_from_app_free "." base (String "/" name)).
    2:{ unfold dot_free in Hd. simpl. exact Hd. }
    pose proof (AddressFacts.rfind_from_bound "." base 0 (-1)) as Hb.
    replace (0 + Z.of_nat (String.length base)
             <? rfind_from "." base 0 (-1))%Z
      with false by (symmetry; apply Z.ltb_ge; lia).
    unfold slice.
    replace (Z.to_nat (0 + Z.of_nat (String.length base) + 1))
      with (String.length (base ++ "/")).
    2:{ rewrite AddressFacts.length_app. simpl. lia. }
    replace (Z.to_nat
               (Z.of_nat (String.length (base ++ String "/" name))
                - (0 + Z.of_nat (String.length base) + 1)))
      with (String.length name).
    2:{ rewrite AddressFacts.length_app. simpl String.length. lia. }
    replace (base ++ String "/" name) with ((base ++ "/") ++ name ++ "").
    2:{ rewrite ListingFacts.append_assoc, ListingFacts.append_nil_r.
        reflexivity. }
    rewrite AddressFacts.substring_skip. apply AddressFacts.substring_whole.
Qed.

Lemma url_name_of_clone_url_witness :
  url_name_of "https://github.com/adafruit/Adafruit_CircuitPython_ADS1x15.git"
  = "Adafruit_CircuitPython_ADS1x15"
  /\ url_name_of "https://github.com/adafruit/Adafruit_CircuitPython_ADS1x15"
     = "Adafruit_CircuitPython_ADS1x15".
Proof.
  destruct (url_name_of_clone_url "https://github.com/adafruit"
              "Adafruit_CircuitPython_ADS1x15") as [H1 H2].
  - reflexivity.
  - split; [exact H1 | apply H2; reflexivity].
Defined.

(* ----------------------------------------------------------------- *)
(** ** The commit message *)

Lemma update_message_unusable (u : update) :
  slash_free (url_of u) = true ->
  update_message u = Raise (ValueError "unpack").
Proof.
  destruct u as [[[url old_commit] new_commit] summary].
  unfold url_of. cbn [fst]. intros H. unfold update_message.
  rewrite (AddressFacts.split_on_free _ H). reflexivity.
Qed.

Lemma update_message_outcome (u : update) :
  (exists m, update_message u = Ok m)
  \/ update_message u = Raise (ValueError "unpack").
Proof.
  destruct u as [[[url old_commit] new_commit] summary].
  unfold update_message.
  destruct (List.rev (split_on "/" url)) as [|repo [|user rest]];
    [right; reflexivity | right; reflexivity | left; eexists; reflexivity].
Qed.

(** One record without a usable address spoils the whole message. *)
Lemma message_unusable (update_info : list update) :
  Exists (fun u => slash_free (url_of u) = true) update_info ->
  forall message,
    rfold update_info
          (fun message u =>
             rbind (update_message u) (fun m => Ok (message ++ [m])%list))
          message
    = Raise (ValueError "unpack").
Proof.
  induction update_info as [|u us IH]; intros Hex message.
  - inversion Hex.
  - cbn [rfold].
    destruct (update_message_outcome u) as [[m Hm] | Hm]; rewrite Hm;
      cbn [rbind]; [|reflexivity].
    apply IH. inversion Hex as [? ? Hu | ? ? Hus]; subst; [|assumption].
    rewrite (update_message_unusable u Hu) in Hm. discriminate.
Qed.

(** The run of [repo_version]: one or two read-only commands, where the
    process is. *)
Lemma repo_version_run {Ext} (E : Env Ext) (w : World Ext) :
  cwd (snd (repo_version E w)) = cwd w
  /\ exists done,
       calls (snd (repo_version E w)) = (List.rev done ++ calls w)%list
       /\ exists rest, VERSION (cwd w) = (done ++ rest)%list.
Proof.
  unfold VERSION.
  remember (repo_version E w) as r eqn:Hr.
  unfold repo_version in Hr. unfold bind at 1, git_query at 1 in Hr.
  destruct (git_read E (ext w) (files w) (cwd w)
              ["describe"; "--tags"; "--exact-match"]) as [code version].
  destruct (code =? 0)%nat;
    [subst r; split; [reflexivity|];
     exists [GitCall (cwd w) ["describe"; "--tags"; "--exact-match"]];
     split; [reflexivity | eexists; reflexivity]|].
  destruct (code =? 128)%nat;
    [|subst r; split; [reflexivity|];
      exists [GitCall (cwd w) ["describe"; "--tags"; "--exact-match"]];
      split; [reflexivity | eexists; reflexivity]].
  unfold bind, git_query in Hr. cbn [cwd out redis files ext calls record_call] in Hr.
  destruct (git_read E (ext w) (files w) (cwd w)
              ["log"; "--pretty=format:%h"; "-n"; "1"]) as [code' version'].
  destruct (code' =? 0)%nat; subst r;
    (split; [reflexivity|];
     exists (VERSION (cwd w)); split; [reflexivity | exists []; reflexivity]).
Qed.

(** X21.  A change record whose address has no slash makes
    [commit_updates] fail before anything is staged: the run raises,
    and the only commands it has run are those that read the version of
    the program itself, where the program was started. *)
Theorem commit_updates_unusable_address {Ext} (E : Env Ext)
  (bundle_path : string) (update_info : list update) (w : World Ext) :
  Exists (fun u => slash_free (url_of u) = true) update_info ->
  (exists e, fst (commit_updates E bundle_path update_info w) = Raise e)
  /\ exists done,
       calls (snd (commit_updates E bundle_path update_info w))
       = (List.rev done ++ calls w)%list
       /\ exists rest, VERSION (cwd w) = (done ++ rest)%list.
Proof.
  intros Hex.
  destruct (repo_version_run E w) as (Hcwd & done & Hcalls & Hdone).
  remember (commit_updates E bundle_path update_info w) as r eqn:Hr.
  unfold commit_updates in Hr.
  unfold bind at 1, getcwd at 1 in Hr. unfold bind at 1 in Hr.
  destruct (repo_version E w) as [[version|e] w1]; cbn [snd] in Hcwd, Hcalls;
    [|subst r; split; [eexists; reflexivity | exists done; split; assumption]].
  unfold bind at 1, chdir at 1 in Hr.
  destruct (negb (String.eqb bundle_path "")
            && sys_isdir E (ext w1) (path_join (cwd w1) bundle_path));
    [|subst r; split; [eexists; reflexivity | exists done; split; assumption]].
  unfold bind at 1, lift at 1 in Hr.
  rewrite (message_unusable update_info Hex) in Hr.
  subst r. split; [eexists; reflexivity | exists done; split; assumption].
Qed.

Lemma commit_updates_unusable_address_witness :
  (exists e,
     fst (commit_updates (Scripted.env_of Scripted.quiet)
            "/work/.bundles/CircuitPython_Community_Bundle"
            [("https://github.com/adafruit/foo", "1.0.0", "1.0.1", "  > fix");
             ("foo", "abc123", "def456", "")]
            (Scripted.start "/work"))
     = Raise e)
  /\ exists done,
       calls (snd (commit_updates (Scripted.env_of Scripted.quiet)
                     "/work/.bundles/CircuitPython_Community_Bundle"
                     [("https://github.com/adafruit/foo", "1.0.0", "1.0.1",
                       "  > fix");
                      ("foo", "abc123", "def456", "")]
                     (Scripted.start "/work")))
       = (List.rev done ++ [])%list
       /\ exists rest, VERSION "/work" = (done ++ rest)%list.
Proof.
  apply (commit_updates_unusable_address (Scripted.env_of Scripted.quiet)
           "/work/.bundles/CircuitPython_Community_Bundle"
           [("https://github.com/adafruit/foo", "1.0.0", "1.0.1", "  > fix");
            ("foo", "abc123", "def456", "")]
           (Scripted.start "/work")).
  apply Exists_cons_tl. apply Exists_cons_hd. reflexivity.
Defined.
